(** * detector/views.py: the detection and segmentation upload handlers

    A shallow embedding of [src/object_segmentation/detector/views.py].
    The two Django views save an uploaded image, run a pretrained model on
    it, draw the results on a BGR working copy and write that copy back to
    the media directory.  Library calls (PIL, transformers, torchvision,
    OpenCV, numpy, Django's storage) are modelled by what they do to the
    values the views hand them; the pretrained networks and the raster
    primitives stay abstract in the class [Libraries]. *)

From Stdlib Require Import ZArith QArith Qround Bool List Lia String Ascii.
From Stdlib Require Import Floats.SpecFloat.
From stdpp Require Import gmap strings list.

Local Open Scope Z_scope.

(** ** IEEE-754 values

    Scores, boxes and masks are [torch.float32] tensors; numpy's blend
    arithmetic runs in [float64].  Both formats are instances of the
    standard library's [spec_float], with the format given by the mantissa
    width [prec] and the exponent bound [emax]. *)

Module IEEE.

Definition prec32 : Z := 24.
Definition emax32 : Z := 128.
Definition prec64 : Z := 53.
Definition emax64 : Z := 1024.

(** A value a float32 tensor can hold. *)
Definition is_binary32 (x : spec_float) : Prop :=
  valid_binary prec32 emax32 x = true.

(** The rational [m * 2^e]. *)
Definition dyadic (m : positive) (e : Z) : Q :=
  match e with
  | Z0 => Zpos m # 1
  | Zpos p => (Zpos m * 2 ^ Zpos p) # 1
  | Zneg p => Zpos m # (2 ^ p)%positive
  end.

(** [q <= x] and [q < x] for the real number a float denotes, with the
    infinities at the ends; NaN is above nothing. *)
Definition ge (x : spec_float) (q : Q) : Prop :=
  match x with
  | S754_nan => False
  | S754_infinity s => s = false
  | S754_zero _ => (q <= 0)%Q
  | S754_finite s m e => (q <= if s then Qopp (dyadic m e) else dyadic m e)%Q
  end.

Definition gt (x : spec_float) (q : Q) : Prop :=
  match x with
  | S754_nan => False
  | S754_infinity s => s = false
  | S754_zero _ => (q < 0)%Q
  | S754_finite s m e => (q < if s then Qopp (dyadic m e) else dyadic m e)%Q
  end.

Definition ge_bool (x : spec_float) (q : Q) : bool :=
  match x with
  | S754_nan => false
  | S754_infinity s => negb s
  | S754_zero _ => Qle_bool q 0
  | S754_finite s m e => Qle_bool q (if s then Qopp (dyadic m e) else dyadic m e)
  end.

Definition gt_bool (x : spec_float) (q : Q) : bool :=
  match x with
  | S754_nan => false
  | S754_infinity s => negb s
  | S754_zero _ => negb (Qle_bool 0 q)
  | S754_finite s m e => negb (Qle_bool (if s then Qopp (dyadic m e) else dyadic m e) q)
  end.

(** A Python [float] literal is the binary64 nearest to the decimal. *)
Definition py_float_0_9 : spec_float := S754_finite false 8106479329266893 (-53).
Definition py_float_0_5 : spec_float := S754_finite false 4503599627370496 (-53).

(** An integer as a float (exact below [2^prec]). *)
Definition of_int (prec emax : Z) (n : Z) : spec_float :=
  binary_normalize prec emax n 0 false.

(** Conversion to float32, round to nearest even: what torch does to a
    Python scalar that meets a float32 tensor in a comparison or a
    product (the scalar takes the tensor's dtype). *)
Definition to_float32 (x : spec_float) : spec_float :=
  match x with
  | S754_finite s m e => binary_normalize prec32 emax32 (cond_Zopp s (Zpos m)) e s
  | _ => x
  end.

(** Truncation toward zero of a finite float. *)
Definition trunc (x : spec_float) : option Z :=
  match x with
  | S754_zero _ => Some 0
  | S754_finite s m e =>
      Some (cond_Zopp s (match e with
                         | Z0 => Zpos m
                         | Zpos p => Zpos m * 2 ^ Zpos p
                         | Zneg p => Zpos m / 2 ^ Zpos p
                         end))
  | S754_infinity _ | S754_nan => None
  end.

(** The C cast from a float to [uint8] that numpy's assignment into a
    uint8 array and torch's [.byte()] perform: truncate toward zero and
    keep the low eight bits.  Outside [0, 256) and on NaN the cast is
    platform-defined; the blend stays inside the range (a half sum of
    two bytes), and so does a mask of probabilities times 255. *)
Definition to_uint8 (x : spec_float) : Z :=
  match trunc x with
  | Some n => n mod 256
  | None => 0
  end.

(** Truncation of a rational toward zero. *)
Definition Qtrunc (q : Q) : Z := Z.quot (Qnum q) (Zpos (Qden q)).

End IEEE.

(** ** numpy arrays *)

(** A [uint8] pixel of an H x W x 3 array: its three channel values. *)
Definition pixel : Type := Z * Z * Z.

(** An array with two leading dimensions, stored row-major. *)
Record ndarray (A : Type) : Type := NdArray {
  nd_rows : nat;
  nd_cols : nat;
  nd_data : list A
}.
Arguments NdArray {A} _ _ _.
Arguments nd_rows {A} _.
Arguments nd_cols {A} _.
Arguments nd_data {A} _.

(** The decoded picture and the working copy: H x W x 3, dtype uint8. *)
Definition image : Type := ndarray pixel.

Global Instance ndarray_inhabited {A} : Inhabited (ndarray A) :=
  populate (NdArray 0 0 []).

Definition nd_map {A B} (f : A -> B) (a : ndarray A) : ndarray B :=
  NdArray (nd_rows a) (nd_cols a) (map f (nd_data a)).

Definition same_shape {A B} (a : ndarray A) (b : ndarray B) : bool :=
  Nat.eqb (nd_rows a) (nd_rows b) && Nat.eqb (nd_cols a) (nd_cols b).

(** [cv2.cvtColor(src, cv2.COLOR_RGB2BGR)]: a new array with the first and
    the third channel of every pixel exchanged. *)
Definition swap_rb (p : pixel) : pixel :=
  let '(r, g, b) := p in (b, g, r).

Definition cvtColor_RGB2BGR (src : image) : image := nd_map swap_rb src.

(** Line 82, one channel: [uint8 * 0.5 + uint8 * 0.5] evaluated in float64
    (numpy promotes a uint8 array times a Python float to float64), then
    cast back to uint8 by the assignment into [image_cv]. *)
Definition f64_of_uint8 (n : Z) : spec_float := IEEE.of_int IEEE.prec64 IEEE.emax64 n.

Definition blend_channel (prev color : Z) : Z :=
  IEEE.to_uint8
    (SFadd IEEE.prec64 IEEE.emax64
       (SFmul IEEE.prec64 IEEE.emax64 (f64_of_uint8 prev) IEEE.py_float_0_5)
       (SFmul IEEE.prec64 IEEE.emax64 (f64_of_uint8 color) IEEE.py_float_0_5)).

Definition blend_pixel (p color : pixel) : pixel :=
  let '(p0, p1, p2) := p in
  let '(c0, c1, c2) := color in
  (blend_channel p0 c0, blend_channel p1 c1, blend_channel p2 c2).

(** Line 80: [mask[0].mul(255).byte().numpy()], one element.  The product
    is a float32 product (the Python int 255 takes the tensor's dtype). *)
Definition mask_byte (m : spec_float) : Z :=
  IEEE.to_uint8
    (SFmul IEEE.prec32 IEEE.emax32 m (IEEE.of_int IEEE.prec32 IEEE.emax32 255)).

(** [mask > 128] on the uint8 array. *)
Definition mask_on (m : spec_float) : bool := 128 <? mask_byte m.

(** Python exceptions, by class name. *)
Inductive exn : Type := PyExn (cls : string).

Inductive Result (A : Type) : Type :=
| Ok (a : A)
| Raise (e : exn).
Arguments Ok {A} _.
Arguments Raise {A} _.

Definition IndexError : exn := PyExn "IndexError".
Definition KeyError : exn := PyExn "KeyError".
Definition ValueError : exn := PyExn "ValueError".
Definition OverflowError : exn := PyExn "OverflowError".
Definition FileNotFoundError : exn := PyExn "FileNotFoundError".
Definition UnidentifiedImageError : exn := PyExn "UnidentifiedImageError".
Definition cv2_error : exn := PyExn "cv2.error".

(** The pure part of line 82: [img[sel] = img[sel] * 0.5 + color * 0.5]
    for a boolean index [sel] (numpy rejects a boolean index whose shape
    differs from the leading dimensions of the indexed array). *)
Definition masked_blend (img : image) (sel : ndarray bool) (color : pixel)
  : Result image :=
  if same_shape img sel then
    Ok (NdArray (nd_rows img) (nd_cols img)
          (zip_with (fun p (on : bool) => if on then blend_pixel p color else p)
                    (nd_data img) (nd_data sel)))
  else Raise IndexError.

(** Python's [int(x)] on a float. *)
Definition py_int (x : spec_float) : Result Z :=
  match x with
  | S754_nan => Raise ValueError
  | S754_infinity _ => Raise OverflowError
  | _ => match IEEE.trunc x with Some n => Ok n | None => Raise ValueError end
  end.

(** Line 43: [[int(i) for i in box.tolist()]], left to right. *)
Definition int_box (box : spec_float * spec_float * spec_float * spec_float)
  : Result (Z * Z * Z * Z) :=
  let '(b0, b1, b2, b3) := box in
  match py_int b0 with
  | Raise e => Raise e
  | Ok x0 =>
      match py_int b1 with
      | Raise e => Raise e
      | Ok y0 =>
          match py_int b2 with
          | Raise e => Raise e
          | Ok x1 =>
              match py_int b3 with
              | Raise e => Raise e
              | Ok y1 => Ok (x0, y0, x1, y1)
              end
          end
      end
  end.

(** ** Model outputs *)

(** One row of DETR's post-processed output before thresholding: the
    class probability, the class id and the box corners scaled to the
    picture ([scores], [labels] and [boxes] have the same leading
    dimension, one row per query). *)
Record RawDetection : Type := {
  det_score : spec_float;
  det_label : Z;
  det_box : spec_float * spec_float * spec_float * spec_float
}.

(** One instance of Mask R-CNN's prediction: [masks[i]] is a 1 x H x W
    float32 tensor of probabilities, of which [mask[0]] is the H x W
    plane. *)
Record Instance : Type := {
  inst_mask : ndarray spec_float;
  inst_score : spec_float;
  inst_label : Z
}.

(** Line 72: [torch.from_numpy(image_np).permute(2, 0, 1).float() / 255.0],
    the three channel planes of the picture as float32 in [0, 1]. *)
Definition f32_div255 (n : Z) : spec_float :=
  SFdiv IEEE.prec32 IEEE.emax32
    (IEEE.of_int IEEE.prec32 IEEE.emax32 n) (IEEE.of_int IEEE.prec32 IEEE.emax32 255).

Definition image_tensor (image_np : image) : list (ndarray spec_float) :=
  [ nd_map (fun p : pixel => f32_div255 (p.1.1)) image_np;
    nd_map (fun p : pixel => f32_div255 (p.1.2)) image_np;
    nd_map (fun p : pixel => f32_div255 (p.2)) image_np ].

(** ** What [cv2.imwrite] can do

    It raises [cv2.error] when OpenCV has no encoder for the extension of
    the name, before it touches the file.  Otherwise it returns a boolean:
    [True] when the file holds the encoding of the picture, [False] when
    the encoder has refused the picture or the file could not be opened,
    and then the file that had the name is as it was, is gone, or holds
    what the encoder wrote before it gave up. *)
Inductive Leftover : Type :=
| Untouched
| Removed
| Partial (data : list Byte.byte).

Inductive ImwriteOutcome : Type :=
| ImwriteTrue (data : list Byte.byte)
| ImwriteFalse (rest : Leftover)
| ImwriteError.

(** What a failed [cv2.imwrite] leaves of the file it was to write. *)
Definition leftover (rest : Leftover) (old : option (list Byte.byte))
  : option (list Byte.byte) :=
  match rest with
  | Untouched => old
  | Removed => None
  | Partial data => Some data
  end.

(** A C [int], the type of the coordinates of a [cv::Point]: the binding
    of a drawing call raises [cv2.error] on a Python integer outside it. *)
Definition c_int (z : Z) : bool := (-2147483648 <=? z) && (z <=? 2147483647).

Definition c_point (pt : Z * Z) : bool := c_int pt.1 && c_int pt.2.

(** ** The libraries the views call

    What stays abstract: the decoder, the two pretrained networks, the
    raster primitives, the encoder behind [cv2.imwrite], number formatting
    and the generator behind [np.random]. *)
Class Libraries : Type := {
  (** [np.array(Image.open(path).convert("RGB"))] on the file's bytes, or
      the exception PIL raises on them ([UnidentifiedImageError] when it
      cannot identify the file). *)
  pil_decode : list Byte.byte -> Result image;
  (** [detr_processor], the forward pass of [detr_model] and the softmax
      and box rescaling of [post_process_object_detection], up to but not
      including its threshold. *)
  detr_predict : image -> Result (list RawDetection);
  (** [detr_model.config.id2label]. *)
  id2label : gmap Z string;
  (** [maskrcnn_model([image_tensor])[0]]. *)
  maskrcnn_predict : list (ndarray spec_float) -> Result (list Instance);
  (** [cv2.rectangle(img, pt1, pt2, color, thickness)] on points that fit
      [cv::Point]. *)
  cv2_rectangle : image -> Z * Z -> Z * Z -> pixel -> Z -> image;
  (** [cv2.putText(img, text, org, FONT_HERSHEY_SIMPLEX, 0.5, color, thickness)]
      on a point that fits [cv::Point]. *)
  cv2_putText : image -> string -> Z * Z -> pixel -> Z -> image;
  (** [f"{x:.2f}"]. *)
  format_2f : spec_float -> string;
  (** [cv2.imwrite(path, img)] for the file of that name. *)
  cv2_imwrite : string -> image -> ImwriteOutcome;
  (** The raw outputs of numpy's global generator, in the order drawn. *)
  np_random : nat -> Z
}.

(** ** The process state the views act on *)

Definition loc : Type := positive.

Inductive Model : Type := DETR | MaskRCNN.

(** Calls with an effect outside the view's own locals, in program order. *)
Inductive Event : Type :=
| EvSave (name : string)
| EvForward (m : Model)
| EvRectangle (img : loc) (pt1 pt2 : Z * Z)
| EvPutText (img : loc) (text : string) (org : Z * Z)
| EvMaskedAssign (img : loc) (sel : ndarray bool) (color : pixel)
| EvImwrite (name : string) (returned : bool).

Record World : Type := {
  (** the files under [settings.MEDIA_ROOT], by name *)
  media : gmap string (list Byte.byte);
  (** the numpy arrays alive, by object identity *)
  arrays : gmap loc image;
  (** the calls made so far, oldest first *)
  events : list Event;
  (** how many numbers [np.random] has handed out *)
  np_drawn : nat;
  (** what [get_random_string(7)] returns next, and after that *)
  name_tape : list string
}.

Definition set_media (f : gmap string (list Byte.byte) -> gmap string (list Byte.byte))
  (w : World) : World :=
  {| media := f (media w); arrays := arrays w; events := events w;
     np_drawn := np_drawn w; name_tape := name_tape w |}.

Definition set_arrays (f : gmap loc image -> gmap loc image) (w : World) : World :=
  {| media := media w; arrays := f (arrays w); events := events w;
     np_drawn := np_drawn w; name_tape := name_tape w |}.

Definition log (ev : Event) (w : World) : World :=
  {| media := media w; arrays := arrays w; events := events w ++ [ev];
     np_drawn := np_drawn w; name_tape := name_tape w |}.

Definition set_np_drawn (n : nat) (w : World) : World :=
  {| media := media w; arrays := arrays w; events := events w;
     np_drawn := n; name_tape := name_tape w |}.

Definition set_name_tape (t : list string) (w : World) : World :=
  {| media := media w; arrays := arrays w; events := events w;
     np_drawn := np_drawn w; name_tape := t |}.

(** A computation on the world that returns, raises, or ([None]) is still
    searching for a free file name when the tape of random suffixes ends. *)
Definition M (A : Type) : Type := World -> option (Result A * World).

Definition ret {A} (a : A) : M A := fun w => Some (Ok a, w).

Definition raise {A} (e : exn) : M A := fun w => Some (Raise e, w).

Definition bind {A B} (m : M A) (k : A -> M B) : M B :=
  fun w =>
    match m w with
    | None => None
    | Some (Raise e, w') => Some (Raise e, w')
    | Some (Ok a, w') => k a w'
    end.

Notation "x <- m ;; k" := (bind m (fun x => k))
  (at level 100, m at next level, right associativity).
Notation "m ;;; k" := (bind m (fun _ => k))
  (at level 100, right associativity).

Definition lift {A} (r : Result A) : M A := fun w => Some (r, w).

Definition modify (f : World -> World) : M unit := fun w => Some (Ok tt, f w).

Definition gets {A} (f : World -> A) : M A := fun w => Some (Ok (f w), w).

(** A [for] loop over a list. *)
Fixpoint for_each {A} (xs : list A) (body : A -> M unit) : M unit :=
  match xs with
  | [] => ret tt
  | x :: xs' => body x ;;; for_each xs' body
  end.

(** A new array object. *)
Definition new_array (a : image) : M loc :=
  fun w =>
    let l := fresh (dom (arrays w)) in
    Some (Ok l, set_arrays (insert l a) w).

Definition read_array (l : loc) : M image := gets (fun w => arrays w !!! l).

(** An in-place update of the array object [l]. *)
Definition update_array (l : loc) (f : image -> image) : M unit :=
  modify (set_arrays (alter f l)).

(** ** Django: requests, responses, file storage *)

Record UploadedFile : Type := {
  file_name : string;
  file_content : list Byte.byte
}.

Record HttpRequest : Type := {
  method : string;
  FILES : gmap string UploadedFile
}.

(** [render(request, template, context)]: the page is determined by the
    template and the context. *)
Record HttpResponse : Type := {
  template : string;
  context : gmap string string
}.

Definition render (tpl : string) (ctx : gmap string string) : HttpResponse :=
  {| template := tpl; context := ctx |}.

(** [request.FILES.get(key)] used as a condition: a missing key gives
    [None], and a file object is true when its name is not empty. *)
Definition files_get_truthy (request : HttpRequest) (key : string) : bool :=
  match FILES request !! key with
  | Some f => negb (String.eqb (file_name f) "")
  | None => false
  end.

(** [request.FILES[key]]. *)
Definition files_getitem (request : HttpRequest) (key : string) : M UploadedFile :=
  match FILES request !! key with
  | Some f => ret f
  | None => raise (PyExn "MultiValueDictKeyError")
  end.

(** [pathlib.PurePath(file_name).suffixes], joined: nothing when the name
    ends in a dot, otherwise everything from the first dot that follows
    the leading dots. *)
Fixpoint ends_with_dot (s : string) : bool :=
  match s with
  | EmptyString => false
  | String c EmptyString => Ascii.eqb c "."
  | String _ s' => ends_with_dot s'
  end.

Fixpoint lstrip_dots (s : string) : string :=
  match s with
  | String c s' => if Ascii.eqb c "." then lstrip_dots s' else s
  | EmptyString => EmptyString
  end.

Fixpoint from_first_dot (s : string) : string :=
  match s with
  | EmptyString => EmptyString
  | String c s' => if Ascii.eqb c "." then s else from_first_dot s'
  end.

Definition joined_suffixes (file_name : string) : string :=
  if ends_with_dot file_name then EmptyString
  else from_first_dot (lstrip_dots file_name).

(** [s.removesuffix(suffix)]. *)
Definition removesuffix (s suffix : string) : string :=
  let n := (String.length s - String.length suffix)%nat in
  if negb (String.eqb suffix "") && String.eqb (substring n (String.length suffix) s) suffix
  then substring 0 n s
  else s.

(** [Storage.get_alternative_name]. *)
Definition get_alternative_name (file_root file_ext rnd : string) : string :=
  (file_root ++ "_" ++ rnd ++ file_ext)%string.

(** The loop of [Storage.get_available_name]: while a file of that name
    exists, try the root with the next random suffix. *)
Fixpoint first_available (dir : gmap string (list Byte.byte))
  (file_root file_ext name : string) (tape : list string)
  : option (string * list string) :=
  match dir !! name with
  | None => Some (name, tape)
  | Some _ =>
      match tape with
      | [] => None
      | rnd :: tape' =>
          first_available dir file_root file_ext
            (get_alternative_name file_root file_ext rnd) tape'
      end
  end.

Definition get_available_name (dir : gmap string (list Byte.byte))
  (name : string) (tape : list string) : option (string * list string) :=
  let file_ext := joined_suffixes name in
  let file_root := removesuffix name file_ext in
  first_available dir file_root file_ext name tape.

(** [FileSystemStorage(location=settings.MEDIA_ROOT).save(name, content)]
    for the base name of an upload: stores the content under the first
    available name and returns that name. *)
Definition fs_save (name : string) (content : list Byte.byte) : M string :=
  fun w =>
    match get_available_name (media w) name (name_tape w) with
    | None => None
    | Some (stored, tape') =>
        Some (Ok stored,
              log (EvSave stored)
                (set_media (insert stored content) (set_name_tape tape' w)))
    end.

(** Opening [os.path.join(settings.MEDIA_ROOT, filename)] for reading. *)
Definition read_file (filename : string) : M (list Byte.byte) :=
  fun w =>
    match media w !! filename with
    | Some data => Some (Ok data, w)
    | None => Some (Raise FileNotFoundError, w)
    end.

(** ** views.py *)

Section Views.
Context {L : Libraries}.

(** [Image.open(image_path).convert("RGB")] and [np.array(image)]
    (lines 32-33 and 70-71): the decoded picture as a new array. *)
Definition open_image (filename : string) : M loc :=
  data <- read_file filename ;;
  match pil_decode data with
  | Ok a => new_array a
  | Raise e => raise e
  end.

(** Lines 21-22. *)
Definition index (request : HttpRequest) : M HttpResponse :=
  ret (render "index.html" ∅).

(** [cv2.cvtColor(image_np, cv2.COLOR_RGB2BGR)] (lines 41 and 77): the
    result is a new array object. *)
Definition cvtColor (src : loc) : M loc :=
  a <- read_array src ;;
  new_array (cvtColor_RGB2BGR a).

(** [cv2.imwrite(processed_path, image_cv)] (lines 53 and 87).  The
    views drop what it returns, so only its [cv2.error] is noticed. *)
Definition imwrite (name : string) (img : loc) : M unit :=
  a <- read_array img ;;
  match cv2_imwrite name a with
  | ImwriteTrue data =>
      modify (fun w => log (EvImwrite name true) (set_media (insert name data) w))
  | ImwriteFalse rest =>
      modify (fun w => log (EvImwrite name false)
                         (set_media (partial_alter (leftover rest) name) w))
  | ImwriteError => raise cv2_error
  end.

(** The threshold step of [post_process_object_detection]:
    [scores[scores > threshold]], and the same rows of labels and boxes.
    The comparison is strict and runs in float32, the threshold taking
    the dtype of the scores. *)
Definition post_process_object_detection (raw : list RawDetection)
  (threshold : spec_float) : list RawDetection :=
  List.filter
    (fun d => SFltb (IEEE.to_float32 threshold) (det_score d))
    raw.

Definition green : pixel := (0, 255, 0).

(** [cv2.rectangle] and [cv2.putText] as the views call them: the
    binding converts the points first, then the picture is drawn on in
    place. *)
Definition rectangle (img : loc) (pt1 pt2 : Z * Z) (color : pixel) (thickness : Z)
  : M unit :=
  if c_point pt1 && c_point pt2 then
    update_array img (fun a => cv2_rectangle a pt1 pt2 color thickness) ;;;
    modify (log (EvRectangle img pt1 pt2))
  else raise cv2_error.

Definition putText (img : loc) (text : string) (org : Z * Z) (color : pixel)
  (thickness : Z) : M unit :=
  if c_point org then
    update_array img (fun a => cv2_putText a text org color thickness) ;;;
    modify (log (EvPutText img text org))
  else raise cv2_error.

(** The body of the loop at lines 42-48. *)
Definition draw_detection (image_cv : loc) (d : RawDetection) : M unit :=
  box <- lift (int_box (det_box d)) ;;
  label_str <- match id2label !! det_label d with
               | Some s => ret s
               | None => raise KeyError
               end ;;
  let score_str := format_2f (det_score d) in
  let '(x0, y0, x1, y1) := box in
  rectangle image_cv (x0, y0) (x1, y1) green 2 ;;;
  putText image_cv (label_str ++ " " ++ score_str)%string (x0, y0 - 10) green 2.

(** Lines 34-48 of [detection], its pipeline: inference, thresholding and
    drawing; returns the working copy. *)
Definition detect (image_np : loc) : M loc :=
  a <- read_array image_np ;;
  modify (log (EvForward DETR)) ;;;
  raw <- lift (detr_predict a) ;;
  let results := post_process_object_detection raw IEEE.py_float_0_9 in
  image_cv <- cvtColor image_np ;;
  for_each results (draw_detection image_cv) ;;;
  ret image_cv.

Definition detection (request : HttpRequest) : M HttpResponse :=
  if String.eqb (method request) "POST" && files_get_truthy request "image" then
    image_file <- files_getitem request "image" ;;
    filename <- fs_save (file_name image_file) (file_content image_file) ;;
    image_np <- open_image filename ;;
    image_cv <- detect image_np ;;
    let processed_filename := ("processed_" ++ filename)%string in
    imwrite processed_filename image_cv ;;;
    ret (render "detection_result.html"
           {[ "original" := filename; "processed" := processed_filename ]})
  else
    ret (render "detection.html" ∅).

(** [np.random.randint(low, high, dtype=np.uint8)], one element: some
    integer of [low, high), chosen by the generator's next output. *)
Definition randint (low high : Z) : M Z :=
  fun w =>
    Some (Ok (low + np_random (np_drawn w) mod (high - low)),
          set_np_drawn (S (np_drawn w)) w).

(** Line 81. *)
Definition random_color : M pixel :=
  c0 <- randint 0 255 ;;
  c1 <- randint 0 255 ;;
  c2 <- randint 0 255 ;;
  ret (c0, c1, c2).

(** [score > 0.5] (line 79). *)
Definition score_kept (score : spec_float) : bool :=
  SFltb (IEEE.to_float32 IEEE.py_float_0_5) score.

(** Line 82 on the array object [image_cv]. *)
Definition blend_mask (image_cv : loc) (sel : ndarray bool) (color : pixel) : M unit :=
  cur <- read_array image_cv ;;
  new <- lift (masked_blend cur sel color) ;;
  update_array image_cv (fun _ => new) ;;;
  modify (log (EvMaskedAssign image_cv sel color)).

(** The body of the loop at lines 78-82. *)
Definition blend_instance (image_cv : loc) (inst : Instance) : M unit :=
  if score_kept (inst_score inst) then
    let sel := nd_map mask_on (inst_mask inst) in
    color <- random_color ;;
    blend_mask image_cv sel color
  else ret tt.

(** Lines 72-82 of [segmentation], its pipeline: inference and blending;
    returns the working copy. *)
Definition segment (image_np : loc) : M loc :=
  a <- read_array image_np ;;
  modify (log (EvForward MaskRCNN)) ;;;
  predictions <- lift (maskrcnn_predict (image_tensor a)) ;;
  image_cv <- cvtColor image_np ;;
  for_each predictions (blend_instance image_cv) ;;;
  ret image_cv.

Definition segmentation (request : HttpRequest) : M HttpResponse :=
  if String.eqb (method request) "POST" && files_get_truthy request "image" then
    image_file <- files_getitem request "image" ;;
    filename <- fs_save (file_name image_file) (file_content image_file) ;;
    image_np <- open_image filename ;;
    image_cv <- segment image_np ;;
    let processed_filename := ("processed_" ++ filename)%string in
    imwrite processed_filename image_cv ;;;
    ret (render "segmentation_result.html"
           {[ "original" := filename; "processed" := processed_filename ]})
  else
    ret (render "segmentation.html" ∅).

End Views.

(** ** urls.py *)

(** [path(route, view, name=name)] with a route that has no converters:
    it matches the remaining path that equals the route. *)
Record URLPattern : Type := {
  pattern_route : string;
  pattern_view : HttpRequest -> M HttpResponse;
  pattern_name : string
}.

Definition Resolver404 : exn := PyExn "Resolver404".

Section Urls.
Context {L : Libraries}.

Definition urlpatterns : list URLPattern :=
  [ {| pattern_route := ""; pattern_view := index; pattern_name := "index" |};
    {| pattern_route := "detection/"; pattern_view := detection;
       pattern_name := "detection" |};
    {| pattern_route := "segmentation/"; pattern_view := segmentation;
       pattern_name := "segmentation" |} ].

(** Resolving a path against the patterns, first match first. *)
Definition resolve (path : string) : option URLPattern :=
  List.find (fun pat => String.eqb (pattern_route pat) path) urlpatterns.

(** The resolver handing the request to the view it finds. *)
Definition dispatch (path : string) (request : HttpRequest) : M HttpResponse :=
  match resolve path with
  | Some pat => pattern_view pat request
  | None => raise Resolver404
  end.

End Urls.

(** ** Vocabulary of the statements *)


Definition masked_assigns (evs : list Event) : list (loc * ndarray bool * pixel) :=
  omap (fun ev => match ev with
                  | EvMaskedAssign l sel color => Some (l, sel, color)
                  | _ => None
                  end) evs.

Definition forward_passes (evs : list Event) : list Model :=
  omap (fun ev => match ev with EvForward m => Some m | _ => None end) evs.

Definition files_written (evs : list Event) : list string :=
  omap (fun ev => match ev with
                  | EvSave name | EvImwrite name true => Some name
                  | _ => None
                  end) evs.

(** An in-place operation on the array object [l]. *)
Definition draws_on (l : loc) (ev : Event) : Prop :=
  match ev with
  | EvRectangle l' _ _ | EvPutText l' _ _ | EvMaskedAssign l' _ _ => l' = l
  | _ => False
  end.

(** A well-formed array holds rows * cols elements. *)
Definition well_formed {A} (a : ndarray A) : Prop :=
  length (nd_data a) = (nd_rows a * nd_cols a)%nat.

(** A pixel of a uint8 array. *)
Definition uint8_pixel (p : pixel) : Prop :=
  0 <= p.1.1 <= 255 /\ 0 <= p.1.2 <= 255 /\ 0 <= p.2 <= 255.

(** The half sum of two pixels, channel by channel. *)
Definition half_sum (p c : pixel) : pixel :=
  ((p.1.1 + c.1.1) / 2, (p.1.2 + c.1.2) / 2, (p.2 + c.2) / 2).

(** One masked assignment on the pixel list. *)
Definition blend_data (data : list pixel) (step : ndarray bool * pixel) : list pixel :=
  zip_with (fun p (on : bool) => if on then blend_pixel p step.2 else p)
    data (nd_data step.1).

(** One masked assignment seen from the pixel at index [i]. *)
Definition blend_at (i : nat) (q : pixel) (step : ndarray bool * pixel) : pixel :=
  match nd_data step.1 !! i with
  | Some true => blend_pixel q step.2
  | _ => q
  end.


(** The number a finite float denotes. *)
Definition float_value (x : spec_float) : option Q :=
  match x with
  | S754_zero _ => Some 0%Q
  | S754_finite s m e => Some (if s then Qopp (IEEE.dyadic m e) else IEEE.dyadic m e)
  | S754_infinity _ | S754_nan => None
  end.

(** A mask value as Mask R-CNN returns it: a float32 between 0 and 1. *)
Definition probability (m : spec_float) : Prop :=
  IEEE.is_binary32 m /\ IEEE.ge m 0 /\ ~ IEEE.gt m 1.

(** The pixels a mask selects, said on the numbers: 255 times the mask
    value is at least 129. *)
Definition selected (m : spec_float) : bool :=
  match float_value m with
  | Some q => Qle_bool 129 (255 * q)
  | None => false
  end.

(** A view that raises [e] on a request after the forward passes
    [passes], with the upload stored and no other file written. *)
Definition fails_with (view : HttpRequest -> M HttpResponse)
  (request : HttpRequest) (w : World) (f : UploadedFile) (stored : string)
  (e : exn) (passes : list Model) : Prop :=
  exists w' evs,
    view request w = Some (Raise e, w') /\
    events w' = events w ++ EvSave stored :: evs /\
    forward_passes evs = passes /\
    files_written evs = [] /\
    media w' = <[stored := file_content f]> (media w).

Section Vocabulary.
Context {L : Libraries}.

(** The colour line 81 draws when [n] numbers have been handed out. *)
Definition color_at (n : nat) : pixel :=
  (np_random n mod 255, np_random (S n) mod 255, np_random (S (S n)) mod 255).

(** The masked assignments of the loop at lines 78-82 on [preds], in
    order, when [n] random numbers have been handed out before it. *)
Fixpoint blend_steps (n : nat) (preds : list Instance) : list (ndarray bool * pixel) :=
  match preds with
  | [] => []
  | inst :: rest =>
      if score_kept (inst_score inst)
      then (nd_map mask_on (inst_mask inst), color_at n) :: blend_steps (3 + n) rest
      else blend_steps n rest
  end.

(** What the loop at lines 78-82 makes of the pixel [q] at index [i],
    said on the numbers: every instance with a score above 1/2, in the
    model's order, mixes the next colour of the generator half and half
    into the pixel when its mask selects the pixel; the other instances
    do nothing and draw no colour. *)
Fixpoint blended (n : nat) (preds : list Instance) (i : nat) (q : pixel) : pixel :=
  match preds with
  | [] => q
  | inst :: rest =>
      if IEEE.gt_bool (inst_score inst) (1 # 2) then
        blended (3 + n) rest i
          (match nd_data (inst_mask inst) !! i with
           | Some m =>
               if selected m
               then half_sum q (np_random n mod 255,
                                np_random (S n) mod 255,
                                np_random (S (S n)) mod 255)
               else q
           | None => q
           end)
      else blended n rest i q
  end.

(** What lines 43-45 compute for one detection, when neither they nor
    the drawing calls of lines 46-47 raise. *)
Definition draw_plan (d : RawDetection) : option (Z * Z * Z * Z * string) :=
  match int_box (det_box d), id2label !! det_label d with
  | Ok (x0, y0, x1, y1), Some label_str =>
      if c_point (x0, y0) && c_point (x1, y1) && c_point (x0, y0 - 10)
      then Some (x0, y0, x1, y1, (label_str ++ " " ++ format_2f (det_score d))%string)
      else None
  | _, _ => None
  end.

(** Lines 46-48 on the pixels. *)
Definition draw_image (a : image) (plan : Z * Z * Z * Z * string) : image :=
  let '(x0, y0, x1, y1, text) := plan in
  cv2_putText (cv2_rectangle a (x0, y0) (x1, y1) green 2) text (x0, y0 - 10) green 2.

Definition draw_events (l : loc) (plan : Z * Z * Z * Z * string) : list Event :=
  let '(x0, y0, x1, y1, text) := plan in
  [EvRectangle l (x0, y0) (x1, y1); EvPutText l text (x0, y0 - 10)].



End Vocabulary.

(** ** Definitions used by the proofs *)

(** The integers [lo, lo + n). *)
Definition Z_range (lo : Z) (n : nat) : list Z :=
  map (fun i => lo + Z.of_nat i) (seq 0 n).

(** Line 82, one operand: [uint8 * 0.5] in float64. *)
Definition halved (n : Z) : spec_float :=
  SFmul IEEE.prec64 IEEE.emax64 (f64_of_uint8 n) IEEE.py_float_0_5.

(** [halved n] is a positive float64 of value [n / 2], with an exponent
    between -54 and -46. *)
Definition halved_ok (n : Z) : bool :=
  match halved n with
  | S754_finite false m e =>
      (-54 <=? e) && (e <=? -46) && (Zpos m * 2 ^ (e + 54) =? n * 2 ^ 53)
  | _ => false
  end.

(** Normalising [s / 2], given as [s * 2^(53 - k)] at exponent [k - 54],
    and casting it to uint8 gives the integer half of [s]. *)
Definition sum_ok (k s : Z) : bool :=
  IEEE.to_uint8
    (binary_normalize IEEE.prec64 IEEE.emax64 (s * 2 ^ (53 - k)) (k - 54) false)
  =? s / 2.

Definition sum_row_ok (k : Z) : bool := forallb (sum_ok k) (Z_range 2 509).

Definition edge_ok (n : Z) : bool :=
  (blend_channel 0 n =? n / 2) && (blend_channel n 0 =? n / 2).

(** A step that only works in place on the array object [l]: files and
    the other arrays stay as they are, and the trace grows by operations
    on [l]. *)
Definition local_to (l : loc) (w w' : World) : Prop :=
  media w' = media w /\
  name_tape w' = name_tape w /\
  (forall l', l' <> l -> arrays w' !! l' = arrays w !! l') /\
  exists evs, events w' = events w ++ evs /\ Forall (draws_on l) evs.

(** The skeleton the two views share (lines 25-29, 32-33, 50-58 and
    their counterparts in [segmentation]). *)
Definition upload_view {L : Libraries} (pipeline : loc -> M loc)
  (result_page form_page : string) (request : HttpRequest) : M HttpResponse :=
  if String.eqb (method request) "POST" && files_get_truthy request "image" then
    image_file <- files_getitem request "image" ;;
    filename <- fs_save (file_name image_file) (file_content image_file) ;;
    image_np <- open_image filename ;;
    image_cv <- pipeline image_np ;;
    let processed_filename := ("processed_" ++ filename)%string in
    imwrite processed_filename image_cv ;;;
    ret (render result_page
           {[ "original" := filename; "processed" := processed_filename ]})
  else
    ret (render form_page ∅).

(** What the views need of a pipeline: on a live array it comes back,
    leaves the files and the decoded array alone, runs the network once
    and otherwise only works on the array object it creates. *)
Definition pipeline_ok {L : Libraries} (m : Model) (pipeline : loc -> M loc) : Prop :=
  forall (image_np : loc) (w : World) (a : image),
    arrays w !! image_np = Some a ->
    exists r w' evs,
      pipeline image_np w = Some (r, w') /\
      media w' = media w /\
      name_tape w' = name_tape w /\
      arrays w' !! image_np = Some a /\
      events w' = events w ++ EvForward m :: evs /\
      Forall (draws_on (fresh (dom (arrays w)))) evs /\
      (forall l, r = Ok l -> l = fresh (dom (arrays w))).

(** A pipeline that raises what its network raises. *)
Definition pipeline_raises {L : Libraries} (pipeline : loc -> M loc)
  (raises : image -> exn -> Prop) : Prop :=
  forall (image_np : loc) (w : World) (a : image) (e : exn),
    arrays w !! image_np = Some a ->
    raises a e ->
    exists w', pipeline image_np w = Some (Raise e, w').

(** ** Vocabulary of the further properties *)

(** What lines 43-47 raise on a detection, if anything: the conversion of
    the box comes first, the label lookup second, the points of the
    drawing calls last. *)
Definition draw_error {L : Libraries} (d : RawDetection) : option exn :=
  match int_box (det_box d) with
  | Raise e => Some e
  | Ok (x0, y0, x1, y1) =>
      match id2label !! det_label d with
      | None => Some KeyError
      | Some _ =>
          if c_point (x0, y0) && c_point (x1, y1) && c_point (x0, y0 - 10)
          then None
          else Some cv2_error
      end
  end.

(** What a detection has drawn when it is line 47 that raises: the
    rectangle of line 46. *)
Definition drawn_before_error {L : Libraries} (d : RawDetection)
  : option (Z * Z * Z * Z) :=
  match int_box (det_box d), id2label !! det_label d with
  | Ok (x0, y0, x1, y1), Some _ =>
      if c_point (x0, y0) && c_point (x1, y1) && negb (c_point (x0, y0 - 10))
      then Some (x0, y0, x1, y1)
      else None
  | _, _ => None
  end.

(** A float32 of the closed unit interval. *)
Definition unit_float32 (x : spec_float) : bool :=
  valid_binary IEEE.prec32 IEEE.emax32 x && IEEE.ge_bool x 0 && negb (IEEE.gt_bool x 1).

(** The world a detection leaves when it raises: as it was, or with the
    rectangle of line 46 when it is line 47 that raises. *)
Definition after_draw_error {L : Libraries} (l : loc) (d : RawDetection) (cur : image) (w : World)
  : World :=
  match drawn_before_error d with
  | None => w
  | Some (x0, y0, x1, y1) =>
      {| media := media w;
         arrays := <[l := cv2_rectangle cur (x0, y0) (x1, y1) green 2]> (arrays w);
         events := events w ++ [EvRectangle l (x0, y0) (x1, y1)];
         np_drawn := np_drawn w;
         name_tape := name_tape w |}
  end.

(** ** Synthetic libraries

    A decoder, two networks returning fixed scores and a rasteriser that
    paints one pixel, for running the views on concrete inputs. *)

Module Stub.

(** A float32 from [m * 2^e]. *)
Definition f32 (m : positive) (e : Z) : spec_float :=
  binary_normalize IEEE.prec32 IEEE.emax32 (Zpos m) e false.

Definition byte_of_Z (n : Z) : Byte.byte :=
  match Byte.of_N (Z.to_N n) with
  | Some b => b
  | None => Byte.x00
  end.

(** One row of two pixels; the first byte of the file is the red channel
    of the first pixel; an empty file is not a picture. *)
Definition decode (data : list Byte.byte) : Result image :=
  match data with
  | [] => Raise UnidentifiedImageError
  | b :: _ => Ok (NdArray 1 2 [(Z.of_N (Byte.to_N b), 0, 0); (10, 20, 30)])
  end.

(** Three queries: scores 0.96875, float32(0.9) and 0.25. *)
Definition detections : list RawDetection :=
  [ {| det_score := f32 31 (-5); det_label := 17;
       det_box := (f32 3 (-1), S754_zero false, f32 7 (-2), f32 1 0) |};
    {| det_score := IEEE.to_float32 IEEE.py_float_0_9; det_label := 17;
       det_box := (S754_zero false, S754_zero false, f32 1 0, f32 1 0) |};
    {| det_score := f32 1 (-2); det_label := 99;
       det_box := (S754_nan, S754_zero false, f32 1 0, f32 1 0) |} ].

(** Three instances: scores 0.75, 0.5 and 0.625; the first and the
    third mask overlap on the first pixel. *)
Definition instances : list Instance :=
  [ {| inst_mask := NdArray 1 2 [f32 1 0; S754_zero false];
       inst_score := f32 3 (-2); inst_label := 1 |};
    {| inst_mask := NdArray 1 2 [f32 1 0; f32 1 0];
       inst_score := f32 1 (-1); inst_label := 1 |};
    {| inst_mask := NdArray 1 2 [f32 1 0; f32 1 0];
       inst_score := f32 5 (-3); inst_label := 2 |} ].

(** Paints the pixel in the first row at column [pt1.1]. *)
Definition rectangle (a : image) (pt1 pt2 : Z * Z) (color : pixel) (thickness : Z) : image :=
  NdArray (nd_rows a) (nd_cols a) (<[Z.to_nat pt1.1 := color]> (nd_data a)).

Definition encode (name : string) (a : image) : ImwriteOutcome :=
  ImwriteTrue (flat_map (fun p : pixel => [byte_of_Z p.1.1; byte_of_Z p.1.2; byte_of_Z p.2])
          (nd_data a)).

(** The generator hands out 200 three times, then 0. *)
Definition random (n : nat) : Z := if (n <? 3)%nat then 200 else 0.

Definition lib : Libraries := {|
  pil_decode := decode;
  detr_predict := fun _ => Ok detections;
  id2label := {[ 17 := "cat" ]};
  maskrcnn_predict := fun _ => Ok instances;
  cv2_rectangle := rectangle;
  cv2_putText := fun a _ _ _ _ => a;
  format_2f := fun _ => "0.97";
  cv2_imwrite := encode;
  np_random := random
|}.

Definition picture : image := NdArray 1 2 [(0, 0, 0); (10, 20, 30)].

(** An empty media directory, one live array, one random suffix ready. *)
Definition empty_world : World := {|
  media := ∅; arrays := ∅; events := []; np_drawn := 0;
  name_tape := ["AbCdEfG"]
|}.

Definition with_picture : World := {|
  media := ∅; arrays := {[ 1%positive := picture ]}; events := []; np_drawn := 0;
  name_tape := []
|}.

Definition upload (name : string) (data : list Byte.byte) : HttpRequest := {|
  method := "POST";
  FILES := {[ "image" := {| file_name := name; file_content := data |} ]}
|}.

Definition get_page : HttpRequest := {| method := "GET"; FILES := ∅ |}.

(** Networks that find nothing above the thresholds. *)
Definition quiet : Libraries := {|
  pil_decode := decode;
  detr_predict := fun _ =>
    Ok [ {| det_score := f32 1 (-2); det_label := 17;
            det_box := (S754_zero false, S754_zero false, f32 1 0, f32 1 0) |};
         {| det_score := IEEE.to_float32 IEEE.py_float_0_9; det_label := 17;
            det_box := (S754_zero false, S754_zero false, f32 1 0, f32 1 0) |} ];
  id2label := {[ 17 := "cat" ]};
  maskrcnn_predict := fun _ =>
    Ok [ {| inst_mask := NdArray 1 2 [f32 1 0; f32 1 0];
            inst_score := f32 1 (-1); inst_label := 1 |};
         {| inst_mask := NdArray 1 2 [f32 1 0; f32 1 0];
            inst_score := f32 1 (-2); inst_label := 1 |} ];
  cv2_rectangle := rectangle;
  cv2_putText := fun a _ _ _ _ => a;
  format_2f := fun _ => "0.25";
  cv2_imwrite := encode;
  np_random := random
|}.

(** The response and the world a run ended with. *)
Definition response_of (r : option (Result HttpResponse * World)) : HttpResponse :=
  match r with
  | Some (Ok resp, _) => resp
  | _ => render "" ∅
  end.

Definition world_of (r : option (Result HttpResponse * World)) : World :=
  match r with
  | Some (_, w) => w
  | None => empty_world
  end.

Definition error_of (r : option (Result HttpResponse * World)) : option exn :=
  match r with
  | Some (Raise e, _) => Some e
  | _ => None
  end.

(** The first and the second upload of a file named [a.png]. *)
Definition first_run : option (Result HttpResponse * World) :=
  @detection Stub.lib (Stub.upload "a.png" [Byte.x07]) Stub.empty_world.

Definition second_run : option (Result HttpResponse * World) :=
  @detection Stub.lib (Stub.upload "a.png" [Byte.x09]) (Stub.world_of first_run).

End Stub.

(** ** Synthetic libraries with a row and a mask the loops stop at *)

Module Sample.

(** Three rows above 0.9; [id2label] lacks the label of the second. *)
Definition detections : list RawDetection :=
  [ {| det_score := Stub.f32 31 (-5); det_label := 17;
       det_box := (Stub.f32 3 (-1), S754_zero false, Stub.f32 7 (-2), Stub.f32 1 0) |};
    {| det_score := Stub.f32 31 (-5); det_label := 99;
       det_box := (S754_zero false, S754_zero false, Stub.f32 1 0, Stub.f32 1 0) |};
    {| det_score := Stub.f32 31 (-5); det_label := 17;
       det_box := (S754_zero false, S754_zero false, Stub.f32 1 0, Stub.f32 1 0) |} ].

(** Three instances above 0.5; the second mask is 2 x 1 where the picture
    is 1 x 2. *)
Definition instances : list Instance :=
  [ {| inst_mask := NdArray 1 2 [Stub.f32 1 0; S754_zero false];
       inst_score := Stub.f32 3 (-2); inst_label := 1 |};
    {| inst_mask := NdArray 2 1 [Stub.f32 1 0; Stub.f32 1 0];
       inst_score := Stub.f32 3 (-2); inst_label := 1 |};
    {| inst_mask := NdArray 1 2 [Stub.f32 1 0; Stub.f32 1 0];
       inst_score := Stub.f32 3 (-2); inst_label := 2 |} ].

Definition lib : Libraries := {|
  pil_decode := Stub.decode;
  detr_predict := fun _ => Ok detections;
  id2label := {[ 17 := "cat" ]};
  maskrcnn_predict := fun _ => Ok instances;
  cv2_rectangle := Stub.rectangle;
  cv2_putText := fun a _ _ _ _ => a;
  format_2f := fun _ => "0.97";
  cv2_imwrite := Stub.encode;
  np_random := Stub.random
|}.

(** One row above 0.9 whose first corner is 2^31, outside a C [int]. *)
Definition wide : list RawDetection :=
  [ {| det_score := Stub.f32 31 (-5); det_label := 17;
       det_box := (Stub.f32 1 31, S754_zero false, Stub.f32 1 0, Stub.f32 1 0) |} ].

Definition wide_lib : Libraries := {|
  pil_decode := Stub.decode;
  detr_predict := fun _ => Ok wide;
  id2label := {[ 17 := "cat" ]};
  maskrcnn_predict := fun _ => Ok instances;
  cv2_rectangle := Stub.rectangle;
  cv2_putText := fun a _ _ _ _ => a;
  format_2f := fun _ => "0.97";
  cv2_imwrite := Stub.encode;
  np_random := Stub.random
|}.

(** An encoder that refuses every picture and leaves no file. *)
Definition refusing : Libraries := {|
  pil_decode := Stub.decode;
  detr_predict := fun _ => Ok Stub.detections;
  id2label := {[ 17 := "cat" ]};
  maskrcnn_predict := fun _ => Ok Stub.instances;
  cv2_rectangle := Stub.rectangle;
  cv2_putText := fun a _ _ _ _ => a;
  format_2f := fun _ => "0.97";
  cv2_imwrite := fun _ _ => ImwriteFalse Removed;
  np_random := Stub.random
|}.

(** An instance above 0.5 whose mask is 129/256 on the first pixel and 1
    on the second. *)
Definition faint : Instance :=
  {| inst_mask := NdArray 1 2 [Stub.f32 129 (-8); Stub.f32 1 0];
     inst_score := Stub.f32 3 (-2); inst_label := 1 |}.

(** The picture [Stub.decode] makes of a file whose first byte is 7. *)
Definition decoded : image := NdArray 1 2 [(7, 0, 0); (10, 20, 30)].

Definition file (name : string) (data : list Byte.byte) : UploadedFile :=
  {| file_name := name; file_content := data |}.

(** What lines 43-45 compute for the first row of both detectors. *)
Definition plan : Z * Z * Z * Z * string := (1, 0, 1, 1, "cat 0.97"%string).

End Sample.

(** ** Vocabulary of the rounding facts *)

(** After [k] shifts of [m]: the quotient, and what the round and sticky
    bits say of the remainder. *)
Definition shr_inv (m k : Z) (mrs : shr_record) : Prop :=
  0 <= shr_m mrs /\
  exists rem,
    0 <= rem < 2 ^ k /\
    m = shr_m mrs * 2 ^ k + rem /\
    (if shr_r mrs then 2 ^ k <= 2 * rem else 2 * rem < 2 ^ k) /\
    (if shr_s mrs then rem <> 0 /\ 2 * rem <> 2 ^ k else rem = 0 \/ 2 * rem = 2 ^ k).

(** * Facts *)

Module IEEEFacts.
Import IEEE.

Lemma digits2_pos_bounds (m : positive) :
  2 ^ (Zpos (digits2_pos m) - 1) <= Zpos m < 2 ^ Zpos (digits2_pos m).
Proof.
  induction m as [p IH | p IH |]; cbn [digits2_pos].
  - rewrite Pos2Z.inj_succ, Z.pow_succ_r by lia.
    replace (Z.succ (Zpos (digits2_pos p)) - 1) with (Z.succ (Zpos (digits2_pos p) - 1)) by lia.
    rewrite Z.pow_succ_r by lia. lia.
  - rewrite Pos2Z.inj_succ, Z.pow_succ_r by lia.
    replace (Z.succ (Zpos (digits2_pos p)) - 1) with (Z.succ (Zpos (digits2_pos p) - 1)) by lia.
    rewrite Z.pow_succ_r by lia. lia.
  - cbn. lia.
Qed.

(** The shape of a finite float32: the exponent range, the width of the
    mantissa, and the leading bit of a normal number. *)
Lemma binary32_shape (m : positive) (e : Z) :
  bounded prec32 emax32 m e = true ->
  -149 <= e <= 104 /\ Zpos m < 16777216 /\ (-149 < e -> 8388608 <= Zpos m).
Proof.
  unfold bounded, canonical_mantissa, fexp, emin, prec32, emax32.
  intros H. apply andb_prop in H as [Hc He].
  apply Z.eqb_eq in Hc. apply Z.leb_le in He.
  pose proof (digits2_pos_bounds m) as [Hlo Hhi].
  set (d := Zpos (digits2_pos m)) in *.
  assert (Hd : 0 < d) by (unfold d; lia).
  split; [lia|]. split.
  - assert (d <= 24) by lia.
    eapply Z.lt_le_trans; [exact Hhi|].
    change 16777216 with (2 ^ 24). apply Z.pow_le_mono_r; lia.
  - intros Hn. assert (d = 24) as -> by lia. exact Hlo.
Qed.

Lemma pow2_pos (p : positive) : Zpos (2 ^ p) = 2 ^ Zpos p.
Proof. apply Pos2Z.inj_pow. Qed.

(** [py_float_0_9] is a float64 within half a unit in the last place of
    9/10, and [py_float_0_5] is 1/2. *)
Example py_float_0_9_is_nearest :
  valid_binary prec64 emax64 py_float_0_9 = true /\
  9 * 2 ^ 53 - 5 <= 10 * 8106479329266893 <= 9 * 2 ^ 53 + 5.
Proof. split; [reflexivity | cbn; lia]. Qed.

Example py_float_0_5_is_half :
  valid_binary prec64 emax64 py_float_0_5 = true /\
  (dyadic 4503599627370496 (-53) == 1 # 2)%Q.
Proof. split; reflexivity. Qed.

Lemma threshold32_0_9 :
  to_float32 py_float_0_9 = S754_finite false 15099494 (-24).
Proof. reflexivity. Qed.

Lemma threshold32_0_5 :
  to_float32 py_float_0_5 = S754_finite false 8388608 (-24).
Proof. reflexivity. Qed.

Lemma dyadic_pos m e : (0 < dyadic m e)%Q.
Proof.
  destruct e as [| p | p]; unfold dyadic, Qlt; cbn [Qnum Qden]; try lia.
  all: try (assert (0 < 2 ^ Zpos p) by (apply Z.pow_pos_nonneg; lia); nia).
Qed.

(** [s > float32(0.9)] decides [s >= 0.9]: no float32 lies between
    [float32(0.9)], which is below 0.9, and 0.9. *)
Lemma gt_threshold_0_9 (x : spec_float) :
  is_binary32 x ->
  SFltb (to_float32 py_float_0_9) x = true <-> ge x (9 # 10).
Proof.
  intros Hx. rewrite threshold32_0_9.
  destruct x as [s | s | | s m e]; cbn [ge].
  - unfold SFltb; cbn. split; [discriminate|]. unfold Qle; cbn; lia.
  - unfold SFltb; cbn. destruct s; split; congruence.
  - unfold SFltb; cbn. split; [discriminate | tauto].
  - apply binary32_shape in Hx as (He & Hm & Hn).
    destruct s.
    + unfold SFltb; cbn. split; [discriminate|].
      pose proof (dyadic_pos m e) as Hp. unfold Qle, Qlt, Qopp in *; cbn [Qnum Qden] in *.
      destruct (dyadic m e) as [n d]; cbn [Qnum Qden] in *. lia.
    + unfold SFltb, SFcompare.
      destruct (Z.compare_spec (-24) e) as [Heq | Hlt | Hgt].
      * subst e. cbn [dyadic]. unfold Qle; cbn [Qnum Qden].
      change (Zpos (2 ^ 24)) with 16777216.
      rewrite Pos.compare_cont_spec; cbn [Pos.switch_Eq].
      destruct (Pos.compare_spec 15099494 m) as [E | E | E];
        [subst m | apply Pos2Z.pos_lt_pos in E | apply Pos2Z.pos_lt_pos in E];
        clear He Hm Hn; try (set (z := Zpos m) in *; clearbody z);
        split; intros G; try reflexivity; try discriminate; lia.
    * specialize (Hn ltac:(lia)). split; [intros _ | reflexivity].
        destruct e as [| p | p]; unfold dyadic, Qle; cbn [Qnum Qden].
        -- lia.
        -- assert (0 < 2 ^ Zpos p) by (apply Z.pow_pos_nonneg; lia). nia.
        -- rewrite pow2_pos.
           assert (2 ^ Zpos p <= 8388608)
           by (change 8388608 with (2 ^ 23); apply Z.pow_le_mono_r; lia).
         lia.
      * split; [discriminate | intros G; exfalso].
        destruct e as [| p | p]; try lia.
        unfold dyadic, Qle in G; cbn [Qnum Qden] in G. rewrite pow2_pos in G.
        assert (33554432 <= 2 ^ Zpos p)
        by (change 33554432 with (2 ^ 25); apply Z.pow_le_mono_r; lia).
      lia.
Qed.
(** [s > 0.5], with 0.5 a float32. *)
Lemma gt_threshold_0_5 (x : spec_float) :
  is_binary32 x ->
  SFltb (to_float32 py_float_0_5) x = true <-> gt x (1 # 2).
Proof.
  intros Hx. rewrite threshold32_0_5.
  destruct x as [s | s | | s m e]; cbn [gt].
  - unfold SFltb; cbn. split; [discriminate|]. unfold Qlt; cbn; lia.
  - unfold SFltb; cbn. destruct s; split; congruence.
  - unfold SFltb; cbn. split; [discriminate | tauto].
  - apply binary32_shape in Hx as (He & Hm & Hn).
    destruct s.
    + unfold SFltb; cbn. split; [discriminate|].
      pose proof (dyadic_pos m e) as Hp. unfold Qlt, Qopp in *; cbn [Qnum Qden] in *.
      destruct (dyadic m e) as [n d]; cbn [Qnum Qden] in *. lia.
    + unfold SFltb, SFcompare.
      destruct (Z.compare_spec (-24) e) as [Heq | Hlt | Hgt].
      * subst e. cbn [dyadic]. unfold Qlt; cbn [Qnum Qden].
        change (Zpos (2 ^ 24)) with 16777216.
        rewrite Pos.compare_cont_spec; cbn [Pos.switch_Eq].
        destruct (Pos.compare_spec 8388608 m) as [E | E | E];
          [subst m | apply Pos2Z.pos_lt_pos in E | apply Pos2Z.pos_lt_pos in E];
          clear He Hm Hn; try (set (z := Zpos m) in *; clearbody z);
          split; intros G; try reflexivity; try discriminate; lia.
      * specialize (Hn ltac:(lia)). split; [intros _ | reflexivity].
        destruct e as [| p | p]; unfold dyadic, Qlt; cbn [Qnum Qden].
        -- lia.
        -- assert (0 < 2 ^ Zpos p) by (apply Z.pow_pos_nonneg; lia). nia.
        -- rewrite pow2_pos.
           assert (2 ^ Zpos p <= 8388608)
             by (change 8388608 with (2 ^ 23); apply Z.pow_le_mono_r; lia).
           lia.
      * split; [discriminate | intros G; exfalso].
        destruct e as [| p | p]; try lia.
        unfold dyadic, Qlt in G; cbn [Qnum Qden] in G. rewrite pow2_pos in G.
        assert (33554432 <= 2 ^ Zpos p)
          by (change 33554432 with (2 ^ 25); apply Z.pow_le_mono_r; lia).
        lia.
Qed.

Lemma ge_bool_spec (x : spec_float) (q : Q) : ge_bool x q = true <-> ge x q.
Proof.
  destruct x as [s | s | | s m e]; cbn [ge ge_bool].
  - apply Qle_bool_iff.
  - destruct s; cbn; split; congruence.
  - split; [discriminate | tauto].
  - apply Qle_bool_iff.
Qed.

Lemma Qle_bool_negb (a b : Q) : negb (Qle_bool a b) = true <-> (b < a)%Q.
Proof.
  unfold Qle_bool, Qlt. rewrite negb_true_iff, Z.leb_gt. reflexivity.
Qed.

Lemma gt_bool_spec (x : spec_float) (q : Q) : gt_bool x q = true <-> gt x q.
Proof.
  destruct x as [s | s | | s m e]; cbn [gt gt_bool].
  - apply Qle_bool_negb.
  - destruct s; cbn; split; congruence.
  - split; [discriminate | tauto].
  - apply Qle_bool_negb.
Qed.

(** A score below a bound is not at or above it. *)
Lemma ge_false_of_not (x : spec_float) (q : Q) : ~ ge x q -> ge_bool x q = false.
Proof.
  intros H. destruct (ge_bool x q) eqn:E; [| reflexivity].
  exfalso. apply H, ge_bool_spec, E.
Qed.

Lemma not_ge_of_bool (x : spec_float) (q : Q) : ge_bool x q = false -> ~ ge x q.
Proof. intros Hb Hge. apply ge_bool_spec in Hge. congruence. Qed.

Lemma not_gt_of_bool (x : spec_float) (q : Q) : gt_bool x q = false -> ~ gt x q.
Proof. intros Hb Hgt. apply gt_bool_spec in Hgt. congruence. Qed.

(** The float32 nearest to 0.9 is below 0.9: a row with that score is
    dropped by the strict comparison, as a row below 0.9 is to be. *)
Example float32_nearest_0_9_is_dropped :
  SFltb (to_float32 py_float_0_9) (to_float32 py_float_0_9) = false /\
  ~ ge (to_float32 py_float_0_9) (9 # 10).
Proof. split; [reflexivity | apply not_ge_of_bool; reflexivity]. Qed.

End IEEEFacts.

(** ** The blend of two bytes

    Each operand times 0.5 is exact (255 cases), and the sum of two such
    halves is normalised and truncated to the integer half of the sum of
    the bytes (one case per exponent and per sum). *)

Lemma in_Z_range (lo : Z) (n : nat) (z : Z) :
  lo <= z < lo + Z.of_nat n -> In z (Z_range lo n).
Proof.
  intros H. unfold Z_range. apply in_map_iff. exists (Z.to_nat (z - lo)).
  split; [lia|]. apply in_seq. lia.
Qed.

Lemma forallb_Z_range (P : Z -> bool) (lo : Z) (n : nat) :
  forallb P (Z_range lo n) = true ->
  forall z, lo <= z < lo + Z.of_nat n -> P z = true.
Proof.
  intros H z Hz. rewrite forallb_forall in H. apply H, in_Z_range, Hz.
Qed.

Lemma halved_table : forallb halved_ok (Z_range 1 255) = true.
Proof. vm_compute. reflexivity. Qed.

Lemma sum_table : forallb sum_row_ok (Z_range 0 9) = true.
Proof. vm_compute. reflexivity. Qed.

Lemma edge_table : forallb edge_ok (Z_range 0 256) = true.
Proof. vm_compute. reflexivity. Qed.

Lemma iter_xO_mul (m d : positive) : Pos.iter xO m d = (m * 2 ^ d)%positive.
Proof.
  induction d as [| d IH] using Pos.peano_ind.
  - cbn. rewrite Pos.pow_1_r. lia.
  - rewrite Pos.iter_succ, IH, Pos.pow_succ_r. lia.
Qed.

(** Aligning a mantissa to a lower exponent multiplies it by the power
    of two in between. *)
Lemma shl_align_value (m : positive) (e e' : Z) :
  e' <= e -> Zpos (fst (shl_align m e e')) = Zpos m * 2 ^ (e - e').
Proof.
  intros H. unfold shl_align.
  destruct (e' - e) as [| d | d] eqn:E; cbn [fst].
  - replace (e - e') with 0 by lia. lia.
  - lia.
  - replace (e - e') with (Zpos d) by lia.
    rewrite iter_xO_mul, Pos2Z.inj_mul, Pos2Z.inj_pow. reflexivity.
Qed.

Lemma halved_shape (n : Z) :
  1 <= n <= 255 ->
  exists m e,
    halved n = S754_finite false m e /\
    -54 <= e <= -46 /\
    Zpos m * 2 ^ (e + 54) = n * 2 ^ 53.
Proof.
  intros Hn.
  pose proof (forallb_Z_range halved_ok 1 255 halved_table n ltac:(lia)) as H.
  unfold halved_ok in H.
  destruct (halved n) as [| | | [] m e]; try discriminate.
  apply andb_prop in H as [H H3]. apply andb_prop in H as [H1 H2].
  exists m, e. split; [reflexivity|].
  apply Z.leb_le in H1, H2. apply Z.eqb_eq in H3. auto.
Qed.

(** The aligned mantissa of [n / 2] at exponent [k - 54]. *)
Lemma aligned_half (n : Z) (m : positive) (e k : Z) :
  0 <= k <= e + 54 ->
  k <= 53 ->
  Zpos m * 2 ^ (e + 54) = n * 2 ^ 53 ->
  Zpos m * 2 ^ (e - (k - 54)) = n * 2 ^ (53 - k).
Proof.
  intros Hk Hk' Hv.
  apply (Z.mul_reg_r _ _ (2 ^ k)); [apply Z.pow_nonzero; lia|].
  rewrite <- !Z.mul_assoc, <- !Z.pow_add_r by lia.
  replace (e - (k - 54) + k) with (e + 54) by lia.
  replace (53 - k + k) with 53 by lia. exact Hv.
Qed.

Lemma blend_channel_half (p c : Z) :
  0 <= p <= 255 -> 0 <= c <= 255 -> blend_channel p c = (p + c) / 2.
Proof.
  intros Hp Hc.
  destruct (Z.eq_dec p 0) as [-> | Hp0].
  { pose proof (forallb_Z_range edge_ok 0 256 edge_table c ltac:(lia)) as H.
    apply andb_prop in H as [H _]. apply Z.eqb_eq in H. exact H. }
  destruct (Z.eq_dec c 0) as [-> | Hc0].
  { pose proof (forallb_Z_range edge_ok 0 256 edge_table p ltac:(lia)) as H.
    apply andb_prop in H as [_ H]. apply Z.eqb_eq in H.
    rewrite Z.add_0_r. exact H. }
  destruct (halved_shape p ltac:(lia)) as (mp & ep & Hhp & Hep & Hvp).
  destruct (halved_shape c ltac:(lia)) as (mc & ec & Hhc & Hec & Hvc).
  change (blend_channel p c)
    with (IEEE.to_uint8 (SFadd IEEE.prec64 IEEE.emax64 (halved p) (halved c))).
  rewrite Hhp, Hhc. cbn [SFadd cond_Zopp].
  rewrite !shl_align_value by lia.
  set (ez := Z.min ep ec).
  replace ez with ((ez + 54) - 54) by lia.
  rewrite (aligned_half p mp ep (ez + 54)) by (try exact Hvp; lia).
  rewrite (aligned_half c mc ec (ez + 54)) by (try exact Hvc; lia).
  rewrite <- Z.mul_add_distr_r.
  pose proof (forallb_Z_range sum_row_ok 0 9 sum_table (ez + 54) ltac:(lia)) as Hrow.
  unfold sum_row_ok in Hrow.
  pose proof (forallb_Z_range _ 2 509 Hrow (p + c) ltac:(lia)) as Hcell.
  apply Z.eqb_eq in Hcell. exact Hcell.
Qed.

Lemma Qtrunc_half_sum (p c : Z) :
  0 <= p -> 0 <= c ->
  IEEE.Qtrunc ((1 # 2) * inject_Z p + (1 # 2) * inject_Z c) = (p + c) / 2.
Proof.
  intros Hp Hc. unfold IEEE.Qtrunc, Qplus, Qmult, inject_Z; cbn [Qnum Qden].
  rewrite Z.quot_div_nonneg by lia.
  replace (1 * p * Zpos (2 * 1) + 1 * c * Zpos (2 * 1)) with ((p + c) * 2) by lia.
  change (Zpos (2 * 1 * (2 * 1))) with (2 * 2).
  rewrite Z.div_mul_cancel_r by lia. reflexivity.
Qed.

(** A mask value of 129/256 times 255 is 128.49...; [.byte()] truncates
    it to 128 and the pixel is not selected. *)
Example mask_byte_truncates :
  mask_byte (Stub.f32 129 (-8)) = 128 /\ mask_on (Stub.f32 129 (-8)) = false.
Proof. split; reflexivity. Qed.

Section SegmentationFacts.
Context {L : Libraries}.

Lemma same_shape_nd_map {A B C} (a : ndarray A) (b : ndarray B) (f : B -> C) :
  same_shape a (nd_map f b) = same_shape a b.
Proof. reflexivity. Qed.

Lemma random_color_run (w : World) :
  random_color w = Some (Ok (color_at (np_drawn w)), set_np_drawn (3 + np_drawn w) w).
Proof. reflexivity. Qed.

Lemma read_array_live (l : loc) (w : World) (a : image) :
  arrays w !! l = Some a -> read_array l w = Some (Ok a, w).
Proof.
  intros H. unfold read_array, gets. by rewrite (lookup_total_correct _ _ _ H).
Qed.

(** One iteration of the loop on an instance above the threshold. *)
Lemma blend_instance_kept (l : loc) (inst : Instance) (w : World) (cur : image) :
  arrays w !! l = Some cur ->
  same_shape cur (inst_mask inst) = true ->
  score_kept (inst_score inst) = true ->
  blend_instance l inst w =
    Some (Ok tt,
          {| media := media w;
             arrays := <[l := NdArray (nd_rows cur) (nd_cols cur)
                                 (blend_data (nd_data cur)
                                    (nd_map mask_on (inst_mask inst),
                                     color_at (np_drawn w)))]> (arrays w);
             events := events w ++ [EvMaskedAssign l (nd_map mask_on (inst_mask inst))
                                      (color_at (np_drawn w))];
             np_drawn := 3 + np_drawn w;
             name_tape := name_tape w |}).
Proof.
  intros Hl Hs Hk. unfold blend_instance. rewrite Hk.
  unfold bind at 1. rewrite random_color_run.
  unfold blend_mask, bind.
  rewrite (read_array_live l _ cur) by exact Hl.
  unfold lift, masked_blend. rewrite same_shape_nd_map, Hs.
  unfold update_array, modify, log, set_arrays, set_np_drawn; cbn.
  rewrite (alter_alt_Some _ _ _ _ Hl). reflexivity.
Qed.

Lemma blend_instance_skipped (l : loc) (inst : Instance) (w : World) :
  score_kept (inst_score inst) = false ->
  blend_instance l inst w = Some (Ok tt, w).
Proof. intros Hk. unfold blend_instance. by rewrite Hk. Qed.

End SegmentationFacts.

Lemma local_to_refl (l : loc) (w : World) : local_to l w w.
Proof.
  repeat split; try done. exists []. by rewrite app_nil_r.
Qed.

Lemma local_to_trans (l : loc) (w1 w2 w3 : World) :
  local_to l w1 w2 -> local_to l w2 w3 -> local_to l w1 w3.
Proof.
  intros (Hm1 & Ht1 & Ha1 & e1 & He1 & Hf1) (Hm2 & Ht2 & Ha2 & e2 & He2 & Hf2).
  repeat split; try congruence.
  - intros l' Hne. rewrite Ha2, Ha1; done.
  - exists (e1 ++ e2). split.
    + rewrite He2, He1, app_assoc. reflexivity.
    + by apply Forall_app.
Qed.

(** A loop whose body always comes back and keeps an order on worlds
    does so as a whole. *)
Lemma for_each_total {A} (P : World -> World -> Prop) (body : A -> M unit) :
  (forall w, P w w) ->
  (forall w1 w2 w3, P w1 w2 -> P w2 w3 -> P w1 w3) ->
  (forall x w, exists r w', body x w = Some (r, w') /\ P w w') ->
  forall xs w, exists r w', for_each xs body w = Some (r, w') /\ P w w'.
Proof.
  intros Hrefl Htrans Hbody xs. induction xs as [| x xs IH]; intros w.
  - exists (Ok tt), w. split; [reflexivity | apply Hrefl].
  - cbn [for_each]. unfold bind.
    destruct (Hbody x w) as (r & w1 & Hrun & HP). rewrite Hrun.
    destruct r as [[] | e].
    + destruct (IH w1) as (r' & w2 & Hrun' & HP').
      exists r', w2. split; [exact Hrun' | eapply Htrans; eassumption].
    + exists (Raise e), w1. split; [reflexivity | exact HP].
Qed.

Section DetectionFacts.
Context {L : Libraries}.

Lemma bind_local {A B} (l : loc) (m : M A) (k : A -> M B) (w : World) :
  (exists r w', m w = Some (r, w') /\ local_to l w w') ->
  (forall a w1, exists r w', k a w1 = Some (r, w') /\ local_to l w1 w') ->
  exists r w', bind m k w = Some (r, w') /\ local_to l w w'.
Proof.
  intros (r & w1 & Hm & Hl1) Hk. unfold bind. rewrite Hm.
  destruct r as [a | e].
  - destruct (Hk a w1) as (r' & w2 & Hrun & Hl2).
    exists r', w2. split; [exact Hrun | eapply local_to_trans; eassumption].
  - exists (Raise e), w1. split; [reflexivity | exact Hl1].
Qed.

Lemma draw_call_local (l : loc) (f : image -> image) (ev : Event) (w : World) :
  draws_on l ev ->
  exists r w',
    (update_array l f ;;; modify (log ev)) w = Some (r, w') /\ local_to l w w'.
Proof.
  intros Hev. unfold bind, update_array, modify, log, set_arrays; cbn.
  eexists _, _. split; [reflexivity|].
  repeat split; cbn; try done.
  - intros l' Hne. rewrite lookup_alter_ne by done. reflexivity.
  - eexists. split; [reflexivity|]. by repeat constructor.
Qed.

Lemma rectangle_local (l : loc) (pt1 pt2 : Z * Z) (color : pixel) (thickness : Z)
  (w : World) :
  exists r w', rectangle l pt1 pt2 color thickness w = Some (r, w') /\ local_to l w w'.
Proof.
  unfold rectangle. destruct (c_point pt1 && c_point pt2).
  - by apply draw_call_local.
  - eexists _, _. split; [reflexivity | apply local_to_refl].
Qed.

Lemma putText_local (l : loc) (text : string) (org : Z * Z) (color : pixel)
  (thickness : Z) (w : World) :
  exists r w', putText l text org color thickness w = Some (r, w') /\ local_to l w w'.
Proof.
  unfold putText. destruct (c_point org).
  - by apply draw_call_local.
  - eexists _, _. split; [reflexivity | apply local_to_refl].
Qed.

Lemma draw_detection_local (l : loc) (d : RawDetection) (w : World) :
  exists r w', draw_detection l d w = Some (r, w') /\ local_to l w w'.
Proof.
  unfold draw_detection. apply bind_local.
  { eexists _, _. split; [reflexivity | apply local_to_refl]. }
  intros [[[x0 y0] x1] y1] w1. apply bind_local.
  { destruct (id2label !! det_label d);
      eexists _, _; (split; [reflexivity | apply local_to_refl]). }
  intros label_str w2. apply bind_local; [apply rectangle_local|].
  intros _ w3. apply putText_local.
Qed.

Lemma draw_loop_local (l : loc) (results : list RawDetection) (w : World) :
  exists r w', for_each results (draw_detection l) w = Some (r, w') /\ local_to l w w'.
Proof.
  apply for_each_total.
  - apply local_to_refl.
  - apply local_to_trans.
  - apply draw_detection_local.
Qed.

(** One iteration of the drawing loop when lines 43-45 raise nothing. *)
Lemma draw_detection_planned (l : loc) (d : RawDetection) (w : World)
  (cur : image) (plan : Z * Z * Z * Z * string) :
  arrays w !! l = Some cur ->
  draw_plan d = Some plan ->
  draw_detection l d w =
    Some (Ok tt,
          {| media := media w;
             arrays := <[l := draw_image cur plan]> (arrays w);
             events := events w ++ draw_events l plan;
             np_drawn := np_drawn w;
             name_tape := name_tape w |}).
Proof.
  intros Hl Hp. unfold draw_plan in Hp. unfold draw_detection, bind, lift.
  destruct (int_box (det_box d)) as [[[[x0 y0] x1] y1] | e]; [| discriminate].
  destruct (id2label !! det_label d) as [label_str |]; [| discriminate].
  destruct (c_point (x0, y0) && c_point (x1, y1) && c_point (x0, y0 - 10)) eqn:Hc;
    [| discriminate].
  apply andb_prop in Hc as [Hc Hc3]. injection Hp as <-.
  unfold rectangle, putText. rewrite Hc, Hc3.
  unfold bind, update_array, modify, log, set_arrays; cbn.
  rewrite <- app_assoc.
  rewrite (alter_alt_Some _ _ _ _ Hl), alter_insert_eq. reflexivity.
Qed.

Lemma draw_loop_ok (results : list RawDetection) :
  forall (l : loc) (w : World) (cur : image) (plans : list (Z * Z * Z * Z * string)),
    arrays w !! l = Some cur ->
    mapM draw_plan results = Some plans ->
    exists w',
      for_each results (draw_detection l) w = Some (Ok tt, w') /\
      media w' = media w /\
      name_tape w' = name_tape w /\
      np_drawn w' = np_drawn w /\
      events w' = events w ++ concat (map (draw_events l) plans) /\
      arrays w' = <[l := fold_left draw_image plans cur]> (arrays w).
Proof.
  induction results as [| d rest IH]; intros l w cur plans Hl Hplans.
  - injection Hplans as <-. exists w. cbn. rewrite app_nil_r.
    repeat split; try done. by rewrite insert_id.
  - cbn in Hplans.
    destruct (draw_plan d) as [plan |] eqn:Hp; [| discriminate].
    destruct (mapM draw_plan rest) as [plans' |] eqn:Hps; [| discriminate].
    injection Hplans as <-.
    cbn [for_each]. unfold bind at 1.
    rewrite (draw_detection_planned l d w cur plan Hl Hp).
    set (w1 := Build_World _ _ _ _ _).
    destruct (IH l w1 (draw_image cur plan) plans') as (w' & Hrun & Hm & Ht & Hn & He & Ha).
    { unfold w1; cbn. apply lookup_insert_eq. }
    { reflexivity. }
    exists w'. split; [exact Hrun|].
    unfold w1 in *; cbn in *.
    repeat split; try done.
    + rewrite He, <- app_assoc. reflexivity.
    + rewrite Ha, insert_insert_eq. reflexivity.
Qed.
End DetectionFacts.

Section PipelineFacts.
Context {L : Libraries}.

Lemma detection_is_upload_view :
  detection = upload_view detect "detection_result.html" "detection.html".
Proof. reflexivity. Qed.

Lemma segmentation_is_upload_view :
  segmentation = upload_view segment "segmentation_result.html" "segmentation.html".
Proof. reflexivity. Qed.

Lemma blend_instance_local (l : loc) (inst : Instance) (w : World) :
  exists r w', blend_instance l inst w = Some (r, w') /\ local_to l w w'.
Proof.
  unfold blend_instance.
  destruct (score_kept (inst_score inst)).
  2:{ eexists _, _. split; [reflexivity | apply local_to_refl]. }
  unfold bind at 1. rewrite random_color_run.
  unfold blend_mask, bind, read_array, gets, lift.
  destruct (masked_blend _ _ _) as [new | e].
  - unfold update_array, modify, log, set_arrays, set_np_drawn; cbn.
    eexists _, _. split; [reflexivity|].
    repeat split; cbn; try done.
    + intros l' Hne. rewrite lookup_alter_ne by done. reflexivity.
    + eexists. split; [reflexivity|]. repeat constructor.
  - eexists _, _. split; [reflexivity|].
    repeat split; cbn; try done. exists []. by rewrite app_nil_r.
Qed.

Lemma blend_loop_local (l : loc) (preds : list Instance) (w : World) :
  exists r w', for_each preds (blend_instance l) w = Some (r, w') /\ local_to l w w'.
Proof.
  apply for_each_total.
  - apply local_to_refl.
  - apply local_to_trans.
  - apply blend_instance_local.
Qed.

(** [detect] on a live array, step by step. *)
Lemma detect_run (image_np : loc) (w : World) (a : image) :
  arrays w !! image_np = Some a ->
  detect image_np w =
    match detr_predict a with
    | Raise e => Some (Raise e, log (EvForward DETR) w)
    | Ok raw =>
        let l := fresh (dom (arrays w)) in
        match for_each (post_process_object_detection raw IEEE.py_float_0_9)
                (draw_detection l)
                (set_arrays (insert l (cvtColor_RGB2BGR a)) (log (EvForward DETR) w)) with
        | Some (Ok _, w') => Some (Ok l, w')
        | Some (Raise e, w') => Some (Raise e, w')
        | None => None
        end
    end.
Proof.
  intros Hl. unfold detect. unfold bind at 1.
  rewrite (read_array_live _ _ _ Hl).
  unfold bind at 1, modify. unfold bind at 1, lift.
  destruct (detr_predict a) as [raw | e]; [| reflexivity].
  unfold bind at 1, cvtColor. unfold bind at 1.
  rewrite (read_array_live image_np (log (EvForward DETR) w) a) by exact Hl.
  unfold new_array. cbn [arrays log].
  unfold bind.
  destruct (for_each _ _ _) as [[[[] | e] w'] |]; reflexivity.
Qed.

Lemma segment_run (image_np : loc) (w : World) (a : image) :
  arrays w !! image_np = Some a ->
  segment image_np w =
    match maskrcnn_predict (image_tensor a) with
    | Raise e => Some (Raise e, log (EvForward MaskRCNN) w)
    | Ok predictions =>
        let l := fresh (dom (arrays w)) in
        match for_each predictions (blend_instance l)
                (set_arrays (insert l (cvtColor_RGB2BGR a)) (log (EvForward MaskRCNN) w)) with
        | Some (Ok _, w') => Some (Ok l, w')
        | Some (Raise e, w') => Some (Raise e, w')
        | None => None
        end
    end.
Proof.
  intros Hl. unfold segment. unfold bind at 1.
  rewrite (read_array_live _ _ _ Hl).
  unfold bind at 1, modify. unfold bind at 1, lift.
  destruct (maskrcnn_predict (image_tensor a)) as [preds | e]; [| reflexivity].
  unfold bind at 1, cvtColor. unfold bind at 1.
  rewrite (read_array_live image_np (log (EvForward MaskRCNN) w) a) by exact Hl.
  unfold new_array. cbn [arrays log].
  unfold bind.
  destruct (for_each _ _ _) as [[[[] | e] w'] |]; reflexivity.
Qed.

Lemma fresh_not_live (w : World) (l : loc) (a : image) :
  arrays w !! l = Some a -> fresh (dom (arrays w)) <> l.
Proof.
  intros Hl Heq. apply (is_fresh (dom (arrays w))).
  rewrite Heq. apply elem_of_dom. eauto.
Qed.

End PipelineFacts.

Lemma draws_on_forward_passes (l : loc) (evs : list Event) :
  Forall (draws_on l) evs -> forward_passes evs = [].
Proof.
  induction 1 as [| ev evs Hev _ IH]; [reflexivity|].
  destruct ev; cbn in *; try done.
Qed.

Lemma draws_on_files_written (l : loc) (evs : list Event) :
  Forall (draws_on l) evs -> files_written evs = [].
Proof.
  induction 1 as [| ev evs Hev _ IH]; [reflexivity|].
  destruct ev; cbn in *; try done.
Qed.

Section ViewFacts.
Context {L : Libraries}.

Lemma detect_ok : pipeline_ok DETR detect.
Proof.
  intros image_np w a Hl. rewrite (detect_run image_np w a Hl).
  destruct (detr_predict a) as [raw | e].
  - cbv zeta.
    set (l := fresh (dom (arrays w))).
    destruct (draw_loop_local l (post_process_object_detection raw IEEE.py_float_0_9)
                (set_arrays (insert l (cvtColor_RGB2BGR a)) (log (EvForward DETR) w)))
      as (r & w' & Hrun & Hm & Ht & Ha & evs & He & Hf).
    rewrite Hrun. cbn in Hm, Ht, Ha, He.
    exists (match r with Ok _ => Ok l | Raise e => Raise e end), w', evs.
    split; [by destruct r as [[] | e]|].
    repeat split; try done.
    + rewrite Ha by (symmetry; apply (fresh_not_live w image_np a Hl)).
      rewrite lookup_insert_ne by (apply (fresh_not_live w image_np a Hl)). exact Hl.
    + rewrite He, <- app_assoc. reflexivity.
    + intros l' Hr. destruct r; congruence.
  - exists (Raise e), (log (EvForward DETR) w), [].
    repeat split; try done.
Qed.

Lemma segment_ok : pipeline_ok MaskRCNN segment.
Proof.
  intros image_np w a Hl. rewrite (segment_run image_np w a Hl).
  destruct (maskrcnn_predict (image_tensor a)) as [preds | e].
  - cbv zeta.
    set (l := fresh (dom (arrays w))).
    destruct (blend_loop_local l preds
                (set_arrays (insert l (cvtColor_RGB2BGR a)) (log (EvForward MaskRCNN) w)))
      as (r & w' & Hrun & Hm & Ht & Ha & evs & He & Hf).
    rewrite Hrun. cbn in Hm, Ht, Ha, He.
    exists (match r with Ok _ => Ok l | Raise e => Raise e end), w', evs.
    split; [by destruct r as [[] | e]|].
    repeat split; try done.
    + rewrite Ha by (symmetry; apply (fresh_not_live w image_np a Hl)).
      rewrite lookup_insert_ne by (apply (fresh_not_live w image_np a Hl)). exact Hl.
    + rewrite He, <- app_assoc. reflexivity.
    + intros l' Hr. destruct r; congruence.
  - exists (Raise e), (log (EvForward MaskRCNN) w), [].
    repeat split; try done.
Qed.

Lemma guard_true (request : HttpRequest) (f : UploadedFile) :
  method request = "POST" ->
  FILES request !! "image" = Some f ->
  file_name f <> "" ->
  String.eqb (method request) "POST" && files_get_truthy request "image" = true.
Proof.
  intros Hm Hf Hn. rewrite Hm. unfold files_get_truthy. rewrite Hf.
  apply String.eqb_neq in Hn. rewrite Hn. reflexivity.
Qed.

Lemma guard_false (request : HttpRequest) :
  ~ (method request = "POST" /\ is_Some (FILES request !! "image")) ->
  String.eqb (method request) "POST" && files_get_truthy request "image" = false.
Proof.
  intros H. unfold files_get_truthy.
  destruct (String.eqb_spec (method request) "POST") as [Hm | Hm]; [| reflexivity].
  destruct (FILES request !! "image") as [f |] eqn:Hf; [| reflexivity].
  exfalso. apply H. split; [exact Hm | by eexists].
Qed.

(** A POST with a file whose picture decodes, step by step. *)
Lemma upload_view_run (pipeline : loc -> M loc) (result_page form_page : string)
  (request : HttpRequest) (w : World) (f : UploadedFile)
  (stored : string) (tape' : list string) (a : image) :
  method request = "POST" ->
  FILES request !! "image" = Some f ->
  file_name f <> "" ->
  get_available_name (media w) (file_name f) (name_tape w) = Some (stored, tape') ->
  pil_decode (file_content f) = Ok a ->
  upload_view pipeline result_page form_page request w =
    let w1 := log (EvSave stored)
                (set_media (insert stored (file_content f)) (set_name_tape tape' w)) in
    let image_np := fresh (dom (arrays w)) in
    match pipeline image_np (set_arrays (insert image_np a) w1) with
    | None => None
    | Some (Raise e, w3) => Some (Raise e, w3)
    | Some (Ok image_cv, w3) =>
        let name := ("processed_" ++ stored)%string in
        let page := render result_page {[ "original" := stored; "processed" := name ]} in
        match cv2_imwrite name (arrays w3 !!! image_cv) with
        | ImwriteTrue data =>
            Some (Ok page, log (EvImwrite name true) (set_media (insert name data) w3))
        | ImwriteFalse rest =>
            Some (Ok page,
                  log (EvImwrite name false)
                    (set_media (partial_alter (leftover rest) name) w3))
        | ImwriteError => Some (Raise cv2_error, w3)
        end
    end.
Proof.
  intros Hm Hf Hn Hname Hdec.
  unfold upload_view. rewrite (guard_true request f Hm Hf Hn).
  unfold bind at 1, files_getitem. rewrite Hf. unfold ret at 1.
  unfold bind at 1, fs_save. rewrite Hname.
  cbv zeta. set (w1 := log (EvSave stored) _).
  unfold bind at 1, open_image. unfold bind at 1, read_file.
  assert (Hread : media w1 !! stored = Some (file_content f))
    by (unfold w1; cbn; apply lookup_insert_eq).
  rewrite Hread, Hdec. unfold new_array.
  change (arrays w1) with (arrays w).
  unfold bind at 1.
  destruct (pipeline _ _) as [[[image_cv | e] w3] |]; try reflexivity.
  unfold bind at 1, imwrite. unfold bind at 1, read_array, gets.
  destruct (cv2_imwrite _ _) as [data | rest |]; reflexivity.
Qed.

(** A POST with a file PIL raises on. *)
Lemma upload_view_undecoded (pipeline : loc -> M loc) (result_page form_page : string)
  (request : HttpRequest) (w : World) (f : UploadedFile)
  (stored : string) (tape' : list string) (e : exn) :
  method request = "POST" ->
  FILES request !! "image" = Some f ->
  file_name f <> "" ->
  get_available_name (media w) (file_name f) (name_tape w) = Some (stored, tape') ->
  pil_decode (file_content f) = Raise e ->
  upload_view pipeline result_page form_page request w =
    Some (Raise e,
          log (EvSave stored)
            (set_media (insert stored (file_content f)) (set_name_tape tape' w))).
Proof.
  intros Hm Hf Hn Hname Hdec.
  unfold upload_view. rewrite (guard_true request f Hm Hf Hn).
  unfold bind at 1, files_getitem. rewrite Hf. unfold ret at 1.
  unfold bind at 1, fs_save. rewrite Hname.
  cbv zeta. set (w1 := log (EvSave stored) _).
  unfold bind at 1, open_image. unfold bind at 1, read_file.
  assert (Hread : media w1 !! stored = Some (file_content f))
    by (unfold w1; cbn; apply lookup_insert_eq).
  rewrite Hread, Hdec. reflexivity.
Qed.

(** A POST with a file, from the upload to the response. *)
Lemma upload_view_outcome (m : Model) (pipeline : loc -> M loc)
  (result_page form_page : string) :
  pipeline_ok m pipeline ->
  forall (request : HttpRequest) (w : World) (f : UploadedFile)
         (stored : string) (tape' : list string),
    method request = "POST" ->
    FILES request !! "image" = Some f ->
    file_name f <> "" ->
    get_available_name (media w) (file_name f) (name_tape w) = Some (stored, tape') ->
    exists r w' evs,
      upload_view pipeline result_page form_page request w = Some (r, w') /\
      events w' = events w ++ EvSave stored :: evs /\
      name_tape w' = tape' /\
      match r with
      | Ok resp =>
          resp = render result_page
                   {[ "original" := stored;
                      "processed" := ("processed_" ++ stored)%string ]} /\
          exists a img l draws returned,
            pil_decode (file_content f) = Ok a /\
            arrays w !! l = None /\
            img = arrays w' !!! l /\
            Forall (draws_on l) draws /\
            evs = EvForward m :: draws
                    ++ [EvImwrite ("processed_" ++ stored) returned] /\
            match cv2_imwrite ("processed_" ++ stored) img with
            | ImwriteTrue data =>
                returned = true /\
                media w' = <[("processed_" ++ stored)%string := data]>
                             (<[stored := file_content f]> (media w))
            | ImwriteFalse rest =>
                returned = false /\
                media w' = partial_alter (leftover rest) ("processed_" ++ stored)%string
                             (<[stored := file_content f]> (media w))
            | ImwriteError => False
            end
      | Raise e =>
          media w' = <[stored := file_content f]> (media w) /\
          files_written evs = [] /\
          match pil_decode (file_content f) with
          | Raise e' => e = e' /\ forward_passes evs = []
          | Ok _ => forward_passes evs = [m]
          end
      end.
Proof.
  intros Hpipe request w f stored tape' Hm Hf Hn Hname.
  destruct (pil_decode (file_content f)) as [a | e0] eqn:Hdec.
  2:{ rewrite (upload_view_undecoded pipeline result_page form_page request w f
                 stored tape' e0 Hm Hf Hn Hname Hdec).
      eexists _, _, []. split; [reflexivity|]. cbn. repeat split; done. }
  rewrite (upload_view_run pipeline result_page form_page request w f stored tape' a
             Hm Hf Hn Hname Hdec).
  cbv zeta.
  set (w1 := log (EvSave stored) _).
  set (image_np := fresh (dom (arrays w))).
  set (w2 := set_arrays (insert image_np a) w1).
  destruct (Hpipe image_np w2 a) as (r & w3 & evs & Hrun & Hmed & Htape & Hnp & Hev & Hdraw & Hl).
  { unfold w2; cbn. apply lookup_insert_eq. }
  rewrite Hrun.
  pose proof (draws_on_forward_passes _ _ Hdraw) as Hfw.
  pose proof (draws_on_files_written _ _ Hdraw) as Hfi.
  assert (Hfresh : arrays w !! fresh (dom (arrays w2)) = None).
  { assert (Hfresh : arrays w2 !! fresh (dom (arrays w2)) = None)
      by (apply not_elem_of_dom, is_fresh).
    unfold w2 in Hfresh at 1. cbn in Hfresh.
    apply lookup_insert_None in Hfresh as [Hfresh _]. exact Hfresh. }
  destruct r as [image_cv | e].
  2:{ exists (Raise e), w3, (EvForward m :: evs).
      split; [reflexivity|]. rewrite Hev, Hmed, Htape. unfold w2, w1; cbn.
      rewrite <- app_assoc. repeat split; try done.
      f_equal; exact Hfw. }
  destruct (cv2_imwrite _ _) as [data | rest |] eqn:Henc.
  - eexists (Ok _), _,
      (EvForward m :: evs ++ [EvImwrite ("processed_" ++ stored) true]).
    split; [reflexivity|]. cbn. rewrite Hev, Hmed, Htape. unfold w2, w1; cbn.
    rewrite <- !app_assoc. split; [reflexivity|]. split; [reflexivity|].
    split; [reflexivity|].
    exists a, (arrays w3 !!! image_cv), (fresh (dom (arrays w2))), evs, true.
    rewrite Henc, (Hl image_cv eq_refl). repeat split; done.
  - eexists (Ok _), _,
      (EvForward m :: evs ++ [EvImwrite ("processed_" ++ stored) false]).
    split; [reflexivity|]. cbn. rewrite Hev, Hmed, Htape. unfold w2, w1; cbn.
    rewrite <- !app_assoc. split; [reflexivity|]. split; [reflexivity|].
    split; [reflexivity|].
    exists a, (arrays w3 !!! image_cv), (fresh (dom (arrays w2))), evs, false.
    rewrite Henc, (Hl image_cv eq_refl). repeat split; done.
  - exists (Raise cv2_error), w3, (EvForward m :: evs).
    split; [reflexivity|]. rewrite Hev, Hmed, Htape. unfold w2, w1; cbn.
    rewrite <- app_assoc. repeat split; try done.
    f_equal; exact Hfw.
Qed.

Lemma upload_view_searching (pipeline : loc -> M loc)
  (result_page form_page : string) (request : HttpRequest) (w : World)
  (f : UploadedFile) :
  method request = "POST" ->
  FILES request !! "image" = Some f ->
  file_name f <> "" ->
  get_available_name (media w) (file_name f) (name_tape w) = None ->
  upload_view pipeline result_page form_page request w = None.
Proof.
  intros Hm Hf Hn Hname.
  unfold upload_view. rewrite (guard_true request f Hm Hf Hn).
  unfold bind at 1, files_getitem. rewrite Hf. unfold ret at 1.
  unfold bind at 1, fs_save. rewrite Hname. reflexivity.
Qed.

Lemma upload_view_form (pipeline : loc -> M loc)
  (result_page form_page : string) (request : HttpRequest) (w : World) :
  ~ (method request = "POST" /\ is_Some (FILES request !! "image")) ->
  upload_view pipeline result_page form_page request w =
    Some (Ok (render form_page ∅), w).
Proof.
  intros H. unfold upload_view. rewrite (guard_false request H). reflexivity.
Qed.

End ViewFacts.

Import IEEEFacts.

Lemma blend_data_length (data : list pixel) (step : ndarray bool * pixel) :
  length (nd_data step.1) = length data ->
  length (blend_data data step) = length data.
Proof. intros H. unfold blend_data. rewrite length_zip_with, H. lia. Qed.

Lemma blend_data_lookup (data : list pixel) (step : ndarray bool * pixel)
  (i : nat) (p : pixel) :
  length (nd_data step.1) = length data ->
  data !! i = Some p ->
  blend_data data step !! i = Some (blend_at i p step).
Proof.
  intros Hlen Hp.
  destruct (lookup_lt_is_Some_2 (nd_data step.1) i) as [on Hon].
  { rewrite Hlen. eapply lookup_lt_Some, Hp. }
  unfold blend_data, blend_at. rewrite lookup_zip_with, Hp. cbn. rewrite Hon. cbn.
  by destruct on.
Qed.

Lemma first_available_free (dir : gmap string (list Byte.byte)) (file_root file_ext : string) :
  forall (tape : list string) (name stored : string) (tape' : list string),
    first_available dir file_root file_ext name tape = Some (stored, tape') ->
    dir !! stored = None /\ (dir !! name = None -> stored = name /\ tape' = tape).
Proof.
  induction tape as [| rnd tape IH]; intros name stored tape' H; cbn in H.
  - destruct (dir !! name) eqn:E; [discriminate|].
    injection H as <- <-. split; [exact E | done].
  - destruct (dir !! name) eqn:E.
    + apply IH in H as [Hfree _]. split; [exact Hfree | discriminate].
    + injection H as <- <-. split; [exact E | done].
Qed.

Section ErrorFacts.
Context {L : Libraries}.

Lemma blend_steps_lengths (cur : image) (preds : list Instance) :
  well_formed cur ->
  Forall (fun inst => well_formed (inst_mask inst) /\
                      same_shape cur (inst_mask inst) = true) preds ->
  forall n,
    Forall (fun st => length (nd_data st.1) = length (nd_data cur)) (blend_steps n preds).
Proof.
  intros Hwc Hpreds. induction Hpreds as [| inst rest [Hwm Hs] _ IH]; intros n; cbn.
  - constructor.
  - destruct (score_kept (inst_score inst)); [| apply IH].
    constructor; [| apply IH]. cbn. rewrite length_map.
    unfold well_formed in *. unfold same_shape in Hs.
    apply andb_prop in Hs as [Hr Hc]. apply Nat.eqb_eq in Hr, Hc.
    rewrite Hwc, Hwm, Hr, Hc. reflexivity.
Qed.

Lemma detect_raises :
  pipeline_raises detect (fun a e => detr_predict a = Raise e).
Proof.
  intros image_np w a e Hl Hr. rewrite (detect_run image_np w a Hl), Hr. eauto.
Qed.

Lemma segment_raises :
  pipeline_raises segment (fun a e => maskrcnn_predict (image_tensor a) = Raise e).
Proof.
  intros image_np w a e Hl Hr. rewrite (segment_run image_np w a Hl), Hr. eauto.
Qed.

(** A POST with a file whose picture decodes and whose network raises. *)
Lemma upload_view_network_raises (pipeline : loc -> M loc)
  (raises : image -> exn -> Prop) (result_page form_page : string) :
  pipeline_raises pipeline raises ->
  forall (request : HttpRequest) (w : World) (f : UploadedFile)
         (stored : string) (tape' : list string) (a : image) (e : exn),
    method request = "POST" ->
    FILES request !! "image" = Some f ->
    file_name f <> "" ->
    get_available_name (media w) (file_name f) (name_tape w) = Some (stored, tape') ->
    pil_decode (file_content f) = Ok a ->
    raises a e ->
    exists w', upload_view pipeline result_page form_page request w = Some (Raise e, w').
Proof.
  intros Hpipe request w f stored tape' a e Hm Hf Hn Hname Hdec Hr.
  unfold upload_view. rewrite (guard_true request f Hm Hf Hn).
  unfold bind at 1, files_getitem. rewrite Hf. unfold ret at 1.
  unfold bind at 1, fs_save. rewrite Hname.
  set (w1 := log (EvSave stored) _).
  unfold bind at 1, open_image. unfold bind at 1, read_file.
  assert (Hread : media w1 !! stored = Some (file_content f))
    by (unfold w1; cbn; apply lookup_insert_eq).
  rewrite Hread, Hdec. unfold new_array.
  set (image_np := fresh (dom (arrays w1))).
  set (w2 := set_arrays (insert image_np a) w1).
  destruct (Hpipe image_np w2 a e) as [w3 Hrun].
  { unfold w2; cbn. apply lookup_insert_eq. }
  { exact Hr. }
  unfold bind at 1. rewrite Hrun. eauto.
Qed.

End ErrorFacts.


Section ThresholdFacts.
Context {L : Libraries}.


(** The threshold of [post_process_object_detection] at 0.9 keeps the
    rows whose score is at least 0.9. *)
Lemma post_process_keeps_ge (raw : list RawDetection) :
  Forall (fun d => IEEE.is_binary32 (det_score d)) raw ->
  post_process_object_detection raw IEEE.py_float_0_9 =
  List.filter (fun d => IEEE.ge_bool (det_score d) (9 # 10)) raw.
Proof.
  intros Hraw. unfold post_process_object_detection.
  apply filter_ext_in. intros d Hd.
  rewrite Forall_forall in Hraw. specialize (Hraw d).
  rewrite list_elem_of_In in Hraw. specialize (Hraw Hd).
  apply eq_true_iff_eq.
  rewrite (gt_threshold_0_9 _ Hraw), ge_bool_spec. reflexivity.
Qed.

Lemma score_kept_gt (score : spec_float) :
  IEEE.is_binary32 score -> score_kept score = IEEE.gt_bool score (1 # 2).
Proof.
  intros Hs. apply eq_true_iff_eq. unfold score_kept.
  rewrite (gt_threshold_0_5 _ Hs), gt_bool_spec. reflexivity.
Qed.

Lemma blend_loop_none_kept (l : loc) (preds : list Instance) (w : World) :
  Forall (fun inst => score_kept (inst_score inst) = false) preds ->
  for_each preds (blend_instance l) w = Some (Ok tt, w).
Proof.
  induction 1 as [| inst rest Hk _ IH]; [reflexivity|].
  cbn [for_each]. unfold bind. rewrite (blend_instance_skipped l inst w Hk). exact IH.
Qed.

End ThresholdFacts.


Section TraceFacts.
Context {L : Libraries}.



End TraceFacts.


(** ** Rounding to float32

    What [binary_round_aux] does to a positive mantissa: the bits shifted
    out decide, to nearest and to even on a tie. *)

Lemma iter_pos_nat {A} (f : A -> A) (p : positive) (x : A) :
  SpecFloat.iter_pos f p x = Nat.iter (Pos.to_nat p) f x.
Proof.
  revert x. induction p as [p IH | p IH |]; intros x; cbn [SpecFloat.iter_pos].
  - rewrite !IH, <- Nat.iter_succ_r, <- Nat.iter_add. f_equal. lia.
  - rewrite !IH, <- Nat.iter_add. f_equal. lia.
  - reflexivity.
Qed.

Lemma shr_1_inv (m k : Z) (mrs : shr_record) :
  0 <= k -> shr_inv m k mrs -> shr_inv m (k + 1) (shr_1 mrs).
Proof.
  intros Hk (Hq & rem & Hrem & Hm & Hr & Hs).
  assert (HP : 0 < 2 ^ k) by (apply Z.pow_pos_nonneg; lia).
  unfold shr_inv. rewrite Z.pow_add_r, Z.pow_1_r by lia.
  destruct mrs as [q r s]. cbn [shr_m shr_r shr_s] in *.
  set (P := 2 ^ k) in *. clearbody P.
  destruct q as [| [p | p |] | p]; try lia; cbn [shr_1 shr_m shr_r shr_s].
  - split; [lia|]. exists rem. destruct r, s; cbn; lia.
  - split; [lia|]. exists (rem + P).
    rewrite Pos2Z.inj_xI in Hm. destruct r, s; cbn; lia.
  - split; [lia|]. exists rem.
    rewrite Pos2Z.inj_xO in Hm. destruct r, s; cbn; lia.
  - split; [lia|]. exists (rem + P). destruct r, s; cbn; lia.
Qed.

Lemma shr_iter_inv (m : Z) (n : nat) :
  0 <= m ->
  shr_inv m (Z.of_nat n) (Nat.iter n shr_1 (Build_shr_record m false false)).
Proof.
  intros Hm. induction n as [| n IH].
  - split; [exact Hm|]. exists 0. cbn. lia.
  - rewrite Nat2Z.inj_succ, <- Z.add_1_r. cbn [Nat.iter].
    apply shr_1_inv; [lia | exact IH].
Qed.

Lemma shr_inv_exact (m : Z) (e n : Z) :
  0 <= m -> 0 <= n ->
  exists mrs,
    shr (Build_shr_record m false false) e n = (mrs, e + n) /\ shr_inv m n mrs.
Proof.
  intros Hm Hn. destruct n as [| p | p]; try lia.
  - eexists. split; [cbn; f_equal; lia|]. apply (shr_iter_inv m 0 Hm).
  - eexists. split; [reflexivity|].
    rewrite iter_pos_nat, <- (positive_nat_Z p). apply shr_iter_inv, Hm.
Qed.

(** The mantissa rounded to nearest even, from the quotient and the
    remainder of the division by [2^k]. *)
Lemma round_nearest_even_inv (m k : Z) (mrs : shr_record) :
  0 <= k -> shr_inv m k mrs ->
  let m1 := round_nearest_even (shr_m mrs) (loc_of_shr_record mrs) in
  0 <= m1 /\
  (forall U, m < U * 2 ^ k -> m1 <= U) /\
  (forall U, m <= U * 2 ^ k -> m1 <= U) /\
  (forall T, Z.even T = true -> (T <= m1 <-> (2 * T - 1) * 2 ^ k <= 2 * m)).
Proof.
  intros Hk (Hq & rem & Hrem & Hm & Hr & Hs) m1.
  assert (HP : 0 < 2 ^ k) by (apply Z.pow_pos_nonneg; lia).
  destruct mrs as [q r s]. cbn [shr_m shr_r shr_s] in *.
  set (P := 2 ^ k) in *. clearbody P.
  assert (Hm1 : (m1 = q /\ (2 * rem < P \/ (2 * rem = P /\ Z.even q = true))) \/
                (m1 = q + 1 /\ (P < 2 * rem \/ (2 * rem = P /\ Z.even q = false)))).
  { unfold m1. destruct r, s; cbn [loc_of_shr_record round_nearest_even].
    - right. split; [reflexivity | lia].
    - destruct (Z.even q) eqn:E; [left | right]; (split; [reflexivity | lia]).
    - left. split; [reflexivity | lia].
    - left. split; [reflexivity | lia]. }
  clearbody m1. clear Hr Hs.
  assert (Hle : forall U, q < U -> q * P + P <= U * P).
  { intros U HU. replace (q * P + P) with ((q + 1) * P) by ring.
    apply Z.mul_le_mono_nonneg_r; lia. }
  assert (Hge : forall U, U <= q -> U * P <= q * P).
  { intros U HU. apply Z.mul_le_mono_nonneg_r; lia. }
  assert (Hrange : (m1 = q /\ 2 * rem <= P) \/ (m1 = q + 1 /\ P <= 2 * rem)).
  { destruct Hm1 as [[-> [H | [H _]]] | [-> [H | [H _]]]]; [left | left | right | right];
      (split; [reflexivity | lia]). }
  assert (Htie : Z.even q = false ->
                 (m1 = q /\ 2 * rem < P) \/ (m1 = q + 1 /\ P <= 2 * rem)).
  { intros Eq. rewrite Eq in Hm1.
    destruct Hm1 as [[-> [H | [_ H]]] | [-> [H | [H _]]]];
      [left | discriminate | right | right]; (split; [reflexivity | lia]). }
  clear Hm1.
  split; [clear Htie; lia|]. split; [| split].
  - intros U HU. clear Htie. destruct (Z_lt_le_dec q U) as [Hlt | Hlt]; [lia|].
    specialize (Hge U Hlt). lia.
  - intros U HU. clear Htie. destruct (Z_lt_le_dec q U) as [Hlt | Hlt].
    + destruct (Z.eq_dec (q + 1) U) as [E | E]; [lia|].
      specialize (Hle U Hlt). lia.
    + destruct (Z.eq_dec q U) as [E | E]; [subst U; lia|].
      specialize (Hge (U + 1) ltac:(lia)).
      replace ((U + 1) * P) with (U * P + P) in Hge by ring. lia.
  - intros T HT.
    replace ((2 * T - 1) * P) with (2 * (T * P) - P) by ring.
    destruct (Z_lt_le_dec q (T - 1)) as [H1 | H1].
    { specialize (Hle (T - 1) H1).
      replace ((T - 1) * P) with (T * P - P) in Hle by ring. clear Htie HT. lia. }
    destruct (Z.eq_dec q (T - 1)) as [H2 | H2].
    { assert (Eq : Z.even q = false).
      { subst q. rewrite Z.even_sub, HT. reflexivity. }
      assert (HqP : q * P = T * P - P) by (subst q; ring).
      specialize (Htie Eq). clear Eq HT. lia. }
    specialize (Hge T ltac:(lia)). clear Htie HT. lia.
Qed.

Lemma pow2_le (a b : Z) : 0 <= a <= b -> 2 ^ a <= 2 ^ b.
Proof. intros H. apply Z.pow_le_mono_r; lia. Qed.

Lemma digits_le (p : positive) (n : Z) :
  0 <= n -> Zpos p < 2 ^ n -> Zpos (digits2_pos p) <= n.
Proof.
  intros Hn Hp. pose proof (digits2_pos_bounds p) as [Hlo _].
  destruct (Z_le_gt_dec (Zpos (digits2_pos p)) n) as [H | H]; [exact H|].
  pose proof (pow2_le n (Zpos (digits2_pos p) - 1) ltac:(lia)). lia.
Qed.

(** [binary_round_aux] on a positive mantissa whose result is below
    [2^24]: the truncation of the result, through the rounded mantissa. *)
Lemma round_aux_trunc (P : positive) (ex : Z) :
  let E1 := Z.max (Zpos (digits2_pos P) + ex - 24) (-149) in
  ex <= E1 -> E1 < 0 ->
  exists m1,
    IEEE.trunc (binary_round_aux IEEE.prec32 IEEE.emax32 false (Zpos P) ex loc_Exact)
      = Some (m1 / 2 ^ (- E1)) /\
    0 <= m1 <= 16777216 /\
    (forall U, Zpos P <= U * 2 ^ (E1 - ex) -> m1 <= U) /\
    (forall T, Z.even T = true ->
               (T <= m1 <-> (2 * T - 1) * 2 ^ (E1 - ex) <= 2 * Zpos P)).
Proof.
  intros E1 Hex Hneg.
  assert (H1 : exists mrs,
            shr_fexp IEEE.prec32 IEEE.emax32 (Zpos P) ex loc_Exact = (mrs, E1) /\
            shr_inv (Zpos P) (E1 - ex) mrs).
  { unfold shr_fexp. cbn [shr_record_of_loc Zdigits2].
    change (fexp IEEE.prec32 IEEE.emax32 (Zpos (digits2_pos P) + ex)) with E1.
    destruct (shr_inv_exact (Zpos P) ex (E1 - ex) ltac:(lia) ltac:(lia))
      as (mrs & Hshr & Hinv).
    exists mrs. rewrite Hshr. split; [f_equal; lia | exact Hinv]. }
  destruct H1 as (mrs & H1 & Hinv).
  unfold binary_round_aux. rewrite H1.
  destruct (round_nearest_even_inv (Zpos P) (E1 - ex) mrs ltac:(lia) Hinv)
    as (Hm0 & HUlt & HU & HT).
  set (m1 := round_nearest_even (shr_m mrs) (loc_of_shr_record mrs)) in *.
  clearbody m1.
  assert (Hm1 : m1 <= 16777216).
  { apply HUlt. pose proof (digits2_pos_bounds P) as [_ Hhi].
    eapply Z.lt_le_trans; [exact Hhi|].
    change 16777216 with (2 ^ 24). rewrite <- Z.pow_add_r by lia.
    apply pow2_le. unfold E1. lia. }
  exists m1. split; [| auto].
  assert (E1min : -149 <= E1) by (unfold E1; lia).
  assert (Hpow : 2 ^ (- E1) <> 0) by (apply Z.pow_nonzero; lia).
  destruct (Z.eq_dec m1 16777216) as [Heq | Hne].
  - (* the rounded mantissa has 25 digits: one more shift *)
    rewrite Heq.
    assert (H2 : shr_fexp IEEE.prec32 IEEE.emax32 16777216 E1 loc_Exact =
                 (Build_shr_record 8388608 false false, E1 + 1)).
    { unfold shr_fexp. change (Zdigits2 16777216) with 25.
      unfold fexp, emin, IEEE.prec32, IEEE.emax32.
      replace (Z.max (25 + E1 - 24) (3 - 128 - 24) - E1) with 1 by lia.
      reflexivity. }
    rewrite H2. cbn [shr_m].
    unfold IEEE.emax32, IEEE.prec32.
    replace (E1 + 1 <=? 128 - 24) with true by (symmetry; apply Z.leb_le; lia).
    cbn [IEEE.trunc cond_Zopp]. f_equal.
    destruct (E1 + 1) as [| p | p] eqn:E; try lia.
    + replace (- E1) with 1 by lia. reflexivity.
    + replace (- E1) with (Zpos p + 1) by lia.
      rewrite Z.pow_add_r, Z.pow_1_r by lia.
      change 16777216 with (8388608 * 2).
      rewrite Z.div_mul_cancel_r; [reflexivity | | lia].
      apply Z.pow_nonzero; lia.
  - destruct m1 as [| p | p]; try lia.
    + assert (H2 : shr_fexp IEEE.prec32 IEEE.emax32 0 E1 loc_Exact =
                   (Build_shr_record 0 false false, E1)).
      { unfold shr_fexp. cbn [Zdigits2 shr_record_of_loc].
        unfold fexp, emin, IEEE.prec32, IEEE.emax32.
        destruct (Z.max (0 + E1 - 24) (3 - 128 - 24) - E1)
          as [| n2 | n2] eqn:En2; try lia; reflexivity. }
      rewrite H2. cbn [shr_m IEEE.trunc].
      rewrite Z.div_0_l by exact Hpow. reflexivity.
    + assert (H2 : shr_fexp IEEE.prec32 IEEE.emax32 (Zpos p) E1 loc_Exact =
                   (Build_shr_record (Zpos p) false false, E1)).
      { unfold shr_fexp. cbn [Zdigits2 shr_record_of_loc].
        pose proof (digits_le p 24 ltac:(lia) ltac:(change (2 ^ 24) with 16777216; lia)).
        unfold fexp, emin, IEEE.prec32, IEEE.emax32.
        destruct (Z.max (Zpos (digits2_pos p) + E1 - 24) (3 - 128 - 24) - E1)
          as [| n2 | n2] eqn:En2; try lia; reflexivity. }
      rewrite H2. cbn [shr_m].
      unfold IEEE.emax32, IEEE.prec32.
      replace (E1 <=? 128 - 24) with true by (symmetry; apply Z.leb_le; lia).
      cbn [IEEE.trunc cond_Zopp]. f_equal.
      destruct E1 as [| e1 | e1] eqn:EE; try lia. reflexivity.
Qed.

(** The byte of a mask probability. *)
Lemma mask_on_finite (mant : positive) (e : Z) :
  bounded IEEE.prec32 IEEE.emax32 mant e = true ->
  (IEEE.dyadic mant e <= 1)%Q ->
  mask_on (S754_finite false mant e) = true <->
  (129 <= 255 * IEEE.dyadic mant e)%Q.
Proof.
  intros Hb Hle.
  apply binary32_shape in Hb as (He & Hm & Hn).
  assert (Hle' : e < 0 /\ Zpos mant <= 2 ^ (- e)).
  { destruct e as [| p | p].
    - specialize (Hn ltac:(lia)). unfold IEEE.dyadic, Qle in Hle. cbn in Hle. lia.
    - specialize (Hn ltac:(lia)). unfold IEEE.dyadic, Qle in Hle. cbn [Qnum Qden] in Hle.
      assert (0 < 2 ^ Zpos p) by (apply Z.pow_pos_nonneg; lia). nia.
    - split; [lia|]. unfold IEEE.dyadic, Qle in Hle. cbn [Qnum Qden] in Hle.
      rewrite pow2_pos in Hle. rewrite Pos2Z.opp_neg. lia. }
  destruct Hle' as [Hneg Hmle].
  assert (Hq : (129 <= 255 * IEEE.dyadic mant e)%Q <-> 129 * 2 ^ (- e) <= 255 * Zpos mant).
  { destruct e as [| p | p]; try lia.
    unfold IEEE.dyadic, Qle, Qmult. cbn [Qnum Qden]. rewrite Pos2Z.opp_neg.
    rewrite Pos2Z.inj_mul, pow2_pos. lia. }
  rewrite Hq. clear Hq Hle.
  unfold mask_on, mask_byte.
  change (IEEE.of_int IEEE.prec32 IEEE.emax32 255) with (S754_finite false 16711680 (-16)).
  cbn [SFmul xorb].
  set (P := (mant * 16711680)%positive).
  assert (HP : Zpos P = Zpos mant * 16711680) by (unfold P; lia).
  pose proof (digits2_pos_bounds P) as [HDlo HDhi].
  set (D := Zpos (digits2_pos P)) in *.
  assert (HD24 : 24 <= D).
  { destruct (Z_le_gt_dec 24 D) as [H | H]; [exact H|].
    pose proof (pow2_le D 23 ltac:(unfold D; lia)).
    change (2 ^ 23) with 8388608 in *. lia. }
  assert (HPle : Zpos P <= 16711680 * 2 ^ (- e)) by lia.
  assert (HDe : D + e <= 24).
  { destruct (Z_le_gt_dec (D + e) 24) as [H | H]; [exact H|].
    pose proof (pow2_le (24 + - e) (D - 1) ltac:(lia)) as Hp.
    rewrite Z.pow_add_r in Hp by lia. change (2 ^ 24) with 16777216 in Hp.
    assert (0 < 2 ^ (- e)) by (apply Z.pow_pos_nonneg; lia). lia. }
  destruct (round_aux_trunc P (e + -16)) as (m1 & Htr & Hm1 & HU & HT).
  { fold D. lia. }
  { fold D. lia. }
  fold D in Htr, HU, HT.
  set (E1 := Z.max (D + (e + -16) - 24) (-149)) in *.
  unfold IEEE.to_uint8. rewrite Htr.
  assert (Hpos : 0 < 2 ^ (- E1)) by (apply Z.pow_pos_nonneg; unfold E1; lia).
  destruct (Z.eq_dec (D + e) 24) as [Heq | Hneq].
  - (* products in [128, 256): the mantissa is cut at 2^-16 *)
    assert (HE1 : E1 = -16) by (unfold E1; lia).
    rewrite HE1 in *. replace (-16 - (e + -16)) with (- e) in * by lia.
    change (2 ^ (- -16)) with 65536.
    specialize (HU 16711680 HPle).
    specialize (HT 8454144 eq_refl).
    rewrite Z.mod_small by (split; [apply Z.div_pos; lia | apply Z.div_lt_upper_bound; lia]).
    rewrite Z.ltb_lt.
    assert (H1 : 128 < m1 / 65536 <-> 8454144 <= m1).
    { split; intros H.
      - destruct (Z_le_gt_dec 8454144 m1) as [G | G]; [exact G|].
        assert (m1 / 65536 <= 128) by (apply Z.lt_succ_r, Z.div_lt_upper_bound; lia). lia.
      - apply Z.lt_le_trans with (8454144 / 65536); [reflexivity|].
        apply Z.div_le_mono; lia. }
    rewrite H1, HT, HP.
    assert (He2 : e = -24 \/ e = -23).
    { assert (D <= 48).
      { apply digits_le; [lia|]. rewrite HP.
        change (2 ^ 48) with 281474976710656. lia. }
      assert (47 <= D).
      { destruct (Z_le_gt_dec 47 D) as [G | G]; [exact G|].
        pose proof (pow2_le D 46 ltac:(lia)) as Hp.
        change (2 ^ 46) with 70368744177664 in Hp.
        specialize (Hn ltac:(lia)). lia. }
      lia. }
    clear - He2 Hmle Hn Hm.
    destruct He2 as [-> | ->].
    + change (2 ^ (- -24)) with 16777216 in *.
      set (z := Zpos mant) in *. clearbody z. lia.
    + change (2 ^ (- -23)) with 8388608 in *. specialize (Hn ltac:(lia)).
      set (z := Zpos mant) in *. clearbody z. lia.
  - (* products below 128 *)
    assert (HE1 : E1 <= -17) by (unfold E1; lia).
    assert (Hsmall : m1 / 2 ^ (- E1) <= 128).
    { apply Z.lt_succ_r, Z.div_lt_upper_bound; [lia|].
      pose proof (pow2_le 17 (- E1) ltac:(lia)) as Hp.
      change (2 ^ 17) with 131072 in Hp. lia. }
    assert (H0 : 0 <= m1 / 2 ^ (- E1)) by (apply Z.div_pos; lia).
    rewrite Z.mod_small by lia.
    split.
    + rewrite Z.ltb_lt. lia.
    + intros H. exfalso.
      assert (HPlt : Zpos P < 8388608 * 2 ^ (- e)).
      { eapply Z.lt_le_trans; [exact HDhi|].
        change 8388608 with (2 ^ 23). rewrite <- Z.pow_add_r by lia.
        apply pow2_le. lia. }
      assert (HQ : 0 < 2 ^ (- e)) by (apply Z.pow_pos_nonneg; lia).
      rewrite HP in HPlt. clear - H HPlt HQ.
      set (z := Zpos mant) in *. set (Q := 2 ^ (- e)) in *. clearbody z Q.
      lia.
Qed.

(** The guard [mask > 128] of line 82 on a probability: the float32
    product with 255, cut to a byte, exceeds 128 exactly when 255 times
    the probability is at least 129. *)
Lemma mask_on_selected (m : spec_float) : probability m -> mask_on m = selected m.
Proof.
  intros (Hv & Hge & Hgt).
  destruct m as [s | s | | s mant e]; cbn [IEEE.ge IEEE.gt] in Hge, Hgt.
  - by destruct s.
  - subst s. by destruct Hgt.
  - destruct Hge.
  - destruct s.
    + exfalso. pose proof (dyadic_pos mant e) as Hp.
      unfold Qle, Qlt, Qopp in *. cbn [Qnum Qden] in *.
      destruct (IEEE.dyadic mant e) as [n d]. cbn [Qnum Qden] in *. lia.
    + apply eq_true_iff_eq. unfold selected. cbn [float_value].
      rewrite Qle_bool_iff. apply mask_on_finite; [exact Hv|].
      by apply Qnot_lt_le.
Qed.

(** ** Names of stored files *)

Lemma append_cons (c : ascii) (a b : string) :
  (String c a ++ b)%string = String c (a ++ b)%string.
Proof. reflexivity. Qed.

Lemma append_nil_l (b : string) : ("" ++ b)%string = b.
Proof. reflexivity. Qed.

Lemma length_append (a b : string) :
  String.length (a ++ b) = (String.length a + String.length b)%nat.
Proof.
  induction a as [| c a IH]; [reflexivity|].
  rewrite append_cons. cbn. f_equal. exact IH.
Qed.

Lemma substring_0_length (a : string) : substring 0 (String.length a) a = a.
Proof. induction a as [| c a IH]; cbn; [reflexivity | f_equal; exact IH]. Qed.

Lemma substring_append_l (a b : string) :
  substring 0 (String.length a) (a ++ b) = a.
Proof.
  induction a as [| c a IH].
  - rewrite append_nil_l. destruct b; reflexivity.
  - rewrite append_cons. cbn. f_equal. exact IH.
Qed.

Lemma substring_append_r (a b : string) :
  substring (String.length a) (String.length b) (a ++ b) = b.
Proof.
  induction a as [| c a IH].
  - rewrite append_nil_l. apply substring_0_length.
  - rewrite append_cons. cbn. exact IH.
Qed.

Lemma append_assoc (a b c : string) : ((a ++ b) ++ c = a ++ (b ++ c))%string.
Proof.
  induction a as [| x a IH]; [reflexivity|].
  rewrite !append_cons. f_equal. exact IH.
Qed.

Lemma append_empty_r (a : string) : (a ++ "")%string = a.
Proof.
  induction a as [| x a IH]; [reflexivity|].
  rewrite append_cons. f_equal. exact IH.
Qed.

Lemma removesuffix_append (root ext : string) :
  removesuffix (root ++ ext) ext = root.
Proof.
  unfold removesuffix. rewrite length_append.
  replace (String.length root + String.length ext - String.length ext)%nat
    with (String.length root) by lia.
  destruct (String.eqb_spec ext "") as [-> | Hne]; cbn [negb andb].
  - rewrite append_empty_r. reflexivity.
  - rewrite substring_append_r, String.eqb_refl. apply substring_append_l.
Qed.

Lemma lstrip_dots_suffix (s : string) : exists pre, s = (pre ++ lstrip_dots s)%string.
Proof.
  induction s as [| c s [pre IH]]; [by exists ""|].
  cbn. destruct (Ascii.eqb c "."); [| by exists ""].
  exists (String c pre). rewrite append_cons. by rewrite <- IH.
Qed.

Lemma from_first_dot_suffix (s : string) : exists pre, s = (pre ++ from_first_dot s)%string.
Proof.
  induction s as [| c s [pre IH]]; [by exists ""|].
  cbn. destruct (Ascii.eqb c "."); [by exists ""|].
  exists (String c pre). rewrite append_cons. by rewrite <- IH.
Qed.

Lemma joined_suffixes_suffix (name : string) :
  exists root, name = (root ++ joined_suffixes name)%string.
Proof.
  unfold joined_suffixes. destruct (ends_with_dot name).
  - exists name. by rewrite append_empty_r.
  - destruct (lstrip_dots_suffix name) as [p1 H1].
    destruct (from_first_dot_suffix (lstrip_dots name)) as [p2 H2].
    exists (p1 ++ p2)%string. rewrite append_assoc, <- H2. exact H1.
Qed.

Lemma from_first_dot_head (s : string) :
  from_first_dot s = "" \/ exists rest, from_first_dot s = String "." rest.
Proof.
  induction s as [| c s IH]; [by left|].
  cbn. destruct (Ascii.eqb_spec c "."); [| exact IH].
  subst c. right. by exists s.
Qed.

(** The root and the extension [get_available_name] works with put the
    name back together, and the extension is empty or starts with a dot. *)
Lemma root_and_extension (name : string) :
  (removesuffix name (joined_suffixes name) ++ joined_suffixes name)%string = name /\
  (joined_suffixes name = "" \/ exists rest, joined_suffixes name = String "." rest).
Proof.
  split.
  - destruct (joined_suffixes_suffix name) as [root Hroot].
    rewrite Hroot at 1. rewrite removesuffix_append. by rewrite <- Hroot.
  - unfold joined_suffixes. destruct (ends_with_dot name); [by left|].
    apply from_first_dot_head.
Qed.

Lemma first_available_candidate (dir : gmap string (list Byte.byte))
  (file_root file_ext : string) :
  forall (tape : list string) (name stored : string) (tape' : list string),
    first_available dir file_root file_ext name tape = Some (stored, tape') ->
    exists used,
      tape = used ++ tape' /\
      (used = [] /\ stored = name \/
       exists rnd, last used = Some rnd /\
                   stored = get_alternative_name file_root file_ext rnd).
Proof.
  induction tape as [| rnd tape IH]; intros name stored tape' H; cbn in H.
  - destruct (dir !! name); [discriminate|]. injection H as <- <-.
    exists []. split; [reflexivity | by left].
  - destruct (dir !! name).
    + apply IH in H as (used & Ht & Hs).
      exists (rnd :: used). split; [by rewrite Ht|]. right.
      destruct Hs as [[-> ->] | (r & Hl & ->)].
      * by exists rnd.
      * exists r. split; [| reflexivity]. destruct used; [discriminate | exact Hl].
    + injection H as <- <-. exists []. split; [reflexivity | by left].
Qed.

(** The name the storage picks is the requested name or the root, an
    underscore, a random suffix from the tape and the extension. *)
Lemma available_name_shape
  (dir : gmap string (list Byte.byte)) (name : string) (tape : list string)
  (stored : string) (tape' : list string) :
  get_available_name dir name tape = Some (stored, tape') ->
  exists stem,
    stored = (stem ++ joined_suffixes name)%string /\
    (stem = removesuffix name (joined_suffixes name) \/
     exists rnd, In rnd tape /\
       stem = (removesuffix name (joined_suffixes name) ++ "_" ++ rnd)%string).
Proof.
  intros H. unfold get_available_name in H.
  pose proof (first_available_candidate _ _ _ _ _ _ _ H) as (used & Ht & Hs).
  destruct Hs as [[_ ->] | (rnd & Hl & ->)].
  - exists (removesuffix name (joined_suffixes name)).
    split; [symmetry; apply root_and_extension | by left].
  - exists (removesuffix name (joined_suffixes name) ++ "_" ++ rnd)%string.
    split; [unfold get_alternative_name; by rewrite !append_assoc|].
    right. exists rnd. split; [| reflexivity].
    rewrite Ht. apply in_or_app. left.
    apply list_elem_of_In. apply last_Some_elem_of. exact Hl.
Qed.

Lemma processed_name_differs (s : string) : ("processed_" ++ s)%string <> s.
Proof.
  intros H. apply (f_equal String.length) in H.
  rewrite length_append in H. cbn in H. lia.
Qed.


Lemma py_int_value (x : spec_float) :
  match float_value x with
  | Some q => py_int x = Ok (IEEE.Qtrunc q)
  | None => py_int x = Raise (match x with
                              | S754_infinity _ => OverflowError
                              | _ => ValueError
                              end)
  end.
Proof.
  destruct x as [s | s | | s m e]; try reflexivity.
  cbn [float_value py_int IEEE.trunc]. f_equal.
  unfold IEEE.Qtrunc, IEEE.dyadic.
  destruct e as [| p | p]; destruct s; cbn [Qnum Qden Qopp cond_Zopp].
  - rewrite Z.quot_1_r. reflexivity.
  - rewrite Z.quot_1_r. reflexivity.
  - rewrite Z.quot_1_r. reflexivity.
  - rewrite Z.quot_1_r. reflexivity.
  - rewrite Z.quot_opp_l by lia. rewrite Pos2Z.inj_pow.
    rewrite Z.quot_div_nonneg by lia. reflexivity.
  - rewrite Pos2Z.inj_pow. rewrite Z.quot_div_nonneg by lia. reflexivity.
Qed.

Lemma py_int_raises (x : spec_float) (e : exn) :
  py_int x = Raise e -> e = ValueError \/ e = OverflowError.
Proof. destruct x as [s | s | | s m e']; cbn; intros [= <-]; tauto. Qed.

Lemma int_box_cases (b0 b1 b2 b3 : spec_float) :
  match int_box (b0, b1, b2, b3) with
  | Raise e => e = ValueError \/ e = OverflowError
  | Ok _ => True
  end.
Proof.
  unfold int_box.
  destruct (py_int b0) eqn:E0; [| by eapply py_int_raises].
  destruct (py_int b1) eqn:E1; [| by eapply py_int_raises].
  destruct (py_int b2) eqn:E2; [| by eapply py_int_raises].
  destruct (py_int b3) eqn:E3; [| by eapply py_int_raises].
  exact I.
Qed.

Lemma swap_rb_involutive (p : pixel) : swap_rb (swap_rb p) = p.
Proof. by destruct p as [[r g] b]. Qed.

Lemma swap_rb_uint8 (p : pixel) : uint8_pixel p -> uint8_pixel (swap_rb p).
Proof. destruct p as [[r g] b]. unfold uint8_pixel. cbn. tauto. Qed.

Lemma same_shape_refl {A} (a : ndarray A) : same_shape a a = true.
Proof. unfold same_shape. by rewrite !Nat.eqb_refl. Qed.

Lemma cvtColor_RGB2BGR_facts (a : image) :
  same_shape a (cvtColor_RGB2BGR a) = true /\
  (well_formed a -> well_formed (cvtColor_RGB2BGR a)) /\
  (Forall uint8_pixel (nd_data a) ->
   Forall uint8_pixel (nd_data (cvtColor_RGB2BGR a))).
Proof.
  destruct a as [rows cols data]. unfold cvtColor_RGB2BGR, nd_map, well_formed. cbn.
  split; [| split].
  - apply (same_shape_refl (NdArray rows cols data)).
  - by rewrite length_map.
  - intros H. apply Forall_map. eapply Forall_impl; [exact H|].
    apply swap_rb_uint8.
Qed.

Lemma div255_table : forallb (fun n => unit_float32 (f32_div255 n)) (Z_range 0 256) = true.
Proof. vm_compute. reflexivity. Qed.

Lemma div255_unit (n : Z) :
  0 <= n <= 255 ->
  IEEE.is_binary32 (f32_div255 n) /\
  IEEE.ge (f32_div255 n) 0 /\ ~ IEEE.gt (f32_div255 n) 1.
Proof.
  intros Hn.
  pose proof (forallb_Z_range _ 0 256 div255_table n ltac:(lia)) as H.
  cbv beta in H. unfold unit_float32 in H.
  apply andb_prop in H as [H Hgt]. apply andb_prop in H as [Hv Hge].
  split; [exact Hv|]. split; [by apply ge_bool_spec|].
  apply not_gt_of_bool. by apply negb_true_iff.
Qed.


Lemma for_each_app {A} (body : A -> M unit) (xs ys : list A) (w : World) :
  for_each (xs ++ ys) body w =
    match for_each xs body w with
    | Some (Ok _, w') => for_each ys body w'
    | other => other
    end.
Proof.
  revert w. induction xs as [| x xs IH]; intros w; [reflexivity|].
  cbn. unfold bind. destruct (body x w) as [[[[] | e] w1] |]; try reflexivity.
  apply IH.
Qed.

Section LoopFacts.
Context {L : Libraries}.


Lemma draw_error_class (d : RawDetection) (e : exn) :
  draw_error d = Some e ->
  e = ValueError \/ e = OverflowError \/ e = KeyError \/ e = cv2_error.
Proof.
  unfold draw_error. destruct (det_box d) as [[[b0 b1] b2] b3].
  pose proof (int_box_cases b0 b1 b2 b3) as H.
  destruct (int_box (b0, b1, b2, b3)) as [[[[x0 y0] x1] y1] | e'].
  - destruct (id2label !! det_label d); [| intros [= <-]; tauto].
    destruct (c_point (x0, y0) && c_point (x1, y1) && c_point (x0, y0 - 10));
      [discriminate | intros [= <-]; tauto].
  - intros [= <-]. destruct H as [-> | ->]; tauto.
Qed.

Lemma draw_detection_failed (l : loc) (d : RawDetection) (w : World)
  (cur : image) (e : exn) :
  arrays w !! l = Some cur ->
  draw_error d = Some e ->
  draw_detection l d w = Some (Raise e, after_draw_error l d cur w).
Proof.
  unfold draw_error, draw_detection, after_draw_error, drawn_before_error.
  intros Hl H. unfold bind at 1, lift.
  destruct (int_box (det_box d)) as [[[[x0 y0] x1] y1] | e']; [| congruence].
  unfold bind at 1.
  destruct (id2label !! det_label d) as [label_str |]; [| unfold raise; congruence].
  unfold ret, rectangle, putText.
  destruct (c_point (x0, y0) && c_point (x1, y1)); cbn [andb negb] in *.
  - destruct (c_point (x0, y0 - 10)); [discriminate|]. injection H as <-.
    unfold bind, raise, update_array, modify, log, set_arrays; cbn.
    rewrite (alter_alt_Some _ _ _ _ Hl). reflexivity.
  - injection H as <-. reflexivity.
Qed.


(** A drawing loop stops at the first detection that raises. *)
Lemma draw_loop_stops (pre post : list RawDetection) (d : RawDetection)
  (l : loc) (w : World) (cur : image)
  (plans : list (Z * Z * Z * Z * string)) (e : exn) :
  arrays w !! l = Some cur ->
  mapM draw_plan pre = Some plans ->
  draw_error d = Some e ->
  exists w',
    for_each (pre ++ d :: post) (draw_detection l) w = Some (Raise e, w') /\
    media w' = media w /\
    name_tape w' = name_tape w /\
    np_drawn w' = np_drawn w /\
    events w' = events w ++ concat (map (draw_events l) plans)
                  ++ match drawn_before_error d with
                     | Some (x0, y0, x1, y1) => [EvRectangle l (x0, y0) (x1, y1)]
                     | None => []
                     end.
Proof.
  intros Hl Hplans Herr. rewrite for_each_app.
  destruct (draw_loop_ok pre l w cur plans Hl Hplans)
    as (w1 & Hrun & Hm & Ht & Hn & He & Ha).
  rewrite Hrun. cbn [for_each]. unfold bind at 1.
  rewrite (draw_detection_failed l d w1 (fold_left draw_image plans cur) e
             ltac:(rewrite Ha; apply lookup_insert_eq) Herr).
  eexists. split; [reflexivity|].
  unfold after_draw_error.
  destruct (drawn_before_error d) as [[[[x0 y0] x1] y1] |]; cbn.
  - rewrite He, <- app_assoc. done.
  - rewrite He, app_nil_r. done.
Qed.

Lemma blend_instance_misshapen (l : loc) (inst : Instance) (w : World) (cur : image) :
  arrays w !! l = Some cur ->
  score_kept (inst_score inst) = true ->
  same_shape cur (inst_mask inst) = false ->
  blend_instance l inst w = Some (Raise IndexError, set_np_drawn (3 + np_drawn w) w).
Proof.
  intros Hl Hk Hs. unfold blend_instance. rewrite Hk.
  unfold bind at 1. rewrite random_color_run.
  unfold blend_mask. unfold bind at 1, read_array, gets. cbn [arrays set_np_drawn].
  rewrite (lookup_total_correct _ _ _ Hl).
  unfold bind at 1, lift, masked_blend. rewrite same_shape_nd_map, Hs. reflexivity.
Qed.

(** The blending loop when the masks of the instances above the
    threshold have the shape of the working copy. *)
Lemma blend_loop_kept_ok (preds : list Instance) :
  forall (l : loc) (w : World) (cur : image),
    arrays w !! l = Some cur ->
    Forall (fun inst => score_kept (inst_score inst) = true ->
                        same_shape cur (inst_mask inst) = true) preds ->
    exists w',
      for_each preds (blend_instance l) w = Some (Ok tt, w') /\
      media w' = media w /\
      name_tape w' = name_tape w /\
      np_drawn w' = (3 * length (blend_steps (np_drawn w) preds) + np_drawn w)%nat /\
      events w' =
        events w ++ map (fun st => EvMaskedAssign l st.1 st.2)
                      (blend_steps (np_drawn w) preds) /\
      arrays w' =
        <[l := NdArray (nd_rows cur) (nd_cols cur)
                 (fold_left blend_data (blend_steps (np_drawn w) preds) (nd_data cur))]>
          (arrays w).
Proof.
  induction preds as [| inst rest IH]; intros l w cur Hl Hshape.
  - exists w. cbn. rewrite app_nil_r. repeat split; try done.
    destruct cur; cbn. by rewrite insert_id.
  - apply Forall_cons in Hshape as [Hs Hrest].
    cbn [for_each blend_steps]. unfold bind at 1.
    destruct (score_kept (inst_score inst)) eqn:Hk.
    + rewrite (blend_instance_kept l inst w cur Hl (Hs eq_refl) Hk).
      set (new := NdArray _ _ _).
      set (w1 := Build_World _ _ _ _ _).
      destruct (IH l w1 new) as (w' & Hrun & Hm & Ht & Hn & He & Ha).
      { unfold w1; cbn. apply lookup_insert_eq. }
      { exact Hrest. }
      exists w'. split; [exact Hrun|].
      unfold w1 in *; cbn in *.
      repeat split; try done.
      * rewrite Hn. lia.
      * rewrite He, <- app_assoc. reflexivity.
      * rewrite Ha, insert_insert_eq. reflexivity.
    + rewrite (blend_instance_skipped l inst w Hk).
      apply (IH l w cur Hl Hrest).
Qed.


(** A blending loop stops at the first instance above the threshold
    whose mask has another shape than the working copy. *)
Lemma blend_loop_stops (pre post : list Instance) (inst : Instance)
  (l : loc) (w : World) (cur : image) :
  arrays w !! l = Some cur ->
  Forall (fun i => score_kept (inst_score i) = true ->
                   same_shape cur (inst_mask i) = true) pre ->
  score_kept (inst_score inst) = true ->
  same_shape cur (inst_mask inst) = false ->
  exists w',
    for_each (pre ++ inst :: post) (blend_instance l) w = Some (Raise IndexError, w') /\
    media w' = media w /\
    name_tape w' = name_tape w /\
    np_drawn w' = (3 + 3 * length (blend_steps (np_drawn w) pre) + np_drawn w)%nat /\
    events w' = events w ++ map (fun st => EvMaskedAssign l st.1 st.2)
                              (blend_steps (np_drawn w) pre).
Proof.
  intros Hl Hpre Hk Hbad. rewrite for_each_app.
  destruct (blend_loop_kept_ok pre l w cur Hl Hpre)
    as (w1 & Hrun & Hm & Ht & Hn & He & Ha).
  rewrite Hrun. cbn [for_each]. unfold bind at 1.
  rewrite (blend_instance_misshapen l inst w1
             (NdArray (nd_rows cur) (nd_cols cur)
                (fold_left blend_data (blend_steps (np_drawn w) pre) (nd_data cur)))).
  - eexists. split; [reflexivity|]. cbn. rewrite Hn.
    split; [done|]. split; [done|]. split; [lia | done].
  - rewrite Ha. apply lookup_insert_eq.
  - exact Hk.
  - exact Hbad.
Qed.

Lemma color_at_uint8 (n : nat) : uint8_pixel (color_at n).
Proof.
  unfold uint8_pixel, color_at. cbn.
  pose proof (Z.mod_pos_bound (np_random n) 255 ltac:(lia)).
  pose proof (Z.mod_pos_bound (np_random (S n)) 255 ltac:(lia)).
  pose proof (Z.mod_pos_bound (np_random (S (S n))) 255 ltac:(lia)).
  lia.
Qed.

Lemma blend_steps_colors (preds : list Instance) :
  forall n, Forall (fun st => uint8_pixel st.2) (blend_steps n preds).
Proof.
  induction preds as [| inst preds IH]; intros n; cbn; [constructor|].
  destruct (score_kept (inst_score inst)); [| apply IH].
  constructor; [apply color_at_uint8 | apply IH].
Qed.

Lemma blend_pixel_half (p c : pixel) :
  uint8_pixel p -> uint8_pixel c -> blend_pixel p c = half_sum p c.
Proof.
  destruct p as [[p0 p1] p2], c as [[c0 c1] c2]. unfold uint8_pixel. cbn.
  intros (H0 & H1 & H2) (G0 & G1 & G2).
  unfold half_sum. cbn. by rewrite !blend_channel_half by lia.
Qed.

Lemma blend_pixel_uint8 (p c : pixel) :
  uint8_pixel p -> uint8_pixel c -> uint8_pixel (blend_pixel p c).
Proof.
  destruct p as [[p0 p1] p2], c as [[c0 c1] c2]. unfold uint8_pixel. cbn.
  intros (H0 & H1 & H2) (G0 & G1 & G2).
  rewrite !blend_channel_half by lia.
  repeat split; try (apply Z.div_pos; lia); apply Z.div_le_upper_bound; lia.
Qed.

Lemma blend_data_uint8 (data : list pixel) (step : ndarray bool * pixel) :
  Forall uint8_pixel data -> uint8_pixel step.2 ->
  Forall uint8_pixel (blend_data data step).
Proof.
  intros Hd Hc. unfold blend_data. generalize (nd_data step.1).
  induction Hd as [| p data Hp _ IH]; intros [| on sel]; cbn; try constructor.
  - destruct on; [by apply blend_pixel_uint8 | exact Hp].
  - apply IH.
Qed.

Lemma fold_blend_data_uint8 (steps : list (ndarray bool * pixel)) :
  forall data : list pixel,
    Forall (fun st => length (nd_data st.1) = length data) steps ->
    Forall (fun st => uint8_pixel st.2) steps ->
    Forall uint8_pixel data ->
    length (fold_left blend_data steps data) = length data /\
    Forall uint8_pixel (fold_left blend_data steps data).
Proof.
  induction steps as [| st steps IH]; intros data Hlen Hcol Hd; cbn; [done|].
  apply Forall_cons in Hlen as [Hl Hlen]. apply Forall_cons in Hcol as [Hc Hcol].
  pose proof (blend_data_length data st Hl) as Hlen'.
  destruct (IH (blend_data data st)) as [H1 H2].
  - eapply Forall_impl; [exact Hlen|]. intros st' H. cbn in H. congruence.
  - exact Hcol.
  - by apply blend_data_uint8.
  - split; [congruence | exact H2].
Qed.


(** The loop of lines 78-82 pixel by pixel: what the code computes with
    float32 and float64 arithmetic is what [blended] says on the
    numbers. *)
Lemma fold_blend_steps_blended (preds : list Instance) :
  forall (n : nat) (data : list pixel) (i : nat) (p : pixel),
    Forall (fun inst => IEEE.is_binary32 (inst_score inst)) preds ->
    Forall (fun inst =>
              IEEE.gt (inst_score inst) (1 # 2) ->
              length (nd_data (inst_mask inst)) = length data /\
              Forall probability (nd_data (inst_mask inst))) preds ->
    Forall uint8_pixel data ->
    data !! i = Some p ->
    fold_left blend_data (blend_steps n preds) data !! i = Some (blended n preds i p).
Proof.
  induction preds as [| inst rest IH]; intros n data i p Hsc Hm Hd Hp; [exact Hp|].
  apply Forall_cons in Hsc as [Hs Hsc]. apply Forall_cons in Hm as [Hi Hm].
  cbn [blend_steps blended]. rewrite (score_kept_gt _ Hs).
  destruct (IEEE.gt_bool (inst_score inst) (1 # 2)) eqn:Hk; [| by apply IH].
  apply gt_bool_spec in Hk. destruct (Hi Hk) as [Hlen Hprob].
  cbn [fold_left].
  set (step := (nd_map mask_on (inst_mask inst), color_at n)).
  assert (Hlen' : length (nd_data step.1) = length data)
    by (unfold step; cbn; by rewrite length_map).
  apply IH.
  - exact Hsc.
  - eapply Forall_impl; [exact Hm|]. intros inst' H G.
    rewrite (blend_data_length data step Hlen'). exact (H G).
  - apply blend_data_uint8; [exact Hd | apply color_at_uint8].
  - rewrite (blend_data_lookup data step i p Hlen' Hp). f_equal.
    unfold blend_at, step. cbn [fst snd nd_map nd_data].
    rewrite list_lookup_fmap.
    destruct (nd_data (inst_mask inst) !! i) as [m |] eqn:Hmi; [| reflexivity].
    cbn. rewrite Forall_lookup in Hprob.
    rewrite (mask_on_selected m (Hprob i m Hmi)).
    destruct (selected m); [| reflexivity].
    rewrite Forall_lookup in Hd. apply (blend_pixel_half p (color_at n)).
    + exact (Hd i p Hp).
    + apply color_at_uint8.
Qed.

End LoopFacts.

Section RunFacts.
Context {L : Libraries}.

Lemma blend_steps_length (preds : list Instance) :
  Forall (fun inst => IEEE.is_binary32 (inst_score inst)) preds ->
  forall n,
    length (blend_steps n preds) =
    length (List.filter (fun inst => IEEE.gt_bool (inst_score inst) (1 # 2)) preds).
Proof.
  induction 1 as [| inst rest Hs _ IH]; intros n; [reflexivity|].
  cbn. rewrite (score_kept_gt _ Hs).
  destruct (IEEE.gt_bool (inst_score inst) (1 # 2)); cbn; by rewrite IH.
Qed.

(** [detect] when lines 43-47 raise nothing on the kept rows. *)
Lemma detect_planned (image_np : loc) (w : World) (a : image)
  (raw : list RawDetection) (plans : list (Z * Z * Z * Z * string)) :
  arrays w !! image_np = Some a ->
  detr_predict a = Ok raw ->
  mapM draw_plan (post_process_object_detection raw IEEE.py_float_0_9) = Some plans ->
  let l := fresh (dom (arrays w)) in
  detect image_np w =
    Some (Ok l,
          {| media := media w;
             arrays := <[l := fold_left draw_image plans (cvtColor_RGB2BGR a)]> (arrays w);
             events := events w ++ EvForward DETR :: concat (map (draw_events l) plans);
             np_drawn := np_drawn w;
             name_tape := name_tape w |}).
Proof.
  intros Hl Hraw Hplans l.
  rewrite (detect_run image_np w a Hl), Hraw. cbv zeta. fold l.
  destruct (draw_loop_ok (post_process_object_detection raw IEEE.py_float_0_9) l
              (set_arrays (insert l (cvtColor_RGB2BGR a)) (log (EvForward DETR) w))
              (cvtColor_RGB2BGR a) plans)
    as (w' & Hrun & Hm & Ht & Hn & He & Ha).
  { cbn. apply lookup_insert_eq. }
  { exact Hplans. }
  rewrite Hrun. f_equal. f_equal.
  destruct w' as [m' a' e' n' t']. cbn in *. subst.
  rewrite insert_insert_eq, <- app_assoc. reflexivity.
Qed.


(** [detect] stops at the first kept row that raises. *)
Lemma detect_stops (image_np : loc) (w : World) (a : image)
  (raw pre post : list RawDetection) (d : RawDetection)
  (plans : list (Z * Z * Z * Z * string)) (e : exn) :
  arrays w !! image_np = Some a ->
  detr_predict a = Ok raw ->
  post_process_object_detection raw IEEE.py_float_0_9 = pre ++ d :: post ->
  mapM draw_plan pre = Some plans ->
  draw_error d = Some e ->
  let l := fresh (dom (arrays w)) in
  exists w',
    detect image_np w = Some (Raise e, w') /\
    media w' = media w /\
    name_tape w' = name_tape w /\
    np_drawn w' = np_drawn w /\
    events w' = events w ++ EvForward DETR :: concat (map (draw_events l) plans)
                  ++ match drawn_before_error d with
                     | Some (x0, y0, x1, y1) => [EvRectangle l (x0, y0) (x1, y1)]
                     | None => []
                     end.
Proof.
  intros Hl Hraw Hkept Hplans Herr l.
  rewrite (detect_run image_np w a Hl), Hraw. cbv zeta. fold l. rewrite Hkept.
  destruct (draw_loop_stops pre post d l
              (set_arrays (insert l (cvtColor_RGB2BGR a)) (log (EvForward DETR) w))
              (cvtColor_RGB2BGR a) plans e)
    as (w' & Hrun & Hm & Ht & Hn & He); try done.
  { cbn. apply lookup_insert_eq. }
  rewrite Hrun. exists w'. split; [reflexivity|]. cbn in *.
  rewrite He, <- app_assoc. done.
Qed.

(** [segment] when the masks of the instances above the threshold have
    the picture's shape. *)
Lemma segment_blended (image_np : loc) (w : World) (a : image) (preds : list Instance) :
  arrays w !! image_np = Some a ->
  maskrcnn_predict (image_tensor a) = Ok preds ->
  Forall (fun inst => score_kept (inst_score inst) = true ->
                      same_shape a (inst_mask inst) = true) preds ->
  let l := fresh (dom (arrays w)) in
  let steps := blend_steps (np_drawn w) preds in
  segment image_np w =
    Some (Ok l,
          {| media := media w;
             arrays := <[l := NdArray (nd_rows a) (nd_cols a)
                               (fold_left blend_data steps
                                  (nd_data (cvtColor_RGB2BGR a)))]> (arrays w);
             events := events w ++ EvForward MaskRCNN
                         :: map (fun st => EvMaskedAssign l st.1 st.2) steps;
             np_drawn := 3 * length steps + np_drawn w;
             name_tape := name_tape w |}).
Proof.
  intros Hl Hpreds Hshapes l steps.
  rewrite (segment_run image_np w a Hl), Hpreds. cbv zeta. fold l.
  destruct (blend_loop_kept_ok preds l
              (set_arrays (insert l (cvtColor_RGB2BGR a)) (log (EvForward MaskRCNN) w))
              (cvtColor_RGB2BGR a))
    as (w' & Hrun & Hm & Ht & Hn & He & Ha).
  { cbn. apply lookup_insert_eq. }
  { exact Hshapes. }
  rewrite Hrun. f_equal. f_equal.
  destruct w' as [m' a' e' n' t']. cbn in *. subst.
  rewrite insert_insert_eq, <- app_assoc. reflexivity.
Qed.


(** [segment] stops at the first instance above the threshold whose mask
    has another shape than the picture. *)
Lemma segment_stops (image_np : loc) (w : World) (a : image)
  (pre post : list Instance) (inst : Instance) :
  arrays w !! image_np = Some a ->
  maskrcnn_predict (image_tensor a) = Ok (pre ++ inst :: post) ->
  Forall (fun i => score_kept (inst_score i) = true ->
                   same_shape a (inst_mask i) = true) pre ->
  score_kept (inst_score inst) = true ->
  same_shape a (inst_mask inst) = false ->
  let l := fresh (dom (arrays w)) in
  exists w',
    segment image_np w = Some (Raise IndexError, w') /\
    media w' = media w /\
    name_tape w' = name_tape w /\
    np_drawn w' = (3 + 3 * length (blend_steps (np_drawn w) pre) + np_drawn w)%nat /\
    events w' = events w ++ EvForward MaskRCNN
                  :: map (fun st => EvMaskedAssign l st.1 st.2)
                       (blend_steps (np_drawn w) pre).
Proof.
  intros Hl Hpreds Hpre Hk Hbad l.
  rewrite (segment_run image_np w a Hl), Hpreds. cbv zeta. fold l.
  destruct (blend_loop_stops pre post inst l
              (set_arrays (insert l (cvtColor_RGB2BGR a)) (log (EvForward MaskRCNN) w))
              (cvtColor_RGB2BGR a))
    as (w' & Hrun & Hm & Ht & Hn & He); try done.
  { cbn. apply lookup_insert_eq. }
  rewrite Hrun. exists w'. split; [reflexivity|]. cbn in *.
  rewrite He, <- app_assoc. done.
Qed.


(** What a completed run of a view built on [upload_view] went through. *)
Lemma upload_view_completed (m : Model) (pipeline : loc -> M loc)
  (result_page form_page : string) :
  pipeline_ok m pipeline ->
  forall (request : HttpRequest) (w : World) (f : UploadedFile)
         (resp : HttpResponse) (w' : World),
    method request = "POST" ->
    FILES request !! "image" = Some f ->
    file_name f <> "" ->
    upload_view pipeline result_page form_page request w = Some (Ok resp, w') ->
    exists stored tape' a img l draws returned,
      get_available_name (media w) (file_name f) (name_tape w) = Some (stored, tape') /\
      pil_decode (file_content f) = Ok a /\
      resp = render result_page
               {[ "original" := stored;
                  "processed" := ("processed_" ++ stored)%string ]} /\
      arrays w !! l = None /\
      img = arrays w' !!! l /\
      Forall (draws_on l) draws /\
      events w' = events w ++ EvSave stored :: EvForward m :: draws
                    ++ [EvImwrite ("processed_" ++ stored) returned] /\
      match cv2_imwrite ("processed_" ++ stored) img with
      | ImwriteTrue data =>
          returned = true /\
          media w' = <[("processed_" ++ stored)%string := data]>
                       (<[stored := file_content f]> (media w))
      | ImwriteFalse rest =>
          returned = false /\
          media w' = partial_alter (leftover rest) ("processed_" ++ stored)%string
                       (<[stored := file_content f]> (media w))
      | ImwriteError => False
      end /\
      name_tape w' = tape'.
Proof.
  intros Hok request w f resp w' Hm Hf Hn Hrun.
  destruct (get_available_name (media w) (file_name f) (name_tape w))
    as [[stored tape'] |] eqn:Hname.
  2:{ rewrite (upload_view_searching _ _ _ request w f Hm Hf Hn Hname) in Hrun.
      discriminate. }
  destruct (upload_view_outcome m pipeline result_page form_page Hok
              request w f stored tape' Hm Hf Hn Hname)
    as (r & w'' & evs & Hrun' & Hev & Htape & Hr).
  rewrite Hrun in Hrun'. injection Hrun' as <- <-.
  destruct Hr as (Hresp & a & img & l & draws & returned & Hdec & Hl & Hi & Hd & Hevs & Hout).
  exists stored, tape', a, img, l, draws, returned.
  rewrite Hev, Hevs. repeat split; try done.
Qed.

Lemma guard_cases (request : HttpRequest) :
  String.eqb (method request) "POST" && files_get_truthy request "image" = true ->
  exists f,
    method request = "POST" /\ FILES request !! "image" = Some f /\ file_name f <> "".
Proof.
  intros H. apply andb_prop in H as [Hm Hf]. unfold files_get_truthy in Hf.
  destruct (FILES request !! "image") as [f |]; [| discriminate].
  exists f. split; [by apply String.eqb_eq|]. split; [reflexivity|].
  apply negb_true_iff in Hf. by apply String.eqb_neq.
Qed.

Lemma upload_view_files (m : Model) (pipeline : loc -> M loc)
  (result_page form_page : string) :
  pipeline_ok m pipeline ->
  forall (request : HttpRequest) (w : World) (r : Result HttpResponse) (w' : World),
    upload_view pipeline result_page form_page request w = Some (r, w') ->
    media w' = media w \/
    exists f stored,
      FILES request !! "image" = Some f /\
      media w !! stored = None /\
      media w' !! stored = Some (file_content f) /\
      (forall n, n <> stored -> n <> ("processed_" ++ stored)%string ->
                 media w' !! n = media w !! n) /\
      (forall e, r = Raise e ->
                 media w' !! ("processed_" ++ stored)%string =
                 media w !! ("processed_" ++ stored)%string).
Proof.
  intros Hok request w r w' Hrun.
  destruct (String.eqb (method request) "POST" && files_get_truthy request "image")
    eqn:Hg.
  2:{ unfold upload_view in Hrun. rewrite Hg in Hrun. injection Hrun as <- <-. by left. }
  destruct (guard_cases request Hg) as (f & Hm & Hf & Hn).
  destruct (get_available_name (media w) (file_name f) (name_tape w))
    as [[stored tape'] |] eqn:Hname.
  2:{ rewrite (upload_view_searching _ _ _ request w f Hm Hf Hn Hname) in Hrun.
      discriminate. }
  pose proof Hname as Hfree. unfold get_available_name in Hfree.
  apply first_available_free in Hfree as [Hfree _].
  destruct (upload_view_outcome m pipeline result_page form_page Hok
              request w f stored tape' Hm Hf Hn Hname)
    as (r0 & w0 & evs & Hrun' & _ & _ & Hr).
  rewrite Hrun in Hrun'. injection Hrun' as <- <-.
  right. exists f, stored. split; [exact Hf|]. split; [exact Hfree|].
  pose proof (processed_name_differs stored) as Hdiff.
  destruct r as [resp | e].
  - destruct Hr as (_ & a & img & l & draws & returned & _ & _ & _ & _ & _ & Hout).
    destruct (cv2_imwrite _ _) as [data | rest |]; [| | destruct Hout].
    + destruct Hout as [_ ->]. split; [| split].
      * rewrite lookup_insert_ne by exact Hdiff. apply lookup_insert_eq.
      * intros n H1 H2. rewrite !lookup_insert_ne by congruence. reflexivity.
      * discriminate.
    + destruct Hout as [_ ->]. split; [| split].
      * rewrite lookup_partial_alter_ne by exact Hdiff. apply lookup_insert_eq.
      * intros n H1 H2. rewrite lookup_partial_alter_ne by congruence.
        rewrite lookup_insert_ne by congruence. reflexivity.
      * discriminate.
  - destruct Hr as (-> & _). split; [apply lookup_insert_eq | split].
    + intros n H1 _. rewrite lookup_insert_ne by congruence. reflexivity.
    + intros _ _. rewrite lookup_insert_ne; [reflexivity|].
      intros H. symmetry in H. by apply Hdiff in H.
Qed.

(** A POST to [detection] whose drawing loop meets a kept row that
    raises. *)
Lemma detection_row_failure
  (request : HttpRequest) (w : World) (f : UploadedFile)
  (stored : string) (tape' : list string) (a : image)
  (raw pre post : list RawDetection) (d : RawDetection)
  (plans : list (Z * Z * Z * Z * string)) (e : exn) :
  method request = "POST" ->
  FILES request !! "image" = Some f ->
  file_name f <> "" ->
  get_available_name (media w) (file_name f) (name_tape w) = Some (stored, tape') ->
  pil_decode (file_content f) = Ok a ->
  detr_predict a = Ok raw ->
  post_process_object_detection raw IEEE.py_float_0_9 = pre ++ d :: post ->
  mapM draw_plan pre = Some plans ->
  draw_error d = Some e ->
  exists w' l,
    detection request w = Some (Raise e, w') /\
    media w' = <[stored := file_content f]> (media w) /\
    np_drawn w' = np_drawn w /\
    events w' = events w ++ EvSave stored :: EvForward DETR
                  :: concat (map (draw_events l) plans)
                  ++ match drawn_before_error d with
                     | Some (x0, y0, x1, y1) => [EvRectangle l (x0, y0) (x1, y1)]
                     | None => []
                     end.
Proof.
  intros Hm Hf Hn Hname Hdec Hraw Hkept Hplans Herr.
  rewrite detection_is_upload_view.
  rewrite (upload_view_run detect _ _ request w f stored tape' a Hm Hf Hn Hname Hdec).
  cbv zeta.
  set (w1 := log (EvSave stored) _).
  set (image_np := fresh (dom (arrays w))).
  set (w2 := set_arrays (insert image_np a) w1).
  destruct (detect_stops image_np w2 a raw pre post d plans e)
    as (w' & Hrun & Hmed & _ & Hnp & Hev); try done.
  { unfold w2; cbn. apply lookup_insert_eq. }
  rewrite Hrun. exists w', (fresh (dom (arrays w2))).
  split; [reflexivity|]. rewrite Hmed, Hnp, Hev. unfold w2, w1; cbn.
  rewrite <- !app_assoc. done.
Qed.

(** A POST to [segmentation] whose blending loop meets an instance above
    the threshold with a mask of another shape than the picture. *)
Lemma segmentation_mask_failure
  (request : HttpRequest) (w : World) (f : UploadedFile)
  (stored : string) (tape' : list string) (a : image)
  (pre post : list Instance) (inst : Instance) :
  method request = "POST" ->
  FILES request !! "image" = Some f ->
  file_name f <> "" ->
  get_available_name (media w) (file_name f) (name_tape w) = Some (stored, tape') ->
  pil_decode (file_content f) = Ok a ->
  maskrcnn_predict (image_tensor a) = Ok (pre ++ inst :: post) ->
  Forall (fun i => score_kept (inst_score i) = true ->
                   same_shape a (inst_mask i) = true) pre ->
  score_kept (inst_score inst) = true ->
  same_shape a (inst_mask inst) = false ->
  exists w' l,
    segmentation request w = Some (Raise IndexError, w') /\
    media w' = <[stored := file_content f]> (media w) /\
    events w' = events w ++ EvSave stored :: EvForward MaskRCNN
                  :: map (fun st => EvMaskedAssign l st.1 st.2)
                       (blend_steps (np_drawn w) pre) /\
    np_drawn w' = (3 + 3 * length (blend_steps (np_drawn w) pre) + np_drawn w)%nat.
Proof.
  intros Hm Hf Hn Hname Hdec Hpreds Hshapes Hk Hbad.
  rewrite segmentation_is_upload_view.
  rewrite (upload_view_run segment _ _ request w f stored tape' a Hm Hf Hn Hname Hdec).
  cbv zeta.
  set (w1 := log (EvSave stored) _).
  set (image_np := fresh (dom (arrays w))).
  set (w2 := set_arrays (insert image_np a) w1).
  destruct (segment_stops image_np w2 a pre post inst)
    as (w' & Hrun & Hmed & _ & Hnp & Hev); try done.
  { unfold w2; cbn. apply lookup_insert_eq. }
  rewrite Hrun. exists w', (fresh (dom (arrays w2))).
  split; [reflexivity|]. rewrite Hmed, Hnp, Hev. unfold w2, w1; cbn.
  rewrite <- !app_assoc. done.
Qed.

End RunFacts.
(** * The claims *)

Section Claims.
Context {L : Libraries}.

Lemma probability_value (m : spec_float) :
  probability m ->
  exists q, float_value m = Some q /\ selected m = Qle_bool 129 (255 * q).
Proof.
  intros (_ & Hge & Hle). unfold selected.
  destruct m as [s | s | | s mant e]; cbn [float_value].
  - by eexists.
  - destruct Hle. exact Hge.
  - destruct Hge.
  - by eexists.
Qed.

(** One iteration of the blending loop on an instance above the
    threshold, pixel by pixel and said on the numbers. *)
Lemma blend_instance_pixels (l : loc) (inst : Instance) (w : World) (cur : image) :
  arrays w !! l = Some cur ->
  well_formed cur ->
  Forall uint8_pixel (nd_data cur) ->
  IEEE.is_binary32 (inst_score inst) ->
  IEEE.gt (inst_score inst) (1 # 2) ->
  well_formed (inst_mask inst) ->
  same_shape cur (inst_mask inst) = true ->
  Forall probability (nd_data (inst_mask inst)) ->
  let color := (np_random (np_drawn w) mod 255,
                np_random (S (np_drawn w)) mod 255,
                np_random (S (S (np_drawn w))) mod 255) in
  exists w' new,
    blend_instance l inst w = Some (Ok tt, w') /\
    arrays w' !! l = Some new /\
    nd_rows new = nd_rows cur /\
    nd_cols new = nd_cols cur /\
    length (nd_data new) = length (nd_data cur) /\
    uint8_pixel color /\
    forall i p,
      nd_data cur !! i = Some p ->
      uint8_pixel p /\
      exists m q,
        nd_data (inst_mask inst) !! i = Some m /\
        float_value m = Some q /\
        mask_on m = Qle_bool 129 (255 * q) /\
        nd_data new !! i =
          Some (if Qle_bool 129 (255 * q) then half_sum p color else p).
Proof.
  intros Hl Hwc Hpix Hb Hgt Hwm Hs Hprob color.
  assert (Hk : score_kept (inst_score inst) = true).
  { rewrite (score_kept_gt _ Hb). by apply gt_bool_spec. }
  rewrite (blend_instance_kept l inst w cur Hl Hs Hk).
  eexists _, _. split; [reflexivity|]. cbn [arrays].
  split; [apply lookup_insert_eq|].
  assert (Hlen : length (nd_data (inst_mask inst)) = length (nd_data cur)).
  { unfold well_formed in *. unfold same_shape in Hs.
    apply andb_prop in Hs as [Hr Hc].
    apply Nat.eqb_eq in Hr, Hc. rewrite Hwc, Hwm, Hr, Hc. reflexivity. }
  split; [reflexivity|]. split; [reflexivity|]. split; [| split].
  - unfold blend_data. cbn. rewrite length_zip_with, length_map, Hlen. lia.
  - apply (color_at_uint8 (np_drawn w)).
  - intros i p Hp.
    rewrite Forall_lookup in Hpix. pose proof (Hpix i p Hp) as Hu.
    split; [exact Hu|].
    destruct (lookup_lt_is_Some_2 (nd_data (inst_mask inst)) i) as [m Hm].
    { rewrite Hlen. eapply lookup_lt_Some, Hp. }
    rewrite Forall_lookup in Hprob. pose proof (Hprob i m Hm) as Hpm.
    destruct (probability_value m Hpm) as (q & Hq & Hsel).
    exists m, q. split; [exact Hm|]. split; [exact Hq|].
    split; [by rewrite (mask_on_selected m Hpm)|].
    unfold blend_data. cbn [nd_data fst snd nd_map].
    rewrite lookup_zip_with, Hp. cbn.
    rewrite list_lookup_fmap, Hm. cbn.
    rewrite (mask_on_selected m Hpm), Hsel.
    destruct (Qle_bool 129 (255 * q)); [| reflexivity].
    f_equal. apply (blend_pixel_half p (color_at (np_drawn w)) Hu).
    apply color_at_uint8.
Qed.

(** What a view that raises leaves behind. *)
Lemma upload_view_raised (m : Model) (pipeline : loc -> M loc)
  (result_page form_page : string) :
  pipeline_ok m pipeline ->
  forall (request : HttpRequest) (w : World) (f : UploadedFile)
         (stored : string) (tape' : list string) (e : exn) (w' : World),
    method request = "POST" ->
    FILES request !! "image" = Some f ->
    file_name f <> "" ->
    get_available_name (media w) (file_name f) (name_tape w) = Some (stored, tape') ->
    upload_view pipeline result_page form_page request w = Some (Raise e, w') ->
    exists evs,
      events w' = events w ++ EvSave stored :: evs /\
      media w' = <[stored := file_content f]> (media w) /\
      files_written evs = [] /\
      match pil_decode (file_content f) with
      | Raise e' => e = e' /\ forward_passes evs = []
      | Ok _ => forward_passes evs = [m]
      end.
Proof.
  intros Hok request w f stored tape' e w' Hm Hf Hn Hname Hrun.
  destruct (upload_view_outcome m pipeline result_page form_page Hok
              request w f stored tape' Hm Hf Hn Hname)
    as (r & w'' & evs & Hrun' & Hev & _ & Hr).
  rewrite Hrun in Hrun'. injection Hrun' as <- <-.
  destruct Hr as (Hmed & Hfiles & Hd). by exists evs.
Qed.

Lemma detection_fails_with (request : HttpRequest) (w : World) (f : UploadedFile)
  (stored : string) (tape' : list string) (a : image) (e : exn) (w' : World) :
  method request = "POST" ->
  FILES request !! "image" = Some f ->
  file_name f <> "" ->
  get_available_name (media w) (file_name f) (name_tape w) = Some (stored, tape') ->
  pil_decode (file_content f) = Ok a ->
  detection request w = Some (Raise e, w') ->
  fails_with detection request w f stored e [DETR].
Proof.
  intros Hm Hf Hn Hname Hdec Hrun.
  pose proof Hrun as Hrun'. rewrite detection_is_upload_view in Hrun'.
  destruct (upload_view_raised DETR detect _ _ detect_ok request w f stored tape' e w'
              Hm Hf Hn Hname Hrun') as (evs & Hev & Hmed & Hfi & Hfw).
  rewrite Hdec in Hfw. by exists w', evs.
Qed.

Lemma segmentation_fails_with (request : HttpRequest) (w : World) (f : UploadedFile)
  (stored : string) (tape' : list string) (a : image) (e : exn) (w' : World) :
  method request = "POST" ->
  FILES request !! "image" = Some f ->
  file_name f <> "" ->
  get_available_name (media w) (file_name f) (name_tape w) = Some (stored, tape') ->
  pil_decode (file_content f) = Ok a ->
  segmentation request w = Some (Raise e, w') ->
  fails_with segmentation request w f stored e [MaskRCNN].
Proof.
  intros Hm Hf Hn Hname Hdec Hrun.
  pose proof Hrun as Hrun'. rewrite segmentation_is_upload_view in Hrun'.
  destruct (upload_view_raised MaskRCNN segment _ _ segment_ok request w f stored tape'
              e w' Hm Hf Hn Hname Hrun') as (evs & Hev & Hmed & Hfi & Hfw).
  rewrite Hdec in Hfw. by exists w', evs.
Qed.



(** C3.  When no result qualifies, the working copy either pipeline hands
    to [cv2.imwrite] is the decoded picture with the red and the blue
    channel exchanged, nothing else. *)
Theorem no_qualifying_result_leaves_converted_input
  (image_np : loc) (w : World) (a : image) :
  arrays w !! image_np = Some a ->
  (forall raw,
     detr_predict a = Ok raw ->
     Forall (fun d => IEEE.is_binary32 (det_score d) /\
                      ~ IEEE.ge (det_score d) (9 # 10)) raw ->
     exists image_cv w',
       detect image_np w = Some (Ok image_cv, w') /\
       arrays w' !! image_cv = Some (cvtColor_RGB2BGR a)) /\
  (forall preds,
     maskrcnn_predict (image_tensor a) = Ok preds ->
     Forall (fun inst => IEEE.is_binary32 (inst_score inst) /\
                         ~ IEEE.gt (inst_score inst) (1 # 2)) preds ->
     exists image_cv w',
       segment image_np w = Some (Ok image_cv, w') /\
       arrays w' !! image_cv = Some (cvtColor_RGB2BGR a)).
Proof.
  intros Hl. split.
  - intros raw Hraw Hlow.
    rewrite (detect_run image_np w a Hl), Hraw. cbv zeta.
    rewrite post_process_keeps_ge
      by (eapply Forall_impl; [exact Hlow | intros d [Hb _]; exact Hb]).
    assert (Hnone : List.filter (fun d => IEEE.ge_bool (det_score d) (9 # 10)) raw = []).
    { clear Hraw. induction Hlow as [| d rest [_ Hd] _ IH]; [reflexivity|].
      cbn. rewrite (ge_false_of_not _ _ Hd). exact IH. }
    rewrite Hnone. cbn.
    eexists _, _. split; [reflexivity|]. cbn. apply lookup_insert_eq.
  - intros preds Hpreds Hlow.
    rewrite (segment_run image_np w a Hl), Hpreds. cbv zeta.
    rewrite blend_loop_none_kept.
    + eexists _, _. split; [reflexivity|]. cbn. apply lookup_insert_eq.
    + eapply Forall_impl; [exact Hlow|]. intros inst [Hb Hn]. cbn.
      rewrite (score_kept_gt _ Hb).
      destruct (IEEE.gt_bool (inst_score inst) (1 # 2)) eqn:E; [| reflexivity].
      exfalso. apply Hn, gt_bool_spec, E.
Qed.

(** C4, as the code has it.  For an instance above 0.5 the colour drawn
    at line 81, three integers of 0..254, is mixed half and half into the
    working copy at the pixels where 255 times the mask value is at least
    129, which are the pixels where the byte of line 80, the float32
    product cut to an integer, exceeds 128; every other pixel stays as it
    was, also where the scaled mask lies between 128 and 129.  The mask
    holds probabilities and has the picture's height and width. *)
Theorem kept_instance_blends_where_scaled_mask_reaches_129
  (l : loc) (inst : Instance) (w : World) (cur : image) :
  arrays w !! l = Some cur ->
  well_formed cur ->
  Forall uint8_pixel (nd_data cur) ->
  IEEE.is_binary32 (inst_score inst) ->
  IEEE.gt (inst_score inst) (1 # 2) ->
  well_formed (inst_mask inst) ->
  same_shape cur (inst_mask inst) = true ->
  Forall probability (nd_data (inst_mask inst)) ->
  let color := (np_random (np_drawn w) mod 255,
                np_random (S (np_drawn w)) mod 255,
                np_random (S (S (np_drawn w))) mod 255) in
  exists w' new,
    blend_instance l inst w = Some (Ok tt, w') /\
    arrays w' !! l = Some new /\
    nd_rows new = nd_rows cur /\
    nd_cols new = nd_cols cur /\
    length (nd_data new) = length (nd_data cur) /\
    (0 <= color.1.1 < 255 /\ 0 <= color.1.2 < 255 /\ 0 <= color.2 < 255) /\
    forall i p,
      nd_data cur !! i = Some p ->
      exists m q,
        nd_data (inst_mask inst) !! i = Some m /\
        float_value m = Some q /\
        (128 <? mask_byte m) = Qle_bool 129 (255 * q) /\
        nd_data new !! i =
          Some (if Qle_bool 129 (255 * q) then half_sum p color else p).
Proof.
  intros Hl Hwc Hpix Hb Hgt Hwm Hs Hprob color.
  destruct (blend_instance_pixels l inst w cur Hl Hwc Hpix Hb Hgt Hwm Hs Hprob)
    as (w' & new & Hrun & Hnew & Hr & Hc & Hlen & _ & Hpx).
  exists w', new. repeat split; try done.
  all: try (apply Z.mod_pos_bound; lia).
  intros i p Hp. destruct (Hpx i p Hp) as (_ & m & q & Hm & Hq & Hon & Hn).
  by exists m, q.
Qed.

(** C8.  The detection pipeline never writes to the decoded array: on
    every outcome the array object [image_np] holds the pixels it held
    before, the working copy is another object, and every rectangle and
    label is drawn on that other object. *)
Theorem detection_leaves_decoded_array_unchanged
  (image_np : loc) (w : World) (a : image) :
  arrays w !! image_np = Some a ->
  exists r w' evs,
    detect image_np w = Some (r, w') /\
    arrays w' !! image_np = Some a /\
    events w' = events w ++ EvForward DETR :: evs /\
    (forall image_cv, r = Ok image_cv -> image_cv <> image_np) /\
    (forall l pt1 pt2, In (EvRectangle l pt1 pt2) evs -> l <> image_np) /\
    (forall l text org, In (EvPutText l text org) evs -> l <> image_np).
Proof.
  intros Hl.
  destruct (detect_ok image_np w a Hl) as (r & w' & evs & Hrun & _ & _ & Ha & He & Hd & Hr).
  exists r, w', evs.
  pose proof (fresh_not_live w image_np a Hl) as Hne.
  rewrite Forall_forall in Hd.
  repeat split; try done.
  - intros image_cv Hok. rewrite (Hr image_cv Hok). exact Hne.
  - intros l pt1 pt2 Hin. apply list_elem_of_In, Hd in Hin. cbn in Hin. by subst l.
  - intros l text org Hin. apply list_elem_of_In, Hd in Hin. cbn in Hin. by subst l.
Qed.

(** C9.  A request that is not a POST carrying a file under [image] gets
    the upload form from either view, and the world (the media directory,
    the arrays, the trace of calls, hence inference too) is left exactly
    as it was. *)
Theorem other_requests_only_render_the_form (request : HttpRequest) (w : World) :
  ~ (method request = "POST" /\ is_Some (FILES request !! "image")) ->
  detection request w = Some (Ok (render "detection.html" ∅), w) /\
  segmentation request w = Some (Ok (render "segmentation.html" ∅), w).
Proof.
  intros H. rewrite detection_is_upload_view, segmentation_is_upload_view.
  split; apply upload_view_form, H.
Qed.

(** C10.  In the blend of an instance above 0.5, every pixel the mask
    selects (the byte of line 80 is above 128 or, the same, 255 times the
    mask value is at least 129) gets, in each channel, the truncation of
    0.5 times the previous value plus 0.5 times the colour's value, a sum
    float64 evaluates exactly in that order, and the new value is a
    byte. *)
Theorem masked_pixels_get_truncated_half_sum
  (l : loc) (inst : Instance) (w : World) (cur : image) :
  arrays w !! l = Some cur ->
  well_formed cur ->
  Forall uint8_pixel (nd_data cur) ->
  IEEE.is_binary32 (inst_score inst) ->
  IEEE.gt (inst_score inst) (1 # 2) ->
  well_formed (inst_mask inst) ->
  same_shape cur (inst_mask inst) = true ->
  Forall probability (nd_data (inst_mask inst)) ->
  let color := (np_random (np_drawn w) mod 255,
                np_random (S (np_drawn w)) mod 255,
                np_random (S (S (np_drawn w))) mod 255) in
  exists w' new,
    blend_instance l inst w = Some (Ok tt, w') /\
    arrays w' !! l = Some new /\
    forall i p m q,
      nd_data cur !! i = Some p ->
      nd_data (inst_mask inst) !! i = Some m ->
      float_value m = Some q ->
      128 < mask_byte m \/ (129 <= 255 * q)%Q ->
      exists n,
        nd_data new !! i = Some n /\
        n.1.1 = IEEE.Qtrunc ((1 # 2) * inject_Z p.1.1 + (1 # 2) * inject_Z color.1.1) /\
        n.1.2 = IEEE.Qtrunc ((1 # 2) * inject_Z p.1.2 + (1 # 2) * inject_Z color.1.2) /\
        n.2 = IEEE.Qtrunc ((1 # 2) * inject_Z p.2 + (1 # 2) * inject_Z color.2) /\
        0 <= n.1.1 <= 255 /\ 0 <= n.1.2 <= 255 /\ 0 <= n.2 <= 255.
Proof.
  intros Hl Hwc Hpix Hb Hgt Hwm Hs Hprob color.
  destruct (blend_instance_pixels l inst w cur Hl Hwc Hpix Hb Hgt Hwm Hs Hprob)
    as (w' & new & Hrun & Hnew & _ & _ & _ & Hcol & Hpx).
  exists w', new. split; [exact Hrun|]. split; [exact Hnew|].
  intros i p m q Hp Hm Hq Hsel.
  destruct (Hpx i p Hp) as (Hu & m' & q' & Hm' & Hq' & Hon & Hn).
  rewrite Hm in Hm'. injection Hm' as <-. rewrite Hq in Hq'. injection Hq' as <-.
  assert (Hsel' : Qle_bool 129 (255 * q) = true).
  { destruct Hsel as [Hbyte | Hsel]; [| by apply Qle_bool_iff].
    rewrite <- Hon. unfold mask_on. by apply Z.ltb_lt. }
  rewrite Hsel' in Hn.
  eexists. split; [exact Hn|].
  destruct Hu as (H0 & H1 & H2). destruct Hcol as (G0 & G1 & G2).
  subst color. unfold half_sum. cbn [fst snd] in *.
  set (c0 := np_random (np_drawn w) mod 255) in *.
  set (c1 := np_random (S (np_drawn w)) mod 255) in *.
  set (c2 := np_random (S (S (np_drawn w))) mod 255) in *.
  clearbody c0 c1 c2.
  rewrite !Qtrunc_half_sum by lia.
  repeat split; try reflexivity.
  all: try (apply Z.div_pos; lia).
  all: apply Z.div_le_upper_bound; lia.
Qed.

(** C5, as the code has it.  The instances are blended in the model's
    order, and each blend works on the pixel the earlier blends left:
    where the masks of two instances above 0.5 overlap, the later colour
    is mixed half and half with the pixel already blended with the
    earlier colour; it does not replace it. *)
Theorem overlapping_masks_blend_over_earlier_result
  (l : loc) (preds : list Instance) (w : World) (cur : image) :
  arrays w !! l = Some cur ->
  well_formed cur ->
  Forall uint8_pixel (nd_data cur) ->
  Forall (fun inst => IEEE.is_binary32 (inst_score inst)) preds ->
  Forall (fun inst =>
            IEEE.gt (inst_score inst) (1 # 2) ->
            well_formed (inst_mask inst) /\
            same_shape cur (inst_mask inst) = true /\
            Forall probability (nd_data (inst_mask inst))) preds ->
  (exists w' final,
     for_each preds (blend_instance l) w = Some (Ok tt, w') /\
     arrays w' !! l = Some final /\
     forall i p,
       nd_data cur !! i = Some p ->
       nd_data final !! i = Some (blended (np_drawn w) preds i p)) /\
  (forall n inst1 inst2 i q m1 q1 m2 q2,
     IEEE.gt (inst_score inst1) (1 # 2) ->
     IEEE.gt (inst_score inst2) (1 # 2) ->
     nd_data (inst_mask inst1) !! i = Some m1 -> float_value m1 = Some q1 ->
     nd_data (inst_mask inst2) !! i = Some m2 -> float_value m2 = Some q2 ->
     (129 <= 255 * q1)%Q ->
     (129 <= 255 * q2)%Q ->
     blended n [inst1; inst2] i q =
       half_sum
         (half_sum q (np_random n mod 255,
                      np_random (S n) mod 255,
                      np_random (S (S n)) mod 255))
         (np_random (3 + n) mod 255,
          np_random (S (3 + n)) mod 255,
          np_random (S (S (3 + n))) mod 255)).
Proof.
  intros Hl Hwc Hpix Hsc Hmasks. split.
  - assert (Hkept : forall inst, In inst preds ->
              score_kept (inst_score inst) = true -> IEEE.gt (inst_score inst) (1 # 2)).
    { intros inst Hin Hk. rewrite Forall_forall in Hsc.
      rewrite (score_kept_gt _ (Hsc inst ltac:(by apply list_elem_of_In))) in Hk.
      by apply gt_bool_spec. }
    destruct (blend_loop_kept_ok preds l w cur Hl) as (w' & Hrun & _ & _ & _ & _ & Ha).
    { rewrite Forall_forall in Hmasks. apply Forall_forall. intros inst Hin Hk.
      apply (Hmasks inst Hin). apply Hkept; [by apply list_elem_of_In | exact Hk]. }
    eexists w', _. split; [exact Hrun|]. split.
    + rewrite Ha. apply lookup_insert_eq.
    + intros i p Hp. cbn [nd_data].
      apply fold_blend_steps_blended; try done.
      eapply Forall_impl; [exact Hmasks|]. intros inst H G.
      destruct (H G) as (Hwm & Hs & Hprob). split; [| exact Hprob].
      unfold well_formed in *. unfold same_shape in Hs.
      apply andb_prop in Hs as [Hr Hc]. apply Nat.eqb_eq in Hr, Hc.
      rewrite Hwc, Hwm, Hr, Hc. reflexivity.
  - intros n inst1 inst2 i q m1 q1 m2 q2 H1 H2 Hm1 Hq1 Hm2 Hq2 Hs1 Hs2.
    apply gt_bool_spec in H1, H2. apply Qle_bool_iff in Hs1, Hs2.
    cbn [blended]. rewrite H1, H2, Hm1, Hm2.
    unfold selected. rewrite Hq1, Hq2, Hs1, Hs2. reflexivity.
Qed.


(** C7, as the code has it.  The views define no error classes and catch
    nothing.  What PIL raises on the file leaves the view as it is,
    before any inference; what the network raises leaves it as it is,
    after its one forward pass.  A model output the loops cannot use
    fails where they meet it: the first row of the detector with score
    above the threshold on which line 43, 44, 46 or 47 raises ends the
    run with that [ValueError], [OverflowError], [KeyError] or
    [cv2.error], the first instance above the threshold whose mask has
    not the picture's shape ends it with [IndexError]; what lies at or
    below the threshold is not looked at and fails nothing.  A view that
    raises has made one forward pass at most and has written no file but
    the upload. *)
Theorem failures_are_library_exceptions_without_retry
  (request : HttpRequest) (w : World) (f : UploadedFile)
  (stored : string) (tape' : list string) :
  method request = "POST" ->
  FILES request !! "image" = Some f ->
  file_name f <> "" ->
  get_available_name (media w) (file_name f) (name_tape w) = Some (stored, tape') ->
  (forall e,
     pil_decode (file_content f) = Raise e ->
     fails_with detection request w f stored e [] /\
     fails_with segmentation request w f stored e []) /\
  (forall a,
     pil_decode (file_content f) = Ok a ->
     (forall e,
        detr_predict a = Raise e ->
        fails_with detection request w f stored e [DETR]) /\
     (forall e,
        maskrcnn_predict (image_tensor a) = Raise e ->
        fails_with segmentation request w f stored e [MaskRCNN]) /\
     (forall raw pre d post plans e,
        detr_predict a = Ok raw ->
        post_process_object_detection raw IEEE.py_float_0_9 = pre ++ d :: post ->
        mapM draw_plan pre = Some plans ->
        draw_error d = Some e ->
        fails_with detection request w f stored e [DETR] /\
        (e = ValueError \/ e = OverflowError \/ e = KeyError \/ e = cv2_error)) /\
     (forall pre inst post,
        maskrcnn_predict (image_tensor a) = Ok (pre ++ inst :: post) ->
        Forall (fun i => score_kept (inst_score i) = true ->
                         same_shape a (inst_mask i) = true) pre ->
        score_kept (inst_score inst) = true ->
        same_shape a (inst_mask inst) = false ->
        fails_with segmentation request w f stored IndexError [MaskRCNN]) /\
     (forall raw,
        detr_predict a = Ok raw ->
        is_Some (mapM draw_plan (post_process_object_detection raw IEEE.py_float_0_9)) ->
        exists r w',
          detection request w = Some (r, w') /\
          forall e, r = Raise e -> e = cv2_error) /\
     (forall preds,
        maskrcnn_predict (image_tensor a) = Ok preds ->
        Forall (fun i => score_kept (inst_score i) = true ->
                         same_shape a (inst_mask i) = true) preds ->
        exists r w',
          segmentation request w = Some (r, w') /\
          forall e, r = Raise e -> e = cv2_error)) /\
  (forall e w',
     detection request w = Some (Raise e, w') \/
     segmentation request w = Some (Raise e, w') ->
     media w' = <[stored := file_content f]> (media w) /\
     exists evs,
       events w' = events w ++ EvSave stored :: evs /\
       files_written evs = [] /\
       (length (forward_passes evs) <= 1)%nat).
Proof.
  intros Hm Hf Hn Hname. split; [| split].
  - intros e Hdec.
    rewrite detection_is_upload_view, segmentation_is_upload_view.
    split; eexists _, [];
      (split; [apply (upload_view_undecoded _ _ _ request w f stored tape' e
                        Hm Hf Hn Hname Hdec)|]);
      cbn; repeat split; done.
  - intros a Hdec. split; [| split; [| split; [| split; [| split]]]].
    + intros e Hr.
      destruct (upload_view_network_raises detect _ "detection_result.html"
                  "detection.html" detect_raises
                  request w f stored tape' a e Hm Hf Hn Hname Hdec Hr) as [w' Hrun].
      apply (detection_fails_with request w f stored tape' a e w' Hm Hf Hn Hname Hdec).
      exact Hrun.
    + intros e Hr.
      destruct (upload_view_network_raises segment _ "segmentation_result.html"
                  "segmentation.html" segment_raises
                  request w f stored tape' a e Hm Hf Hn Hname Hdec Hr) as [w' Hrun].
      apply (segmentation_fails_with request w f stored tape' a e w'
               Hm Hf Hn Hname Hdec).
      exact Hrun.
    + intros raw pre d post plans e Hraw Hkept Hplans Herr.
      split; [| exact (draw_error_class d e Herr)].
      destruct (detection_row_failure request w f stored tape' a raw pre post d plans e
                  Hm Hf Hn Hname Hdec Hraw Hkept Hplans Herr) as (w' & l & Hrun & _).
      exact (detection_fails_with request w f stored tape' a e w'
               Hm Hf Hn Hname Hdec Hrun).
    + intros pre inst post Hpreds Hpre Hk Hbad.
      destruct (segmentation_mask_failure request w f stored tape' a pre post inst
                  Hm Hf Hn Hname Hdec Hpreds Hpre Hk Hbad) as (w' & l & Hrun & _).
      exact (segmentation_fails_with request w f stored tape' a IndexError w'
               Hm Hf Hn Hname Hdec Hrun).
    + intros raw Hraw [plans Hplans].
      rewrite detection_is_upload_view.
      rewrite (upload_view_run detect _ _ request w f stored tape' a Hm Hf Hn Hname Hdec).
      cbv zeta.
      rewrite (detect_planned _ _ a raw plans); try done.
      2:{ cbn. apply lookup_insert_eq. }
      cbv zeta.
      destruct (cv2_imwrite _ _); eexists _, _; (split; [reflexivity|]);
        intros e He; congruence.
    + intros preds Hpreds Hshapes.
      rewrite segmentation_is_upload_view.
      rewrite (upload_view_run segment _ _ request w f stored tape' a Hm Hf Hn Hname Hdec).
      cbv zeta.
      rewrite (segment_blended _ _ a preds); try done.
      2:{ cbn. apply lookup_insert_eq. }
      cbv zeta.
      destruct (cv2_imwrite _ _); eexists _, _; (split; [reflexivity|]);
        intros e He; congruence.
  - intros e w' Hrun.
    assert (H : exists m evs,
              events w' = events w ++ EvSave stored :: evs /\
              media w' = <[stored := file_content f]> (media w) /\
              files_written evs = [] /\
              match pil_decode (file_content f) with
              | Raise e' => e = e' /\ forward_passes evs = []
              | Ok _ => forward_passes evs = [m]
              end).
    { rewrite detection_is_upload_view, segmentation_is_upload_view in Hrun.
      destruct Hrun as [Hrun | Hrun].
      - exists DETR. exact (upload_view_raised DETR detect _ _ detect_ok request w f
                              stored tape' e w' Hm Hf Hn Hname Hrun).
      - exists MaskRCNN. exact (upload_view_raised MaskRCNN segment _ _ segment_ok
                                  request w f stored tape' e w' Hm Hf Hn Hname Hrun). }
    destruct H as (m & evs & Hev & Hmed & Hfi & Hfw).
    split; [exact Hmed|]. exists evs. split; [exact Hev|]. split; [exact Hfi|].
    destruct (pil_decode (file_content f)); [rewrite Hfw | destruct Hfw as [_ ->]];
      cbn; lia.
Qed.

End Claims.
(** * Runs on the synthetic libraries *)

Lemma unit_float32_probability (m : spec_float) :
  unit_float32 m = true -> probability m.
Proof.
  unfold unit_float32. intros H.
  apply andb_prop in H as [H Hgt]. apply andb_prop in H as [Hv Hge].
  split; [exact Hv|]. split; [by apply ge_bool_spec|].
  apply not_gt_of_bool. by apply negb_true_iff.
Qed.





Lemma no_qualifying_result_leaves_converted_input_witness :
  (exists image_cv w',
     @detect Stub.quiet 1%positive Stub.with_picture = Some (Ok image_cv, w') /\
     arrays w' !! image_cv = Some (cvtColor_RGB2BGR Stub.picture)) /\
  (exists image_cv w',
     @segment Stub.quiet 1%positive Stub.with_picture = Some (Ok image_cv, w') /\
     arrays w' !! image_cv = Some (cvtColor_RGB2BGR Stub.picture)).
Proof.
  pose proof (@no_qualifying_result_leaves_converted_input Stub.quiet 1%positive
                Stub.with_picture Stub.picture eq_refl) as H.
  split.
  - apply (proj1 H _ eq_refl).
    repeat (constructor; [split; [reflexivity | apply not_ge_of_bool; reflexivity]|]).
    constructor.
  - apply (proj2 H _ eq_refl).
    repeat (constructor; [split; [reflexivity | apply not_gt_of_bool; reflexivity]|]).
    constructor.
Defined.

Lemma kept_instance_blends_where_scaled_mask_reaches_129_witness :
  exists w' new,
    @blend_instance Stub.lib 1%positive Sample.faint Stub.with_picture
      = Some (Ok tt, w') /\
    arrays w' !! 1%positive = Some new /\
    nd_rows new = 1%nat /\
    nd_cols new = 2%nat /\
    length (nd_data new) = 2%nat /\
    (0 <= 200 < 255 /\ 0 <= 200 < 255 /\ 0 <= 200 < 255) /\
    forall i p,
      nd_data Stub.picture !! i = Some p ->
      exists m q,
        [Stub.f32 129 (-8); Stub.f32 1 0] !! i = Some m /\
        float_value m = Some q /\
        (128 <? mask_byte m) = Qle_bool 129 (255 * q) /\
        nd_data new !! i =
          Some (if Qle_bool 129 (255 * q) then half_sum p (200, 200, 200) else p).
Proof.
  apply (@kept_instance_blends_where_scaled_mask_reaches_129 Stub.lib 1%positive
           Sample.faint Stub.with_picture Stub.picture).
  - reflexivity.
  - reflexivity.
  - repeat (constructor; [unfold uint8_pixel; cbn; lia|]). constructor.
  - reflexivity.
  - by apply gt_bool_spec.
  - reflexivity.
  - reflexivity.
  - repeat (constructor; [apply unit_float32_probability; reflexivity|]). constructor.
Defined.

(** C4 as stated fails.  The mask of an instance of score 0.75 is
    129/256 on the first pixel: scaled to the range 0-255 it is
    128.496..., strictly greater than 128, yet line 80 cuts it to the
    byte 128, line 82 does not select the pixel and the pixel stays as it
    was.  The second pixel, where the mask is 1, is blended. *)
Lemma scaled_mask_above_128_is_not_blended :
  IEEE.gt (inst_score Sample.faint) (1 # 2) /\
  nd_data (inst_mask Sample.faint) !! 0%nat = Some (Stub.f32 129 (-8)) /\
  (exists q,
     float_value (Stub.f32 129 (-8)) = Some q /\
     (q == 129 # 256)%Q /\ (128 < 255 * q)%Q) /\
  mask_byte (Stub.f32 129 (-8)) = 128 /\
  exists w' new,
    @blend_instance Stub.lib 1%positive Sample.faint Stub.with_picture
      = Some (Ok tt, w') /\
    arrays w' !! 1%positive = Some new /\
    nd_data new !! 0%nat = nd_data Stub.picture !! 0%nat /\
    nd_data Stub.picture !! 1%nat = Some (10, 20, 30) /\
    nd_data new !! 1%nat = Some (105, 110, 115).
Proof.
  split; [by apply gt_bool_spec|]. split; [reflexivity|]. split; [| split].
  - eexists. split; [reflexivity|]. split; reflexivity.
  - reflexivity.
  - eexists _, _. split; [vm_compute; reflexivity|]. repeat split; reflexivity.
Qed.

Lemma detection_leaves_decoded_array_unchanged_witness :
  exists r w' evs,
    @detect Stub.lib 1%positive Stub.with_picture = Some (r, w') /\
    arrays w' !! 1%positive = Some Stub.picture /\
    events w' = events Stub.with_picture ++ EvForward DETR :: evs /\
    (forall image_cv, r = Ok image_cv -> image_cv <> 1%positive) /\
    (forall l pt1 pt2, In (EvRectangle l pt1 pt2) evs -> l <> 1%positive) /\
    (forall l text org, In (EvPutText l text org) evs -> l <> 1%positive).
Proof.
  apply (@detection_leaves_decoded_array_unchanged Stub.lib 1%positive
           Stub.with_picture Stub.picture).
  reflexivity.
Defined.

Lemma other_requests_only_render_the_form_witness :
  @detection Stub.lib Stub.get_page Stub.empty_world =
    Some (Ok (render "detection.html" ∅), Stub.empty_world) /\
  @segmentation Stub.lib Stub.get_page Stub.empty_world =
    Some (Ok (render "segmentation.html" ∅), Stub.empty_world).
Proof.
  apply (@other_requests_only_render_the_form Stub.lib Stub.get_page Stub.empty_world).
  intros [Hm _]. discriminate Hm.
Defined.

Lemma masked_pixels_get_truncated_half_sum_witness :
  exists w' new,
    @blend_instance Stub.lib 1%positive Sample.faint Stub.with_picture
      = Some (Ok tt, w') /\
    arrays w' !! 1%positive = Some new /\
    exists n,
      nd_data new !! 1%nat = Some n /\
      n.1.1 = IEEE.Qtrunc ((1 # 2) * inject_Z 10 + (1 # 2) * inject_Z 200) /\
      n.1.2 = IEEE.Qtrunc ((1 # 2) * inject_Z 20 + (1 # 2) * inject_Z 200) /\
      n.2 = IEEE.Qtrunc ((1 # 2) * inject_Z 30 + (1 # 2) * inject_Z 200) /\
      0 <= n.1.1 <= 255 /\ 0 <= n.1.2 <= 255 /\ 0 <= n.2 <= 255.
Proof.
  destruct (@masked_pixels_get_truncated_half_sum Stub.lib 1%positive
              Sample.faint Stub.with_picture Stub.picture)
    as (w' & new & Hrun & Hnew & Hpx).
  - reflexivity.
  - reflexivity.
  - repeat (constructor; [unfold uint8_pixel; cbn; lia|]). constructor.
  - reflexivity.
  - by apply gt_bool_spec.
  - reflexivity.
  - reflexivity.
  - repeat (constructor; [apply unit_float32_probability; reflexivity|]). constructor.
  - exists w', new. split; [exact Hrun|]. split; [exact Hnew|].
    eapply (Hpx 1%nat (10, 20, 30) (Stub.f32 1 0));
      [reflexivity | reflexivity | reflexivity | left; reflexivity].
Defined.

(** C5 as stated fails.  The first pixel of the picture is black; the
    first kept instance blends (200, 200, 200) into it, the last one
    blends (0, 0, 0) over both pixels.  Where they overlap the result is
    (50, 50, 50): had the last instance overwritten the earlier blend,
    the pixel would be what that instance alone makes of it, black, as
    the run of the last assignment alone on the converted picture shows;
    the second pixel, which only the last instance covers, is the same
    in both. *)
Lemma later_instance_does_not_overwrite_earlier_blend :
  (forall l w', @segment Stub.lib 1%positive Stub.with_picture = Some (Ok l, w') ->
     masked_assigns (events w') =
       [ (l, NdArray 1 2 [true; false], (200, 200, 200));
         (l, NdArray 1 2 [true; true], (0, 0, 0)) ] /\
     nd_data <$> arrays w' !! l = Some [(50, 50, 50); (15, 10, 5)]) /\
  is_Some (@segment Stub.lib 1%positive Stub.with_picture) /\
  masked_blend (cvtColor_RGB2BGR Stub.picture) (NdArray 1 2 [true; true]) (0, 0, 0)
    = Ok (NdArray 1 2 [(0, 0, 0); (15, 10, 5)]) /\
  (50, 50, 50) <> ((0, 0, 0) : pixel).
Proof.
  split; [| split; [| split]].
  - intros l w' H. vm_compute in H. injection H as <- <-. vm_compute. done.
  - vm_compute. eauto.
  - vm_compute. reflexivity.
  - discriminate.
Qed.

Lemma overlapping_masks_blend_over_earlier_result_witness :
  (exists w' final,
     for_each Stub.instances (@blend_instance Stub.lib 1%positive) Stub.with_picture
       = Some (Ok tt, w') /\
     arrays w' !! 1%positive = Some final /\
     forall i p,
       nd_data Stub.picture !! i = Some p ->
       nd_data final !! i = Some (@blended Stub.lib 0 Stub.instances i p)) /\
  @blended Stub.lib 0
    [ {| inst_mask := NdArray 1 2 [Stub.f32 1 0; S754_zero false];
         inst_score := Stub.f32 3 (-2); inst_label := 1 |};
      {| inst_mask := NdArray 1 2 [Stub.f32 1 0; Stub.f32 1 0];
         inst_score := Stub.f32 5 (-3); inst_label := 2 |} ] 0 (0, 0, 0) =
    half_sum (half_sum (0, 0, 0) (200, 200, 200)) (0, 0, 0).
Proof.
  pose proof (@overlapping_masks_blend_over_earlier_result Stub.lib 1%positive
                Stub.instances Stub.with_picture Stub.picture) as H.
  destruct H as [Hrun Htwo].
  - reflexivity.
  - reflexivity.
  - repeat (constructor; [unfold uint8_pixel; cbn; lia|]). constructor.
  - repeat (constructor; [reflexivity|]). constructor.
  - repeat (constructor;
            [intros _; split; [reflexivity|]; split; [reflexivity|];
             repeat (constructor; [apply unit_float32_probability; reflexivity|]);
             constructor|]).
    constructor.
  - split; [exact Hrun|].
    eapply (Htwo 0%nat _ _ 0%nat (0, 0, 0) (Stub.f32 1 0) _ (Stub.f32 1 0));
      [by apply gt_bool_spec | by apply gt_bool_spec
      | reflexivity | reflexivity | reflexivity | reflexivity
      | vm_compute; discriminate | vm_compute; discriminate].
Defined.



(** C7 as stated fails.  On a file PIL cannot identify the view raises
    PIL's [UnidentifiedImageError], not a [DecodeError].  On a detector
    output with a row above the threshold whose label [id2label] lacks
    the view raises [KeyError], not an [InferenceError]; on a Mask R-CNN
    output with a mask above the threshold that has not the picture's
    shape it raises [IndexError], not a [SegmentationInferenceError].
    And a row the loop could not use, with a NaN corner and an unknown
    label, fails nothing when its score is under the threshold: the run
    completes. *)
Lemma failures_are_not_the_named_errors :
  Stub.error_of (@detection Stub.lib (Stub.upload "a.png" []) Stub.empty_world)
    = Some UnidentifiedImageError /\
  UnidentifiedImageError <> PyExn "DecodeError" /\
  Sample.detections !! 1%nat =
    Some {| det_score := Stub.f32 31 (-5); det_label := 99;
            det_box := (S754_zero false, S754_zero false, Stub.f32 1 0, Stub.f32 1 0) |} /\
  @id2label Sample.lib !! 99 = None /\
  Stub.error_of (@detection Sample.lib (Stub.upload "a.png" [Byte.x07]) Stub.empty_world)
    = Some KeyError /\
  KeyError <> PyExn "InferenceError" /\
  Sample.instances !! 1%nat =
    Some {| inst_mask := NdArray 2 1 [Stub.f32 1 0; Stub.f32 1 0];
            inst_score := Stub.f32 3 (-2); inst_label := 1 |} /\
  Stub.error_of (@segmentation Sample.lib (Stub.upload "a.png" [Byte.x07])
                   Stub.empty_world) = Some IndexError /\
  IndexError <> PyExn "SegmentationInferenceError" /\
  Stub.detections !! 2%nat =
    Some {| det_score := Stub.f32 1 (-2); det_label := 99;
            det_box := (S754_nan, S754_zero false, Stub.f32 1 0, Stub.f32 1 0) |} /\
  @id2label Stub.lib !! 99 = None /\
  Stub.error_of Stub.first_run = None /\
  is_Some (media (Stub.world_of Stub.first_run) !! "processed_a.png").
Proof.
  repeat split; try reflexivity; try discriminate; try (vm_compute; reflexivity).
  vm_compute. eauto.
Qed.

Lemma failures_are_library_exceptions_without_retry_witness :
  fails_with (@detection Sample.lib)
    (Stub.upload "a.png" [Byte.x07]) Stub.empty_world
    {| file_name := "a.png"; file_content := [Byte.x07] |} "a.png" KeyError [DETR] /\
  fails_with (@segmentation Sample.lib)
    (Stub.upload "a.png" [Byte.x07]) Stub.empty_world
    {| file_name := "a.png"; file_content := [Byte.x07] |} "a.png" IndexError [MaskRCNN] /\
  fails_with (@detection Stub.lib)
    (Stub.upload "a.png" []) Stub.empty_world
    {| file_name := "a.png"; file_content := [] |} "a.png" UnidentifiedImageError [].
Proof.
  pose proof (@failures_are_library_exceptions_without_retry Sample.lib
                (Stub.upload "a.png" [Byte.x07]) Stub.empty_world
                {| file_name := "a.png"; file_content := [Byte.x07] |}
                "a.png" ["AbCdEfG"%string]
                eq_refl eq_refl ltac:(discriminate) eq_refl) as (_ & Hmodel & _).
  destruct (Hmodel Sample.decoded eq_refl) as (_ & _ & Hrow & Hmask & _).
  pose proof (@failures_are_library_exceptions_without_retry Stub.lib
                (Stub.upload "a.png" []) Stub.empty_world
                {| file_name := "a.png"; file_content := [] |}
                "a.png" ["AbCdEfG"%string]
                eq_refl eq_refl ltac:(discriminate) eq_refl) as (Hdecode & _).
  split; [| split].
  - apply (Hrow Sample.detections (firstn 1 Sample.detections)
             {| det_score := Stub.f32 31 (-5); det_label := 99;
                det_box := (S754_zero false, S754_zero false, Stub.f32 1 0, Stub.f32 1 0) |}
             (skipn 2 Sample.detections) [Sample.plan] KeyError).
    + reflexivity.
    + vm_compute. reflexivity.
    + vm_compute. reflexivity.
    + vm_compute. reflexivity.
  - apply (Hmask (firstn 1 Sample.instances)
             {| inst_mask := NdArray 2 1 [Stub.f32 1 0; Stub.f32 1 0];
                inst_score := Stub.f32 3 (-2); inst_label := 1 |}
             (skipn 2 Sample.instances)).
    + reflexivity.
    + repeat constructor.
    + reflexivity.
    + reflexivity.
  - apply (Hdecode UnidentifiedImageError). reflexivity.
Defined.

(** * Further properties of the views *)

(** ** Requests that do not upload *)

Section UrlFacts.
Context {L : Libraries}.

(** X1.  A request that is not a POST changes nothing, whatever its path: the
    three routes answer with their page, any other path ends in
    [Resolver404], and the media directory, the arrays and the trace are
    as they were. *)
Theorem dispatch_without_post_changes_nothing
  (path : string) (request : HttpRequest) (w : World) :
  method request <> "POST" ->
  exists r,
    dispatch path request w = Some (r, w) /\
    (path = "" -> r = Ok (render "index.html" ∅)) /\
    (path = "detection/" -> r = Ok (render "detection.html" ∅)) /\
    (path = "segmentation/" -> r = Ok (render "segmentation.html" ∅)) /\
    (path <> "" -> path <> "detection/" -> path <> "segmentation/" ->
     r = Raise Resolver404).
Proof.
  intros Hm.
  assert (Hform : ~ (method request = "POST" /\ is_Some (FILES request !! "image")))
    by (intros [H _]; contradiction).
  unfold dispatch, resolve, urlpatterns. cbn [List.find pattern_route].
  destruct (String.eqb_spec "" path) as [<- | H1].
  { cbn. eexists. split; [reflexivity|]. repeat split; try done. }
  destruct (String.eqb_spec "detection/" path) as [<- | H2].
  { cbn [pattern_view]. rewrite detection_is_upload_view, (upload_view_form _ _ _ _ _ Hform).
    eexists. split; [reflexivity|]. repeat split; try done. }
  destruct (String.eqb_spec "segmentation/" path) as [<- | H3].
  { cbn [pattern_view].
    rewrite segmentation_is_upload_view, (upload_view_form _ _ _ _ _ Hform).
    eexists. split; [reflexivity|]. repeat split; try done. }
  eexists. split; [reflexivity|]. repeat split; congruence.
Qed.

(** X2.  The guard of lines 25 and 63 tests the file object, not its
    presence: a POST whose [image] file has an empty name gets the upload
    form from either view, and nothing is stored or run. *)
Theorem post_with_unnamed_file_renders_the_form
  (request : HttpRequest) (w : World) (f : UploadedFile) :
  FILES request !! "image" = Some f ->
  file_name f = "" ->
  detection request w = Some (Ok (render "detection.html" ∅), w) /\
  segmentation request w = Some (Ok (render "segmentation.html" ∅), w).
Proof.
  intros Hf Hn.
  assert (Hg : String.eqb (method request) "POST" && files_get_truthy request "image"
               = false).
  { unfold files_get_truthy. rewrite Hf, Hn. cbn. apply andb_false_r. }
  unfold detection, segmentation. rewrite Hg. split; reflexivity.
Qed.

End UrlFacts.

(** ** Runs that reach the output *)

Section CompletedRuns.
Context {L : Libraries}.

(** X3.  However a run of either view ends, the media directory changes in at
    most two places: the upload is stored under a name that was free, and
    the output, written only by a run that completes, is the one file
    that may replace an older one.  Every other file is as it was. *)
Theorem views_only_touch_their_two_files
  (request : HttpRequest) (w : World) (r : Result HttpResponse) (w' : World) :
  detection request w = Some (r, w') \/ segmentation request w = Some (r, w') ->
  media w' = media w \/
  exists f stored,
    FILES request !! "image" = Some f /\
    media w !! stored = None /\
    media w' !! stored = Some (file_content f) /\
    (forall n, n <> stored -> n <> ("processed_" ++ stored)%string ->
               media w' !! n = media w !! n) /\
    (forall e, r = Raise e ->
               media w' !! ("processed_" ++ stored)%string =
               media w !! ("processed_" ++ stored)%string).
Proof.
  rewrite detection_is_upload_view, segmentation_is_upload_view.
  intros [Hrun | Hrun].
  - exact (upload_view_files DETR detect _ _ detect_ok request w r w' Hrun).
  - exact (upload_view_files MaskRCNN segment _ _ segment_ok request w r w' Hrun).
Qed.

(** X4.  The output of a completed run is named after the upload: [processed_],
    then the root of the uploaded name, with an underscore and a random
    suffix when the name was taken, then the uploaded name's extension,
    which is therefore the extension [cv2.imwrite] picks its encoder by. *)
Theorem output_name_keeps_the_upload_extension
  (request : HttpRequest) (w : World) (f : UploadedFile)
  (resp : HttpResponse) (w' : World) :
  method request = "POST" ->
  FILES request !! "image" = Some f ->
  file_name f <> "" ->
  detection request w = Some (Ok resp, w') \/
  segmentation request w = Some (Ok resp, w') ->
  let ext := joined_suffixes (file_name f) in
  let root := removesuffix (file_name f) ext in
  (root ++ ext)%string = file_name f /\
  (ext = "" \/ exists rest, ext = String "." rest) /\
  exists stem,
    context resp !! "original" = Some (stem ++ ext)%string /\
    context resp !! "processed" = Some ("processed_" ++ stem ++ ext)%string /\
    (stem = root \/
     exists rnd, In rnd (name_tape w) /\ stem = (root ++ "_" ++ rnd)%string).
Proof.
  intros Hm Hf Hn Hrun ext root.
  destruct (root_and_extension (file_name f)) as [Hsplit Hext].
  split; [exact Hsplit|]. split; [exact Hext|].
  assert (H : exists result_page stored tape',
            get_available_name (media w) (file_name f) (name_tape w)
              = Some (stored, tape') /\
            resp = render result_page
                     {[ "original" := stored;
                        "processed" := ("processed_" ++ stored)%string ]}).
  { rewrite detection_is_upload_view, segmentation_is_upload_view in Hrun.
    destruct Hrun as [Hrun | Hrun].
    - destruct (upload_view_completed DETR detect _ _ detect_ok request w f resp w'
                  Hm Hf Hn Hrun)
        as (stored & tape' & ? & ? & ? & ? & ? & Hname & _ & Hr & _).
      by exists "detection_result.html", stored, tape'.
    - destruct (upload_view_completed MaskRCNN segment _ _ segment_ok request w f resp w'
                  Hm Hf Hn Hrun)
        as (stored & tape' & ? & ? & ? & ? & ? & Hname & _ & Hr & _).
      by exists "segmentation_result.html", stored, tape'. }
  destruct H as (result_page & stored & tape' & Hname & ->).
  apply available_name_shape in Hname as (stem & -> & Hstem).
  exists stem. split; [| split; [| exact Hstem]].
  - cbn. apply lookup_insert_eq.
  - cbn. rewrite lookup_insert_ne by discriminate. apply lookup_insert_eq.
Qed.

(** X5.  A completed run stores the upload first, then runs its own
    network once, then only works in place on a new array, and calls
    [cv2.imwrite] last; the output file is written when that call
    returns [True], and when it returns [False] the run completes all
    the same, with what the call left under the output's name. *)
Theorem completed_run_orders_its_effects
  (request : HttpRequest) (w : World) (f : UploadedFile)
  (resp : HttpResponse) (w' : World) :
  method request = "POST" ->
  FILES request !! "image" = Some f ->
  file_name f <> "" ->
  forall (m : Model),
    (m = DETR /\ detection request w = Some (Ok resp, w')) \/
    (m = MaskRCNN /\ segmentation request w = Some (Ok resp, w')) ->
    exists stored l draws returned,
      arrays w !! l = None /\ Forall (draws_on l) draws /\
      events w' = events w ++ EvSave stored :: EvForward m :: draws
                    ++ [EvImwrite ("processed_" ++ stored) returned] /\
      if returned
      then exists data,
             media w' = <[("processed_" ++ stored)%string := data]>
                          (<[stored := file_content f]> (media w))
      else exists rest,
             media w' = partial_alter (leftover rest) ("processed_" ++ stored)%string
                          (<[stored := file_content f]> (media w)).
Proof.
  intros Hm Hf Hn m Hrun.
  assert (H : exists pipeline result_page form_page,
            pipeline_ok m pipeline /\
            upload_view pipeline result_page form_page request w = Some (Ok resp, w')).
  { rewrite detection_is_upload_view, segmentation_is_upload_view in Hrun.
    destruct Hrun as [[-> Hrun] | [-> Hrun]].
    - exists detect, "detection_result.html", "detection.html".
      split; [exact detect_ok | exact Hrun].
    - exists segment, "segmentation_result.html", "segmentation.html".
      split; [exact segment_ok | exact Hrun]. }
  destruct H as (pipeline & result_page & form_page & Hok & Hview).
  destruct (upload_view_completed m pipeline result_page form_page Hok request w f resp w'
              Hm Hf Hn Hview)
    as (stored & ? & ? & img & l & draws & returned & _ & _ & _ & Hl & _ & Hd & He & Hw & _).
  exists stored, l, draws, returned.
  split; [exact Hl|]. split; [exact Hd|]. split; [exact He|].
  destruct (cv2_imwrite _ img) as [data | rest |]; [| | destruct Hw].
  - destruct Hw as [-> Hw]. by exists data.
  - destruct Hw as [-> Hw]. by exists rest.
Qed.

(** X6.  End to end: a POST to [detection] whose picture decodes and on
    whose kept rows lines 43-47 raise nothing hands [cv2.imwrite] the
    converted picture with the boxes and labels of the kept rows drawn in
    order.  When the call returns [True] the encoding is written and the
    result page returned; when it returns [False] the result page is
    returned as well and the output's name holds what the call left;
    when it raises, the view ends with [cv2.error] and only the upload is
    stored. *)
Theorem detection_writes_the_drawn_picture
  (request : HttpRequest) (w : World) (f : UploadedFile)
  (stored : string) (tape' : list string) (a : image)
  (raw : list RawDetection) (plans : list (Z * Z * Z * Z * string)) :
  method request = "POST" ->
  FILES request !! "image" = Some f ->
  file_name f <> "" ->
  get_available_name (media w) (file_name f) (name_tape w) = Some (stored, tape') ->
  pil_decode (file_content f) = Ok a ->
  detr_predict a = Ok raw ->
  mapM draw_plan (post_process_object_detection raw IEEE.py_float_0_9) = Some plans ->
  let processed := ("processed_" ++ stored)%string in
  let page := render "detection_result.html"
                {[ "original" := stored; "processed" := processed ]} in
  let out := fold_left draw_image plans (cvtColor_RGB2BGR a) in
  exists w',
    detection request w =
      Some (match cv2_imwrite processed out with
            | ImwriteTrue _ => Ok page
            | ImwriteFalse _ => Ok page
            | ImwriteError => Raise cv2_error
            end, w') /\
    media w' = match cv2_imwrite processed out with
               | ImwriteTrue data =>
                   <[processed := data]> (<[stored := file_content f]> (media w))
               | ImwriteFalse rest =>
                   partial_alter (leftover rest) processed
                     (<[stored := file_content f]> (media w))
               | ImwriteError => <[stored := file_content f]> (media w)
               end /\
    np_drawn w' = np_drawn w.
Proof.
  intros Hm Hf Hn Hname Hdec Hraw Hplans processed page out.
  rewrite detection_is_upload_view.
  rewrite (upload_view_run detect _ _ request w f stored tape' a Hm Hf Hn Hname Hdec).
  cbv zeta.
  set (w1 := log (EvSave stored) _).
  set (image_np := fresh (dom (arrays w))).
  set (w2 := set_arrays (insert image_np a) w1).
  rewrite (detect_planned image_np w2 a raw plans); try done.
  2:{ unfold w2; cbn. apply lookup_insert_eq. }
  cbv zeta. cbn [arrays]. rewrite lookup_total_insert_eq.
  fold out. fold processed.
  destruct (cv2_imwrite processed out) as [data | rest |];
    eexists; (split; [reflexivity|]); cbn; done.
Qed.

Lemma blend_steps_lengths_kept (cur : image) (preds : list Instance) :
  well_formed cur ->
  Forall (fun inst => score_kept (inst_score inst) = true ->
                      well_formed (inst_mask inst) /\
                      same_shape cur (inst_mask inst) = true) preds ->
  forall n,
    Forall (fun st => length (nd_data st.1) = length (nd_data cur)) (blend_steps n preds).
Proof.
  intros Hwc Hpreds. induction Hpreds as [| inst rest Hi _ IH]; intros n; cbn.
  - constructor.
  - destruct (score_kept (inst_score inst)); [| apply IH].
    destruct (Hi eq_refl) as [Hwm Hs].
    constructor; [| apply IH]. cbn. rewrite length_map.
    unfold well_formed in *. unfold same_shape in Hs.
    apply andb_prop in Hs as [Hr Hc]. apply Nat.eqb_eq in Hr, Hc.
    rewrite Hwc, Hwm, Hr, Hc. reflexivity.
Qed.

(** The picture the blending loop makes of a uint8 picture, pixel by
    pixel. *)
Lemma blend_steps_pixels (a : image) (preds : list Instance) (n : nat) :
  well_formed a ->
  Forall uint8_pixel (nd_data a) ->
  Forall (fun inst => IEEE.is_binary32 (inst_score inst)) preds ->
  Forall (fun inst =>
            IEEE.gt (inst_score inst) (1 # 2) ->
            well_formed (inst_mask inst) /\
            same_shape a (inst_mask inst) = true /\
            Forall probability (nd_data (inst_mask inst))) preds ->
  let data := fold_left blend_data (blend_steps n preds) (nd_data (cvtColor_RGB2BGR a)) in
  length data = length (nd_data a) /\
  Forall uint8_pixel data /\
  forall i p,
    nd_data a !! i = Some p ->
    data !! i = Some (blended n preds i (swap_rb p)).
Proof.
  intros Hwf Hpix Hsc Hmasks data.
  destruct (cvtColor_RGB2BGR_facts a) as (Hshape & Hwf' & Hpix').
  assert (Hgt : forall inst, In inst preds -> score_kept (inst_score inst) = true ->
                             IEEE.gt (inst_score inst) (1 # 2)).
  { intros inst Hin Hk. rewrite Forall_forall in Hsc.
    rewrite (score_kept_gt _ (Hsc inst ltac:(by apply list_elem_of_In))) in Hk.
    by apply gt_bool_spec. }
  destruct (fold_blend_data_uint8 (blend_steps n preds) (nd_data (cvtColor_RGB2BGR a)))
    as [Hlen Hbytes].
  - apply blend_steps_lengths_kept; [by apply Hwf'|].
    rewrite Forall_forall in Hmasks. apply Forall_forall. intros inst Hin Hk.
    destruct (Hmasks inst Hin (Hgt inst ltac:(by apply list_elem_of_In) Hk))
      as (Hwm & Hs & _).
    split; [exact Hwm | exact Hs].
  - apply blend_steps_colors.
  - by apply Hpix'.
  - split; [| split; [exact Hbytes|]].
    + unfold data. rewrite Hlen. unfold cvtColor_RGB2BGR, nd_map. cbn.
      apply length_map.
    + intros i p Hp. apply fold_blend_steps_blended.
      * exact Hsc.
      * eapply Forall_impl; [exact Hmasks|]. intros inst H G.
        destruct (H G) as (Hwm & Hs & Hprob). split; [| exact Hprob].
        unfold same_shape in Hs. apply andb_prop in Hs as [Hr Hc].
        apply Nat.eqb_eq in Hr, Hc.
        unfold cvtColor_RGB2BGR, nd_map. cbn [nd_data]. rewrite length_map.
        unfold well_formed in *. rewrite Hwm, Hwf, Hr, Hc. reflexivity.
      * by apply Hpix'.
      * unfold cvtColor_RGB2BGR, nd_map. cbn [nd_data].
        rewrite list_lookup_fmap, Hp. reflexivity.
Qed.

(** X7.  End to end: a POST to [segmentation] whose picture decodes and
    whose masks above 0.5 hold probabilities and have the picture's shape
    hands [cv2.imwrite] a picture of the same shape in which every pixel
    is the converted input with the colours of the instances above 0.5
    mixed in half and half, in order, where 255 times their mask is at
    least 129; three numbers of the generator are used per such instance.
    The three outcomes of [cv2.imwrite] end the run as for detection. *)
Theorem segmentation_writes_the_blended_picture
  (request : HttpRequest) (w : World) (f : UploadedFile)
  (stored : string) (tape' : list string) (a : image) (preds : list Instance) :
  method request = "POST" ->
  FILES request !! "image" = Some f ->
  file_name f <> "" ->
  get_available_name (media w) (file_name f) (name_tape w) = Some (stored, tape') ->
  pil_decode (file_content f) = Ok a ->
  maskrcnn_predict (image_tensor a) = Ok preds ->
  well_formed a ->
  Forall uint8_pixel (nd_data a) ->
  Forall (fun inst => IEEE.is_binary32 (inst_score inst)) preds ->
  Forall (fun inst =>
            IEEE.gt (inst_score inst) (1 # 2) ->
            well_formed (inst_mask inst) /\
            same_shape a (inst_mask inst) = true /\
            Forall probability (nd_data (inst_mask inst))) preds ->
  let processed := ("processed_" ++ stored)%string in
  let page := render "segmentation_result.html"
                {[ "original" := stored; "processed" := processed ]} in
  exists w' out,
    nd_rows out = nd_rows a /\
    nd_cols out = nd_cols a /\
    length (nd_data out) = length (nd_data a) /\
    (forall i p,
       nd_data a !! i = Some p ->
       nd_data out !! i = Some (blended (np_drawn w) preds i (swap_rb p))) /\
    segmentation request w =
      Some (match cv2_imwrite processed out with
            | ImwriteTrue _ => Ok page
            | ImwriteFalse _ => Ok page
            | ImwriteError => Raise cv2_error
            end, w') /\
    media w' = match cv2_imwrite processed out with
               | ImwriteTrue data =>
                   <[processed := data]> (<[stored := file_content f]> (media w))
               | ImwriteFalse rest =>
                   partial_alter (leftover rest) processed
                     (<[stored := file_content f]> (media w))
               | ImwriteError => <[stored := file_content f]> (media w)
               end /\
    np_drawn w' =
      (3 * length (List.filter (fun inst => IEEE.gt_bool (inst_score inst) (1 # 2)) preds)
       + np_drawn w)%nat.
Proof.
  intros Hm Hf Hn Hname Hdec Hpreds Hwf Hpix Hsc Hmasks processed page.
  pose proof (blend_steps_pixels a preds (np_drawn w) Hwf Hpix Hsc Hmasks) as Hout.
  cbv zeta in Hout. destruct Hout as (Hlen & _ & Hpx).
  rewrite segmentation_is_upload_view.
  rewrite (upload_view_run segment _ _ request w f stored tape' a Hm Hf Hn Hname Hdec).
  cbv zeta.
  set (w1 := log (EvSave stored) _).
  set (image_np := fresh (dom (arrays w))).
  set (w2 := set_arrays (insert image_np a) w1).
  rewrite (segment_blended image_np w2 a preds); try done.
  2:{ unfold w2; cbn. apply lookup_insert_eq. }
  2:{ rewrite Forall_forall in Hmasks, Hsc. apply Forall_forall. intros inst Hin Hk.
      apply (Hmasks inst Hin). apply gt_bool_spec.
      by rewrite <- (score_kept_gt _ (Hsc inst Hin)). }
  cbv zeta. cbn [arrays]. rewrite lookup_total_insert_eq.
  change (np_drawn w2) with (np_drawn w). fold processed.
  set (out := NdArray (nd_rows a) (nd_cols a) _).
  rewrite (blend_steps_length preds Hsc).
  destruct (cv2_imwrite processed out) as [bytes | rest |] eqn:Hw;
    eexists _, out; rewrite Hw;
    (split; [reflexivity|]); (split; [reflexivity|]); (split; [exact Hlen|]);
    (split; [exact Hpx|]); (split; [reflexivity|]); cbn; done.
Qed.

End CompletedRuns.

(** X10.  [int(i)] on the four corners of a box cuts each corner's fraction off,
    toward zero, when all four are finite; otherwise line 43 raises
    [ValueError] (a NaN) or [OverflowError] (an infinity), the one of the
    first corner that is not finite. *)
Theorem int_box_truncates_toward_zero (b0 b1 b2 b3 : spec_float) :
  match float_value b0, float_value b1, float_value b2, float_value b3 with
  | Some q0, Some q1, Some q2, Some q3 =>
      int_box (b0, b1, b2, b3) =
        Ok (IEEE.Qtrunc q0, IEEE.Qtrunc q1, IEEE.Qtrunc q2, IEEE.Qtrunc q3)
  | _, _, _, _ =>
      exists b,
        List.find (fun x => match float_value x with None => true | Some _ => false end)
          [b0; b1; b2; b3] = Some b /\
        int_box (b0, b1, b2, b3) =
          Raise (match b with S754_infinity _ => OverflowError | _ => ValueError end)
  end.
Proof.
  pose proof (py_int_value b0) as H0. pose proof (py_int_value b1) as H1.
  pose proof (py_int_value b2) as H2. pose proof (py_int_value b3) as H3.
  unfold int_box. cbn [List.find].
  destruct (float_value b0); rewrite H0; [| by exists b0].
  destruct (float_value b1); rewrite H1; [| by exists b1].
  destruct (float_value b2); rewrite H2; [| by exists b2].
  destruct (float_value b3); rewrite H3; [| by exists b3].
  reflexivity.
Qed.

(** X13.  The colour conversion of lines 41 and 77 is its own inverse, and it
    keeps the shape, the number of pixels and the uint8 range. *)
Theorem cvtColor_RGB2BGR_is_an_involution (a : image) :
  cvtColor_RGB2BGR (cvtColor_RGB2BGR a) = a /\
  same_shape a (cvtColor_RGB2BGR a) = true /\
  (well_formed a -> well_formed (cvtColor_RGB2BGR a)) /\
  (Forall uint8_pixel (nd_data a) ->
   Forall uint8_pixel (nd_data (cvtColor_RGB2BGR a))).
Proof.
  split; [| apply cvtColor_RGB2BGR_facts].
  destruct a as [rows cols data]. unfold cvtColor_RGB2BGR, nd_map. cbn.
  f_equal. rewrite map_map. rewrite <- (map_id data) at 2.
  apply map_ext. apply swap_rb_involutive.
Qed.

(** X14.  Line 72 hands the network three planes of the picture's height and
    width, every value a float32 between 0 and 1, with byte 0 sent to 0
    and byte 255 to 1. *)
Theorem image_tensor_is_three_planes_in_unit_interval (a : image) :
  Forall uint8_pixel (nd_data a) ->
  length (image_tensor a) = 3%nat /\
  Forall (fun plane =>
            same_shape a plane = true /\
            length (nd_data plane) = length (nd_data a) /\
            Forall (fun x => IEEE.is_binary32 x /\ IEEE.ge x 0 /\ ~ IEEE.gt x 1)
              (nd_data plane))
    (image_tensor a) /\
  f32_div255 0 = S754_zero false /\
  f32_div255 255 = S754_finite false 8388608 (-23).
Proof.
  intros Hpix. split; [reflexivity|]. split; [| split; reflexivity].
  unfold image_tensor.
  repeat apply Forall_cons_2; try apply Forall_nil_2.
  all: split; [apply (same_shape_refl a)|]; split; [apply length_map|].
  all: cbn [nd_map nd_data]; apply Forall_map.
  all: eapply Forall_impl; [exact Hpix|].
  all: intros [[r g] b] (Hr & Hg & Hb); cbn in *; by apply div255_unit.
Qed.

(** ** Runs the loops stop *)

Section StoppedRuns.
Context {L : Libraries}.

(** X8.  The drawing loop stops at the first kept row on which one of the
    lines 43 to 47 raises: the request ends with that exception
    ([ValueError] or [OverflowError] of [int], [KeyError] of the label
    lookup, [cv2.error] of a point outside a C [int]), the rows before it
    have been drawn, of the row itself the rectangle only and only when
    it is line 47 that raises, no row after it is drawn, and no output
    file is written; the upload stays stored. *)
Theorem detection_stops_at_first_undrawable_row
  (request : HttpRequest) (w : World) (f : UploadedFile)
  (stored : string) (tape' : list string) (a : image)
  (raw pre post : list RawDetection) (d : RawDetection)
  (plans : list (Z * Z * Z * Z * string)) (e : exn) :
  method request = "POST" ->
  FILES request !! "image" = Some f ->
  file_name f <> "" ->
  get_available_name (media w) (file_name f) (name_tape w) = Some (stored, tape') ->
  pil_decode (file_content f) = Ok a ->
  detr_predict a = Ok raw ->
  post_process_object_detection raw IEEE.py_float_0_9 = pre ++ d :: post ->
  mapM draw_plan pre = Some plans ->
  draw_error d = Some e ->
  exists w' l,
    detection request w = Some (Raise e, w') /\
    (e = ValueError \/ e = OverflowError \/ e = KeyError \/ e = cv2_error) /\
    media w' = <[stored := file_content f]> (media w) /\
    events w' = events w ++ EvSave stored :: EvForward DETR
                  :: concat (map (draw_events l) plans)
                  ++ match drawn_before_error d with
                     | Some (x0, y0, x1, y1) => [EvRectangle l (x0, y0) (x1, y1)]
                     | None => []
                     end.
Proof.
  intros Hm Hf Hn Hname Hdec Hraw Hkept Hplans Herr.
  destruct (detection_row_failure request w f stored tape' a raw pre post d plans e
              Hm Hf Hn Hname Hdec Hraw Hkept Hplans Herr)
    as (w' & l & Hrun & Hmed & _ & Hev).
  exists w', l. split; [exact Hrun|].
  split; [exact (draw_error_class d e Herr)|]. by split.
Qed.


(** X11.  The segmentation pipeline never writes to the decoded array: on every
    outcome the array object [image_np] holds the pixels it held before,
    the working copy is another object, and every masked assignment is
    made on that other object. *)
Theorem segmentation_leaves_decoded_array_unchanged
  (image_np : loc) (w : World) (a : image) :
  arrays w !! image_np = Some a ->
  exists r w' evs,
    segment image_np w = Some (r, w') /\
    arrays w' !! image_np = Some a /\
    events w' = events w ++ EvForward MaskRCNN :: evs /\
    (forall image_cv, r = Ok image_cv -> image_cv <> image_np) /\
    (forall l sel color, In (EvMaskedAssign l sel color) evs -> l <> image_np).
Proof.
  intros Hl.
  destruct (segment_ok image_np w a Hl) as (r & w' & evs & Hrun & _ & _ & Ha & He & Hd & Hr).
  exists r, w', evs.
  pose proof (fresh_not_live w image_np a Hl) as Hne.
  rewrite Forall_forall in Hd.
  repeat split; try done.
  - intros image_cv Hok. rewrite (Hr image_cv Hok). exact Hne.
  - intros l sel color Hin. apply list_elem_of_In, Hd in Hin. cbn in Hin. by subst l.
Qed.

(** X12.  The working copy of the segmentation pipeline stays a picture: with
    masks of the picture's height and width it ends with the picture's
    shape, as many pixels, and every channel a byte. *)
Theorem segmentation_keeps_a_uint8_picture
  (image_np : loc) (w : World) (a : image) (preds : list Instance) :
  arrays w !! image_np = Some a ->
  maskrcnn_predict (image_tensor a) = Ok preds ->
  well_formed a ->
  Forall uint8_pixel (nd_data a) ->
  Forall (fun inst => well_formed (inst_mask inst) /\
                      same_shape a (inst_mask inst) = true) preds ->
  exists l w' out,
    segment image_np w = Some (Ok l, w') /\
    arrays w' !! l = Some out /\
    same_shape a out = true /\
    well_formed out /\
    Forall uint8_pixel (nd_data out).
Proof.
  intros Hl Hpreds Hwf Hpix Hmasks.
  rewrite (segment_blended image_np w a preds Hl Hpreds).
  2:{ eapply Forall_impl; [exact Hmasks|]. by intros inst [_ H] _. }
  cbv zeta.
  destruct (cvtColor_RGB2BGR_facts a) as (Hshape & Hwf' & Hpix').
  destruct (fold_blend_data_uint8 (blend_steps (np_drawn w) preds)
              (nd_data (cvtColor_RGB2BGR a))) as [Hlen Hbytes].
  - apply blend_steps_lengths; [by apply Hwf'|].
    eapply Forall_impl; [exact Hmasks|]. intros inst [H1 H2]. split; [exact H1|].
    unfold same_shape in *. cbn. exact H2.
  - apply blend_steps_colors.
  - by apply Hpix'.
  - eexists _, _, _. split; [reflexivity|]. cbn [arrays].
    split; [apply lookup_insert_eq|]. split; [apply (same_shape_refl a)|].
    split; [| exact Hbytes].
    unfold well_formed. cbn [nd_data nd_rows nd_cols]. rewrite Hlen.
    cbn. rewrite length_map. exact Hwf.
Qed.

End StoppedRuns.

(** ** Runs of the further properties *)

Lemma dispatch_without_post_changes_nothing_witness :
  exists r,
    @dispatch Stub.lib "detection/" Stub.get_page Stub.empty_world
      = Some (r, Stub.empty_world) /\
    ("detection/"%string = ""%string -> r = Ok (render "index.html" ∅)) /\
    ("detection/"%string = "detection/"%string -> r = Ok (render "detection.html" ∅)) /\
    ("detection/"%string = "segmentation/"%string ->
     r = Ok (render "segmentation.html" ∅)) /\
    ("detection/"%string <> ""%string -> "detection/"%string <> "detection/"%string ->
     "detection/"%string <> "segmentation/"%string -> r = Raise Resolver404).
Proof.
  apply (@dispatch_without_post_changes_nothing Stub.lib "detection/"
           Stub.get_page Stub.empty_world).
  discriminate.
Defined.

Lemma post_with_unnamed_file_renders_the_form_witness :
  @detection Stub.lib (Stub.upload "" [Byte.x07]) Stub.empty_world
    = Some (Ok (render "detection.html" ∅), Stub.empty_world) /\
  @segmentation Stub.lib (Stub.upload "" [Byte.x07]) Stub.empty_world
    = Some (Ok (render "segmentation.html" ∅), Stub.empty_world).
Proof.
  apply (@post_with_unnamed_file_renders_the_form Stub.lib
           (Stub.upload "" [Byte.x07]) Stub.empty_world (Sample.file "" [Byte.x07])).
  - reflexivity.
  - reflexivity.
Defined.

Lemma views_only_touch_their_two_files_witness :
  media (Stub.world_of Stub.second_run) = media (Stub.world_of Stub.first_run) \/
  exists f stored,
    FILES (Stub.upload "a.png" [Byte.x09]) !! "image" = Some f /\
    media (Stub.world_of Stub.first_run) !! stored = None /\
    media (Stub.world_of Stub.second_run) !! stored = Some (file_content f) /\
    (forall n, n <> stored -> n <> ("processed_" ++ stored)%string ->
               media (Stub.world_of Stub.second_run) !! n
               = media (Stub.world_of Stub.first_run) !! n) /\
    (forall e, Ok (Stub.response_of Stub.second_run) = Raise e ->
               media (Stub.world_of Stub.second_run) !! ("processed_" ++ stored)%string =
               media (Stub.world_of Stub.first_run) !! ("processed_" ++ stored)%string).
Proof.
  apply (@views_only_touch_their_two_files Stub.lib
           (Stub.upload "a.png" [Byte.x09]) (Stub.world_of Stub.first_run)
           (Ok (Stub.response_of Stub.second_run)) (Stub.world_of Stub.second_run)).
  left. vm_compute. reflexivity.
Defined.

Lemma output_name_keeps_the_upload_extension_witness :
  ("a" ++ ".png")%string = "a.png"%string /\
  (".png"%string = ""%string \/ exists rest, ".png"%string = String "." rest) /\
  exists stem,
    context (Stub.response_of Stub.second_run) !! "original"
      = Some (stem ++ ".png")%string /\
    context (Stub.response_of Stub.second_run) !! "processed"
      = Some ("processed_" ++ stem ++ ".png")%string /\
    (stem = "a"%string \/
     exists rnd, In rnd (name_tape (Stub.world_of Stub.first_run)) /\
                 stem = ("a" ++ "_" ++ rnd)%string).
Proof.
  apply (@output_name_keeps_the_upload_extension Stub.lib
           (Stub.upload "a.png" [Byte.x09]) (Stub.world_of Stub.first_run)
           (Sample.file "a.png" [Byte.x09])
           (Stub.response_of Stub.second_run) (Stub.world_of Stub.second_run)).
  - reflexivity.
  - reflexivity.
  - discriminate.
  - left. vm_compute. reflexivity.
Defined.

Lemma completed_run_orders_its_effects_witness :
  exists stored l draws returned,
    arrays Stub.empty_world !! l = None /\ Forall (draws_on l) draws /\
    events (Stub.world_of Stub.first_run) =
      events Stub.empty_world ++ EvSave stored :: EvForward DETR :: draws
        ++ [EvImwrite ("processed_" ++ stored) returned] /\
    if returned
    then exists data,
           media (Stub.world_of Stub.first_run) =
             <[("processed_" ++ stored)%string := data]>
               (<[stored := [Byte.x07]]> (media Stub.empty_world))
    else exists rest,
           media (Stub.world_of Stub.first_run) =
             partial_alter (leftover rest) ("processed_" ++ stored)%string
               (<[stored := [Byte.x07]]> (media Stub.empty_world)).
Proof.
  apply (@completed_run_orders_its_effects Stub.lib
           (Stub.upload "a.png" [Byte.x07]) Stub.empty_world
           (Sample.file "a.png" [Byte.x07])
           (Stub.response_of Stub.first_run) (Stub.world_of Stub.first_run)
           eq_refl eq_refl ltac:(discriminate) DETR).
  left. split; [reflexivity|]. vm_compute. reflexivity.
Defined.

Lemma detection_writes_the_drawn_picture_witness :
  (exists w',
     @detection Stub.lib (Stub.upload "a.png" [Byte.x07]) Stub.empty_world =
       Some (Ok (render "detection_result.html"
                   {[ "original" := "a.png"%string;
                      "processed" := "processed_a.png"%string ]}), w') /\
     media w' =
       <[ "processed_a.png"%string :=
            [Byte.x00; Byte.x00; Byte.x07; Byte.x00; Byte.xff; Byte.x00] ]>
         (<[ "a.png"%string := [Byte.x07] ]> (media Stub.empty_world)) /\
     np_drawn w' = np_drawn Stub.empty_world) /\
  (exists w',
     @detection Sample.refusing (Stub.upload "a.png" [Byte.x07]) Stub.empty_world =
       Some (Ok (render "detection_result.html"
                   {[ "original" := "a.png"%string;
                      "processed" := "processed_a.png"%string ]}), w') /\
     media w' =
       partial_alter (leftover Removed) "processed_a.png"%string
         (<[ "a.png"%string := [Byte.x07] ]> (media Stub.empty_world)) /\
     np_drawn w' = np_drawn Stub.empty_world).
Proof.
  split.
  - apply (@detection_writes_the_drawn_picture Stub.lib
             (Stub.upload "a.png" [Byte.x07]) Stub.empty_world
             (Sample.file "a.png" [Byte.x07]) "a.png" ["AbCdEfG"%string]
             Sample.decoded Stub.detections [Sample.plan]).
    + reflexivity.
    + reflexivity.
    + discriminate.
    + reflexivity.
    + reflexivity.
    + reflexivity.
    + vm_compute. reflexivity.
  - apply (@detection_writes_the_drawn_picture Sample.refusing
             (Stub.upload "a.png" [Byte.x07]) Stub.empty_world
             (Sample.file "a.png" [Byte.x07]) "a.png" ["AbCdEfG"%string]
             Sample.decoded Stub.detections [Sample.plan]).
    + reflexivity.
    + reflexivity.
    + discriminate.
    + reflexivity.
    + reflexivity.
    + reflexivity.
    + vm_compute. reflexivity.
Defined.

Lemma segmentation_writes_the_blended_picture_witness :
  exists w' out,
    nd_rows out = 1%nat /\
    nd_cols out = 2%nat /\
    length (nd_data out) = 2%nat /\
    (forall i p,
       nd_data Sample.decoded !! i = Some p ->
       nd_data out !! i = Some (@blended Stub.lib 0 Stub.instances i (swap_rb p))) /\
    @segmentation Stub.lib (Stub.upload "a.png" [Byte.x07]) Stub.empty_world =
      Some (match @cv2_imwrite Stub.lib "processed_a.png" out with
            | ImwriteTrue _ =>
                Ok (render "segmentation_result.html"
                      {[ "original" := "a.png"%string;
                         "processed" := "processed_a.png"%string ]})
            | ImwriteFalse _ =>
                Ok (render "segmentation_result.html"
                      {[ "original" := "a.png"%string;
                         "processed" := "processed_a.png"%string ]})
            | ImwriteError => Raise cv2_error
            end, w') /\
    media w' = match @cv2_imwrite Stub.lib "processed_a.png" out with
               | ImwriteTrue data =>
                   <[ "processed_a.png"%string := data ]>
                     (<[ "a.png"%string := [Byte.x07] ]> (media Stub.empty_world))
               | ImwriteFalse rest =>
                   partial_alter (leftover rest) "processed_a.png"%string
                     (<[ "a.png"%string := [Byte.x07] ]> (media Stub.empty_world))
               | ImwriteError => <[ "a.png"%string := [Byte.x07] ]> (media Stub.empty_world)
               end /\
    np_drawn w' = (3 * 2 + 0)%nat.
Proof.
  apply (@segmentation_writes_the_blended_picture Stub.lib
           (Stub.upload "a.png" [Byte.x07]) Stub.empty_world
           (Sample.file "a.png" [Byte.x07]) "a.png" ["AbCdEfG"%string]
           Sample.decoded Stub.instances).
  - reflexivity.
  - reflexivity.
  - discriminate.
  - reflexivity.
  - reflexivity.
  - reflexivity.
  - reflexivity.
  - repeat (constructor; [unfold uint8_pixel; cbn; lia|]). constructor.
  - repeat (constructor; [reflexivity|]). constructor.
  - repeat (constructor;
            [intros _; split; [reflexivity|]; split; [reflexivity|];
             repeat (constructor; [apply unit_float32_probability; reflexivity|]);
             constructor|]).
    constructor.
Defined.

Lemma detection_stops_at_first_undrawable_row_witness :
  (exists w' l,
     @detection Sample.lib (Stub.upload "a.png" [Byte.x07]) Stub.empty_world
       = Some (Raise KeyError, w') /\
     (KeyError = ValueError \/ KeyError = OverflowError \/ KeyError = KeyError \/
      KeyError = cv2_error) /\
     media w' = <[ "a.png"%string := [Byte.x07] ]> (media Stub.empty_world) /\
     events w' = events Stub.empty_world ++ EvSave "a.png" :: EvForward DETR
                   :: concat (map (draw_events l) [Sample.plan]) ++ []) /\
  (exists w' l,
     @detection Sample.wide_lib (Stub.upload "a.png" [Byte.x07]) Stub.empty_world
       = Some (Raise cv2_error, w') /\
     (cv2_error = ValueError \/ cv2_error = OverflowError \/ cv2_error = KeyError \/
      cv2_error = cv2_error) /\
     media w' = <[ "a.png"%string := [Byte.x07] ]> (media Stub.empty_world) /\
     events w' = events Stub.empty_world ++ EvSave "a.png" :: EvForward DETR
                   :: concat (map (draw_events l) []) ++ []).
Proof.
  split.
  - apply (@detection_stops_at_first_undrawable_row Sample.lib
             (Stub.upload "a.png" [Byte.x07]) Stub.empty_world
             (Sample.file "a.png" [Byte.x07]) "a.png" ["AbCdEfG"%string]
             Sample.decoded Sample.detections
             (firstn 1 Sample.detections) (skipn 2 Sample.detections)
             {| det_score := Stub.f32 31 (-5); det_label := 99;
                det_box := (S754_zero false, S754_zero false, Stub.f32 1 0, Stub.f32 1 0) |}
             [Sample.plan] KeyError).
    + reflexivity.
    + reflexivity.
    + discriminate.
    + reflexivity.
    + reflexivity.
    + reflexivity.
    + vm_compute. reflexivity.
    + vm_compute. reflexivity.
    + vm_compute. reflexivity.
  - apply (@detection_stops_at_first_undrawable_row Sample.wide_lib
             (Stub.upload "a.png" [Byte.x07]) Stub.empty_world
             (Sample.file "a.png" [Byte.x07]) "a.png" ["AbCdEfG"%string]
             Sample.decoded Sample.wide [] []
             {| det_score := Stub.f32 31 (-5); det_label := 17;
                det_box := (Stub.f32 1 31, S754_zero false, Stub.f32 1 0, Stub.f32 1 0) |}
             [] cv2_error).
    + reflexivity.
    + reflexivity.
    + discriminate.
    + reflexivity.
    + reflexivity.
    + reflexivity.
    + vm_compute. reflexivity.
    + reflexivity.
    + vm_compute. reflexivity.
Defined.


Lemma segmentation_leaves_decoded_array_unchanged_witness :
  exists r w' evs,
    @segment Stub.lib 1%positive Stub.with_picture = Some (r, w') /\
    arrays w' !! 1%positive = Some Stub.picture /\
    events w' = events Stub.with_picture ++ EvForward MaskRCNN :: evs /\
    (forall image_cv, r = Ok image_cv -> image_cv <> 1%positive) /\
    (forall l sel color, In (EvMaskedAssign l sel color) evs -> l <> 1%positive).
Proof.
  apply (@segmentation_leaves_decoded_array_unchanged Stub.lib 1%positive
           Stub.with_picture Stub.picture).
  reflexivity.
Defined.

Lemma segmentation_keeps_a_uint8_picture_witness :
  exists l w' out,
    @segment Stub.lib 1%positive Stub.with_picture = Some (Ok l, w') /\
    arrays w' !! l = Some out /\
    same_shape Stub.picture out = true /\
    well_formed out /\
    Forall uint8_pixel (nd_data out).
Proof.
  apply (@segmentation_keeps_a_uint8_picture Stub.lib 1%positive
           Stub.with_picture Stub.picture Stub.instances).
  - reflexivity.
  - reflexivity.
  - reflexivity.
  - repeat constructor; cbn; lia.
  - repeat constructor.
Defined.

Lemma image_tensor_is_three_planes_in_unit_interval_witness :
  length (image_tensor Stub.picture) = 3%nat /\
  Forall (fun plane =>
            same_shape Stub.picture plane = true /\
            length (nd_data plane) = length (nd_data Stub.picture) /\
            Forall (fun x => IEEE.is_binary32 x /\ IEEE.ge x 0 /\ ~ IEEE.gt x 1)
              (nd_data plane))
    (image_tensor Stub.picture) /\
  f32_div255 0 = S754_zero false /\
  f32_div255 255 = S754_finite false 8388608 (-23).
Proof.
  apply (image_tensor_is_three_planes_in_unit_interval Stub.picture).
  repeat constructor; cbn; lia.
Defined.

Lemma int_box_truncates_toward_zero_witness :
  int_box (Stub.f32 3 (-1), S754_finite true 3 (-2), Stub.f32 7 (-2), Stub.f32 1 0)
    = Ok (1, 0, 1, 1) /\
  exists b,
    List.find (fun x => match float_value x with None => true | Some _ => false end)
      [Stub.f32 1 0; S754_infinity false; S754_nan; Stub.f32 1 0] = Some b /\
    int_box (Stub.f32 1 0, S754_infinity false, S754_nan, Stub.f32 1 0) =
      Raise (match b with S754_infinity _ => OverflowError | _ => ValueError end).
Proof.
  split.
  - exact (int_box_truncates_toward_zero
             (Stub.f32 3 (-1)) (S754_finite true 3 (-2)) (Stub.f32 7 (-2)) (Stub.f32 1 0)).
  - exact (int_box_truncates_toward_zero
             (Stub.f32 1 0) (S754_infinity false) S754_nan (Stub.f32 1 0)).
Defined.

Lemma cvtColor_RGB2BGR_is_an_involution_witness :
  cvtColor_RGB2BGR (cvtColor_RGB2BGR Stub.picture) = Stub.picture /\
  same_shape Stub.picture (cvtColor_RGB2BGR Stub.picture) = true /\
  (well_formed Stub.picture -> well_formed (cvtColor_RGB2BGR Stub.picture)) /\
  (Forall uint8_pixel (nd_data Stub.picture) ->
   Forall uint8_pixel (nd_data (cvtColor_RGB2BGR Stub.picture))).
Proof. exact (cvtColor_RGB2BGR_is_an_involution Stub.picture). Defined.
